(** * rr: the preload shim's syscall buffer and the debugger diversion

    A shallow embedding of two parts of the recorder:

    - [src/share/syscall_buffer.c], the library preloaded into every
      recorded process: the seccomp-bpf filter it installs, the desched
      counter it opens, and the prologue and epilogue ([prep_syscall],
      [can_buffer_syscall], [commit_syscall]) of the buffered wrappers
      [clock_gettime] and [gettimeofday];
    - [src/diverter.cc], the loop that runs a diversion session under
      the debugger.

    The file first gives the definitions, in the order of the sources,
    and then the properties proved about them. *)

From Stdlib Require Import ZArith List Bool Lia String.
From stdpp Require Import base decidable option list countable gmap.

Local Open Scope Z_scope.

(** ** Linux ABI constants (i386)

    The shim enters the kernel with [int $0x80], so the numbers are the
    ones of the 32-bit x86 tables of the system headers. *)

Module Linux.

Definition SYS_restart_syscall : Z := 0.
Definition SYS_fork : Z := 2.
Definition SYS_write : Z := 4.
Definition SYS_getpid : Z := 20.
Definition SYS_kill : Z := 37.
Definition SYS_ioctl : Z := 54.
Definition SYS_gettimeofday : Z := 78.
Definition SYS_ipc : Z := 117.
Definition SYS_clone : Z := 120.
Definition SYS_prctl : Z := 172.
Definition SYS_rt_sigprocmask : Z := 175.
Definition SYS_rt_sigqueueinfo : Z := 178.
Definition SYS_fcntl64 : Z := 221.
Definition SYS_gettid : Z := 224.
Definition SYS_tkill : Z := 238.
Definition SYS_exit_group : Z := 252.
Definition SYS_clock_gettime : Z := 265.
Definition SYS_tgkill : Z := 270.
Definition SYS_rt_tgsigqueueinfo : Z := 335.
Definition SYS_perf_event_open : Z := 336.

Definition STDERR_FILENO : Z := 2.
Definition SIGABRT : Z := 6.
Definition SIGTRAP : Z := 5.
Definition SIGIO : Z := 29.
Definition ENOSYS : Z := 38.
Definition EHWPOISON : Z := 133.

Definition F_SETFL : Z := 4.
Definition F_SETSIG : Z := 10.
Definition F_SETOWN_EX : Z := 15.
Definition F_OWNER_TID : Z := 0.
Definition O_ASYNC : Z := 8192.

Definition PERF_TYPE_SOFTWARE : Z := 1.
Definition PERF_COUNT_SW_CONTEXT_SWITCHES : Z := 3.
Definition PERF_EVENT_IOC_ENABLE : Z := 9216.
Definition PERF_EVENT_IOC_DISABLE : Z := 9217.

Definition PR_SET_SECCOMP : Z := 22.
Definition PR_SET_NO_NEW_PRIVS : Z := 38.
Definition SECCOMP_MODE_FILTER : Z := 2.
Definition SECCOMP_RET_TRACE : Z := 2146435072.
Definition SECCOMP_RET_ALLOW : Z := 2147418112.

Definition SIG_BLOCK : Z := 0.
Definition SIG_SETMASK : Z := 2.

Definition sizeof_timespec : Z := 8.
Definition sizeof_timeval : Z := 8.
Definition sizeof_timezone : Z := 8.

(** Machine integers of the 32-bit build: pointers and [size_t] are
    unsigned 32-bit words, [int] and [long] signed ones. *)
Definition word : Z := 2 ^ 32.
Definition to_size_t (z : Z) : Z := z mod word.
Definition to_int (z : Z) : Z := (z + 2 ^ 31) mod word - 2 ^ 31.

End Linux.

(** ** Classic BPF, as far as the seccomp filter uses it *)

Module Bpf.
Import Linux.

(** [struct seccomp_data], the packet a seccomp filter runs on. *)
Record seccomp_data := {
  nr : Z;
  arch : Z;
  instruction_pointer : Z;
  args : list Z;
}.

(** The three instruction shapes the filter is built from. *)
Inductive sock_filter :=
| BPF_LD_W_ABS (k : Z)
| BPF_JEQ_K (k : Z) (jt jf : nat)
| BPF_RET_K (k : Z).

(** A 32-bit load at byte offset [k] of the little-endian packet:
    [nr] at 0, [arch] at 4, the 64-bit [instruction_pointer] at 8 and
    the six 64-bit [args] from 16 on. *)
Definition load_word (d : seccomp_data) (k : Z) : option Z :=
  if k =? 0 then Some (nr d mod word)
  else if k =? 4 then Some (arch d mod word)
  else if k =? 8 then Some (instruction_pointer d mod word)
  else if k =? 12 then Some ((instruction_pointer d / word) mod word)
  else if (16 <=? k) && (k <? 64) && (k mod 4 =? 0) then
    let a := nth (Z.to_nat ((k - 16) / 8)) (args d) 0 in
    Some (if k mod 8 =? 0 then a mod word else (a / word) mod word)
  else None.

(** Run a filter: [skip] instructions are jumped over first, [acc] is
    the accumulator.  Jumps only go forward, so the program text is
    consumed. A filter that runs off its end or loads outside the
    packet yields [None]. *)
Fixpoint bpf_run (skip : nat) (prog : list sock_filter) (acc : Z)
    (d : seccomp_data) : option Z :=
  match prog with
  | [] => None
  | i :: rest =>
      match skip with
      | S n => bpf_run n rest acc d
      | O =>
          match i with
          | BPF_LD_W_ABS k =>
              match load_word d k with
              | Some w => bpf_run 0 rest w d
              | None => None
              end
          | BPF_JEQ_K k jt jf =>
              bpf_run (if acc =? k mod word then jt else jf) rest acc d
          | BPF_RET_K k => Some k
          end
      end
  end.

Definition inst_ptr : Z := 8.
Definition syscall_nr : Z := 0.

(** Modelled from the spec: the macros of seccomp-bpf.h, which is not
    among the sources.  The spec has the filter allow, without a trap,
    a syscall whose instruction pointer equals the given callsite. *)
Definition ALLOW_SYSCALLS_FROM_CALLSITE (callsite : Z) : list sock_filter :=
  [ BPF_LD_W_ABS inst_ptr;
    BPF_JEQ_K callsite 0 1;
    BPF_RET_K SECCOMP_RET_ALLOW ].

(** Modelled from the spec: seccomp-bpf.h is not among the sources;
    "Grab the system call number". *)
Definition EXAMINE_SYSCALL : list sock_filter :=
  [ BPF_LD_W_ABS syscall_nr ].

(** Modelled from the spec: seccomp-bpf.h is not among the sources;
    the named syscall is allowed without a trap from any callsite. *)
Definition ALLOW_SYSCALL (name : Z) : list sock_filter :=
  [ BPF_JEQ_K name 0 1;
    BPF_RET_K SECCOMP_RET_ALLOW ].

(** Modelled from the spec: seccomp-bpf.h is not among the sources;
    every other syscall is stopped and traced. *)
Definition TRACE_PROCESS : list sock_filter :=
  [ BPF_RET_K SECCOMP_RET_TRACE ].

(** The array [filter] of [install_syscall_filter]. *)
Definition filter (protected_call_start : Z) : list sock_filter :=
  ALLOW_SYSCALLS_FROM_CALLSITE (to_size_t protected_call_start) ++
  EXAMINE_SYSCALL ++
  ALLOW_SYSCALL SYS_clone ++
  ALLOW_SYSCALL SYS_fork ++
  ALLOW_SYSCALL SYS_restart_syscall ++
  TRACE_PROCESS.

(** The verdict of the installed filter on one syscall. *)
Definition seccomp_verdict (protected_call_start : Z) (d : seccomp_data)
    : option Z :=
  bpf_run 0 (filter protected_call_start) 0 d.

(** A packet of a 32-bit task: the syscall number and the instruction
    pointer are 32-bit words. *)
Definition i386_data (d : seccomp_data) : Prop :=
  0 <= nr d < word /\ 0 <= instruction_pointer d < word.

End Bpf.

(** ** The preload shim: [src/share/syscall_buffer.c] *)

Module Preload.
Import Linux Bpf.

(** What the sources leave to syscall_buffer.h, to the system headers
    and to the loader.  The header declares the ring's size, the two
    structs and [stored_record_size] (from a [size_t] length to an
    [int]); the address of the label [_untraced_syscall_entry_point_ip]
    is fixed when the library is loaded. *)
Class SyscallBufferH := {
  SYSCALLBUF_BUFFER_SIZE : Z;
  sizeof_syscallbuf_hdr : Z;
  sizeof_syscallbuf_record : Z;
  stored_record_size : Z -> Z;
  RRCALL_init_syscall_buffer : Z;
  sizeof_perf_event_attr : Z;
  untraced_syscall_entry_point_ip : Z;
}.

(** *** The shared mapping

    The mapping is addressed by struct and field: [(a, f)] is the field
    [f] of the struct that starts at address [a].  The header
    ([struct syscallbuf_hdr]) sits at [buffer], the records
    ([struct syscallbuf_record]) at the successive values of
    [buffer_last()].  The widths of the bit-fields are in the absent
    header: a field reads back the value that was stored in it.  The
    outparam bytes that follow a record are not modelled; the copies
    made of them are logged. *)
Inductive field :=
| hdr_num_rec_bytes | hdr_abort_commit
| rec_ret | rec_syscallno | rec_desched | rec_size.

#[global] Instance field_eq_dec : EqDecision field.
Proof. solve_decision. Defined.

Definition field_code (f : field) : nat :=
  match f with
  | hdr_num_rec_bytes => 0 | hdr_abort_commit => 1
  | rec_ret => 2 | rec_syscallno => 3 | rec_desched => 4 | rec_size => 5
  end%nat.

Definition field_of_code (n : nat) : field :=
  match n with
  | 0 => hdr_num_rec_bytes | 1 => hdr_abort_commit
  | 2 => rec_ret | 3 => rec_syscallno | 4 => rec_desched | _ => rec_size
  end%nat.

#[global] Instance field_countable : Countable field.
Proof.
  refine (inj_countable' field_code field_of_code _).
  intros []; reflexivity.
Defined.

Abbreviation memory := (gmap (Z * field) Z).

(** What the shim writes, in program order. *)
Inductive write :=
| W_mem (a : Z) (f : field) (v : Z)
| W_buffer (v : Z)
| W_buffer_locked (v : Z)
| W_desched_counter_fd (v : Z)
| W_errno (v : Z)
| W_memcpy (dst src n : Z).

Record shim_state := {
  is_seccomp_bpf_installed : Z;
  atfork_child_drop_buffer : bool;
  buffer : Z;
  buffer_locked : Z;
  desched_counter_fd : Z;
  errno : Z;
  mem : memory;
  writes : list write;
}.

Definition with_installed (v : Z) (s : shim_state) : shim_state :=
  {| is_seccomp_bpf_installed := v;
     atfork_child_drop_buffer := atfork_child_drop_buffer s;
     buffer := buffer s; buffer_locked := buffer_locked s;
     desched_counter_fd := desched_counter_fd s; errno := errno s;
     mem := mem s; writes := writes s |}.

Definition with_atfork (v : bool) (s : shim_state) : shim_state :=
  {| is_seccomp_bpf_installed := is_seccomp_bpf_installed s;
     atfork_child_drop_buffer := v;
     buffer := buffer s; buffer_locked := buffer_locked s;
     desched_counter_fd := desched_counter_fd s; errno := errno s;
     mem := mem s; writes := writes s |}.

Definition with_mem (m : memory) (s : shim_state) : shim_state :=
  {| is_seccomp_bpf_installed := is_seccomp_bpf_installed s;
     atfork_child_drop_buffer := atfork_child_drop_buffer s;
     buffer := buffer s; buffer_locked := buffer_locked s;
     desched_counter_fd := desched_counter_fd s; errno := errno s;
     mem := m; writes := writes s |}.

(** One write: the state changes and the write is logged. *)
Definition do_write (w : write) (s : shim_state) : shim_state :=
  {| is_seccomp_bpf_installed := is_seccomp_bpf_installed s;
     atfork_child_drop_buffer := atfork_child_drop_buffer s;
     buffer := match w with W_buffer v => v | _ => buffer s end;
     buffer_locked :=
       match w with W_buffer_locked v => v | _ => buffer_locked s end;
     desched_counter_fd :=
       match w with
       | W_desched_counter_fd v => v | _ => desched_counter_fd s
       end;
     errno := match w with W_errno v => v | _ => errno s end;
     mem := match w with W_mem a f v => <[(a, f) := v]> (mem s) | _ => mem s end;
     writes := writes s ++ [w] |}.

(** A read of the shared mapping.  The model has no faults: a field
    that was never written reads as 0, also at an address where nothing
    is mapped, where the real shim would die of a signal.  The
    properties that read through the ring pointer assume the ring
    mapped ([ring_ok]), or are about the runs that return or about the
    entries made. *)
Definition load (s : shim_state) (a : Z) (f : field) : Z :=
  default 0 (mem s !! (a, f)).

(** *** Kernel entries

    A syscall either traps to the tracer ([Traced]: it is issued from
    libc's [syscall()]) or goes to the kernel directly ([Untraced]: it is
    issued from [_untraced_syscall_entry_point]).  Arguments that point
    to an object the shim has just filled in carry the object. *)
Record perf_event_attr := {
  attr_type : Z;
  attr_size : Z;
  attr_config : Z;
  attr_sample_period : Z;
  attr_disabled : Z;
}.

Record f_owner_ex := { own_type : Z; own_pid : Z }.

Inductive arg :=
| AInt (z : Z)
| APtr (p : Z)
| AAttr (a : perf_event_attr)
| AOwner (o : f_owner_ex)
| AFprog (len : Z) (f : list sock_filter)
| AText (fmt : string)
| ATextLen (fmt : string)
| ASockaddr (tid : Z)
| AMsg (fd : Z)
| ACmsgFd (fd : Z)
| ALocal (name : string).

Inductive entry :=
| Traced (no : Z) (args : list arg)
| Untraced (no : Z) (args : list arg).

(** What comes back from a kernel entry: the value in [eax], and the
    shared mapping as the tracer leaves it (the tracer reads and writes
    the mapping only while the tracee is stopped). *)
Record reply := {
  reply_ret : Z;
  reply_mem : memory -> memory;
}.

(** A run of shim code up to its next kernel entry. *)
Inductive prog (A : Type) : Type :=
| Done (a : A)
| Enter (e : entry) (k : reply -> prog A)
| Gone.
Arguments Done {A} a.
Arguments Enter {A} e k.
Arguments Gone {A}.

Fixpoint prog_bind {A B} (p : prog A) (f : A -> prog B) : prog B :=
  match p with
  | Done a => f a
  | Enter e k => Enter e (fun r => prog_bind (k r) f)
  | Gone => Gone
  end.

Definition shim (A : Type) : Type := shim_state -> prog (A * shim_state).

Definition pure {A} (a : A) : shim A := fun s => Done (a, s).

Definition bind {A B} (m : shim A) (f : A -> shim B) : shim B :=
  fun s => prog_bind (m s) (fun '(a, s') => f a s').

Declare Scope shim_scope.
Delimit Scope shim_scope with shim.
Notation "x <- m ;; k" := (bind m (fun x => k))
  (at level 100, m at next level, k at level 200, right associativity)
  : shim_scope.
Notation "m ;; k" := (bind m (fun _ => k))
  (at level 100, k at level 200, right associativity) : shim_scope.
Local Open Scope shim_scope.

Definition get : shim shim_state := fun s => Done (s, s).
Definition put_write (w : write) : shim unit :=
  fun s => Done (tt, do_write w s).
Definition modify (f : shim_state -> shim_state) : shim unit :=
  fun s => Done (tt, f s).

Definition enter (e : entry) : shim Z :=
  fun s => Enter e (fun r => Done (reply_ret r, with_mem (reply_mem r (mem s)) s)).

(** The outcome of a run against the replies the kernel gives, with the
    entries made on the way and what came back from each. *)
Inductive outcome (A : Type) : Type :=
| Returned (a : A)
| InKernel (e : entry)
| Exited.
Arguments Returned {A} a.
Arguments InKernel {A} e.
Arguments Exited {A}.

Fixpoint run {A} (p : prog A) (replies : list reply)
    : list (entry * reply) * outcome A :=
  match p with
  | Done a => ([], Returned a)
  | Gone => ([], Exited)
  | Enter e k =>
      match replies with
      | [] => ([], InKernel e)
      | r :: replies' =>
          let '(t, o) := run (k r) replies' in ((e, r) :: t, o)
      end
  end.

(** The same as a relation: [p] returns [a] after the entries and
    replies of [t]. *)
Inductive returns_after {A : Type} : prog A -> list (entry * reply) -> A -> Prop :=
| returns_done (a : A) : returns_after (Done a) [] a
| returns_enter (e : entry) (k : reply -> prog A) (r : reply)
    (t : list (entry * reply)) (a : A) :
    returns_after (k r) t a -> returns_after (Enter e k) ((e, r) :: t) a.

(** [p] ends the process after the entries and replies of [t]. *)
Inductive exits_after {A : Type} : prog A -> list (entry * reply) -> Prop :=
| exits_gone : exits_after Gone []
| exits_enter (e : entry) (k : reply -> prog A) (r : reply)
    (t : list (entry * reply)) :
    exits_after (k r) t -> exits_after (Enter e k) ((e, r) :: t).

(** *** Pointers *)

Definition NULL : Z := 0.
Definition ptr_add (p n : Z) : Z := (p + n) mod word.

Section Shim.
Context `{H : SyscallBufferH}.

Definition buffer_hdr (s : shim_state) : Z := buffer s.

Definition buffer_last (s : shim_state) : Z :=
  ptr_add (ptr_add (buffer s) sizeof_syscallbuf_hdr)
          (load s (buffer_hdr s) hdr_num_rec_bytes).

Definition buffer_end (s : shim_state) : Z :=
  ptr_add (buffer s) SYSCALLBUF_BUFFER_SIZE.

(** The raw kernel values that stand for an error. *)
Definition libc_error (r : Z) : bool := (-4095 <=? r) && (r <? 0).

(** libc's [syscall()]: it traps, and an error comes back as -1 with
    [errno] set. *)
Definition syscall (no : Z) (args : list arg) : shim Z :=
  r <- enter (Traced no args) ;;
  if libc_error r
  then put_write (W_errno (- r)) ;; pure (-1)
  else pure r.

(** What [syscall()] returns and writes for a raw kernel value. *)
Definition libc_ret (r : Z) : Z := if libc_error r then -1 else r.
Definition libc_errno_writes (r : Z) : list write :=
  if libc_error r then [W_errno (- r)] else [].

Definition traced__exit {A} (status : Z) : shim A :=
  fun s => Enter (Traced SYS_exit_group [AInt status]) (fun _ => Gone).

Definition traced_fcntl (fd cmd : Z) (a : arg) : shim Z :=
  syscall SYS_fcntl64 [AInt fd; AInt cmd; a].

Definition traced_getpid : shim Z := syscall SYS_getpid [].

Definition traced_gettid : shim Z := syscall SYS_gettid [].

Definition traced_perf_event_open (attr : perf_event_attr)
    (pid cpu group_fd flags : Z) : shim Z :=
  syscall SYS_perf_event_open
    [AAttr attr; AInt pid; AInt cpu; AInt group_fd; AInt flags].

Definition traced_prctl (option : Z) (arg2 arg3 arg4 arg5 : arg) : shim Z :=
  syscall SYS_prctl [AInt option; arg2; arg3; arg4; arg4].

Definition traced_raise (sig : Z) : shim Z :=
  pid <- traced_getpid ;;
  syscall SYS_kill [AInt pid; AInt sig].

Definition traced_sigprocmask (how : Z) (set oldset : arg) : shim Z :=
  syscall SYS_rt_sigprocmask [set; oldset].

Definition traced_write (fd : Z) (buf count : arg) : shim Z :=
  syscall SYS_write [AInt fd; buf; count].

Definition untraced_syscall (no : Z) (arg0 arg1 arg2 arg3 arg4 : arg)
    : shim Z :=
  enter (Untraced no [arg0; arg1; arg2; arg3; arg4]).

Definition untraced_syscall3 (no : Z) (a0 a1 a2 : arg) : shim Z :=
  untraced_syscall no a0 a1 a2 (AInt 0) (AInt 0).

Definition untraced_syscall2 (no : Z) (a0 a1 : arg) : shim Z :=
  untraced_syscall3 no a0 a1 (AInt 0).

Definition get_untraced_syscall_entry_point : Z :=
  untraced_syscall_entry_point_ip.

Definition rrcall_init_syscall_buffer (untraced_syscall_ip : Z)
    (addr msg fdptr args_vec : arg) : shim Z :=
  r <- syscall RRCALL_init_syscall_buffer
         [APtr untraced_syscall_ip; addr; msg; fdptr; args_vec] ;;
  pure (to_size_t r).

Definition logmsg (msg : string) : shim unit :=
  traced_write STDERR_FILENO (AText msg) (ATextLen msg) ;; pure tt.

Definition newline : string := String (Ascii.ascii_of_nat 10) EmptyString.

Definition assert (cond : bool) (text : string) : shim unit :=
  if cond then pure tt
  else logmsg (String.append "%s:%d: Assertion "
                 (String.append text "failed.")) ;;
       traced_raise SIGABRT ;; pure tt.

Definition fatal {A} (msg : string) : shim A :=
  logmsg (String.append "[FATAL] (%s:%d: errno: %s) "
            (String.append msg newline)) ;;
  traced__exit 1.

Definition log_info (msg : string) : shim unit :=
  logmsg (String.append "[INFO] (%s:%d) " (String.append msg newline)).

Definition install_syscall_filter : shim unit :=
  let protected_call_start := get_untraced_syscall_entry_point in
  let prog := AFprog (Z.of_nat (length (filter protected_call_start)))
                     (filter protected_call_start) in
  log_info "Initializing syscall buffer: protected_call_start = %p" ;;
  r <- traced_prctl PR_SET_NO_NEW_PRIVS (AInt 1) (AInt 0) (AInt 0) (AInt 0) ;;
  if negb (r =? 0)
  then fatal "prctl(NO_NEW_PRIVS) failed, SECCOMP_FILTER is not available."
  else
    r <- traced_prctl PR_SET_SECCOMP (AInt SECCOMP_MODE_FILTER) prog
           (AInt 0) (AInt 0) ;;
    if negb (r =? 0)
    then fatal "prctl(SECCOMP) failed, SECCOMP_FILTER is not available."
    else pure tt.

Definition open_desched_event_counter (nr_descheds : Z) : shim Z :=
  let attr := {| attr_size := sizeof_perf_event_attr;
                 attr_type := PERF_TYPE_SOFTWARE;
                 attr_config := PERF_COUNT_SW_CONTEXT_SWITCHES;
                 attr_disabled := 1;
                 attr_sample_period := nr_descheds |} in
  fd <- traced_perf_event_open attr 0 (-1) (-1) 0 ;;
  if 0 >? fd then fatal "Failed to perf_event_open(cs, period=%u)" else
  r <- traced_fcntl fd F_SETFL (AInt O_ASYNC) ;;
  if negb (r =? 0)
  then fatal "Failed to fcntl(O_ASYNC) the desched counter" else
  tid <- traced_gettid ;;
  let own := {| own_type := F_OWNER_TID; own_pid := tid |} in
  r <- traced_fcntl fd F_SETOWN_EX (AOwner own) ;;
  if negb (r =? 0)
  then fatal "Failed to fcntl(SETOWN_EX) the desched counter to this" else
  r <- traced_fcntl fd F_SETSIG (AInt SIGIO) ;;
  if negb (r =? 0)
  then fatal "Failed to fcntl(SETSIG, SIGIO) the desched counter" else
  pure fd.

Definition set_up_buffer : shim unit :=
  s <- get ;;
  assert (buffer s =? NULL) "!buffer" ;;
  fd <- open_desched_event_counter 1 ;;
  put_write (W_desched_counter_fd fd) ;;
  tid <- traced_gettid ;;
  s <- get ;;
  let addr := ASockaddr tid in
  let msg := AMsg (desched_counter_fd s) in
  let cmsg_fdptr := ACmsgFd (desched_counter_fd s) in
  traced_sigprocmask SIG_BLOCK (ALocal "mask") (ALocal "oldmask") ;;
  b <- rrcall_init_syscall_buffer get_untraced_syscall_entry_point
         addr msg cmsg_fdptr (ALocal "args_vec") ;;
  put_write (W_buffer b) ;;
  traced_sigprocmask SIG_SETMASK (ALocal "oldmask") (APtr NULL) ;;
  pure tt.

Definition drop_buffer : shim unit :=
  put_write (W_buffer NULL) ;;
  put_write (W_buffer_locked 0).

Definition init : shim unit :=
  s <- get ;;
  (if is_seccomp_bpf_installed s =? 0
   then install_syscall_filter ;;
        modify (with_installed 1) ;;
        modify (with_atfork true)
   else pure tt) ;;
  set_up_buffer.

Definition WILL_ARM_DESCHED_EVENT : Z := 0.
Definition DISARMED_DESCHED_EVENT : Z := 1.
Definition NO_DESCHED : Z := 2.

Definition prep_syscall (notify_desched : Z) : shim Z :=
  s <- get ;;
  (if buffer s =? NULL then init else pure tt) ;;
  s <- get ;;
  if negb (buffer_locked s =? 0) then pure NULL else
  put_write (W_buffer_locked 1) ;;
  s <- get ;;
  pure (ptr_add (buffer_last s) sizeof_syscallbuf_record).

Definition can_buffer_syscall (record_end : Z) : shim Z :=
  s <- get ;;
  let record_start := buffer_last s in
  let stored_end :=
    ptr_add record_start
      (stored_record_size (to_size_t (record_end - record_start))) in
  if stored_end <? ptr_add record_start sizeof_syscallbuf_record
  then pure 0
  else if stored_end >? ptr_add (buffer_end s) (- sizeof_syscallbuf_record)
  then put_write (W_buffer_locked 0) ;; pure 0
  else pure 1.

Definition arm_desched_event : shim unit :=
  s <- get ;;
  r <- untraced_syscall3 SYS_ioctl (AInt (desched_counter_fd s))
         (AInt PERF_EVENT_IOC_ENABLE) (AInt 0) ;;
  if negb (r =? 0) then fatal "Failed to ENABLE counter %d" else pure tt.

Definition disarm_desched_event : shim unit :=
  s <- get ;;
  r <- untraced_syscall3 SYS_ioctl (AInt (desched_counter_fd s))
         (AInt PERF_EVENT_IOC_DISABLE) (AInt 0) ;;
  if negb (r =? 0) then fatal "Failed to ENABLE counter %d" else pure tt.

Definition update_errno_ret (ret : Z) : shim Z :=
  if (0 >? ret) && (ret >=? - EHWPOISON)
  then put_write (W_errno (- ret)) ;; pure (-1)
  else pure ret.

Definition commit_syscall (syscallno record_end ret disarmed_desched : Z)
    : shim Z :=
  s <- get ;;
  let record_start := buffer_last s in
  let rec := record_start in
  let hdr := buffer_hdr s in
  (if negb (load s hdr hdr_abort_commit =? 0)
   then put_write (W_mem hdr hdr_abort_commit 0)
   else
     put_write (W_mem rec rec_ret ret) ;;
     put_write (W_mem rec rec_syscallno syscallno) ;;
     put_write (W_mem rec rec_desched
                  (if negb (NO_DESCHED =? disarmed_desched) then 1 else 0)) ;;
     put_write (W_mem rec rec_size (to_int (record_end - record_start))) ;;
     s <- get ;;
     put_write (W_mem hdr hdr_num_rec_bytes
                  (load s hdr hdr_num_rec_bytes +
                   stored_record_size (to_size_t (load s rec rec_size))))) ;;
  put_write (W_buffer_locked 0) ;;
  update_errno_ret ret.

(** The state after the tracer asked for the commit to be dropped. *)
Definition aborted (s : shim_state) : shim_state :=
  do_write (W_buffer_locked 0)
    (do_write (W_mem (buffer_hdr s) hdr_abort_commit 0) s).

(** The state after a record has been committed. *)
Definition committed (syscallno record_end ret disarmed_desched : Z)
    (s : shim_state) : shim_state :=
  let rec := buffer_last s in
  let size := to_int (record_end - rec) in
  do_write (W_buffer_locked 0)
    (do_write (W_mem (buffer_hdr s) hdr_num_rec_bytes
                 (load s (buffer_hdr s) hdr_num_rec_bytes +
                  stored_record_size (to_size_t size)))
       (do_write (W_mem rec rec_size size)
          (do_write (W_mem rec rec_desched
                       (if negb (NO_DESCHED =? disarmed_desched)
                        then 1 else 0))
             (do_write (W_mem rec rec_syscallno syscallno)
                (do_write (W_mem rec rec_ret ret) s))))).

Definition clock_gettime (clk_id tp : Z) : shim Z :=
  ptr <- prep_syscall NO_DESCHED ;;
  let tp2 := if negb (tp =? NULL) then ptr else NULL in
  let ptr := if negb (tp =? NULL) then ptr_add ptr sizeof_timespec else ptr in
  ok <- can_buffer_syscall ptr ;;
  if ok =? 0 then syscall SYS_clock_gettime [AInt clk_id; APtr tp] else
  ret <- untraced_syscall2 SYS_clock_gettime (AInt clk_id) (APtr tp2) ;;
  (if negb (tp =? NULL)
   then put_write (W_memcpy tp tp2 sizeof_timespec) else pure tt) ;;
  commit_syscall SYS_clock_gettime ptr ret NO_DESCHED.

Definition gettimeofday (tp tzp : Z) : shim Z :=
  ptr <- prep_syscall NO_DESCHED ;;
  let tp2 := if negb (tp =? NULL) then ptr else NULL in
  let ptr := if negb (tp =? NULL) then ptr_add ptr sizeof_timeval else ptr in
  let tzp2 := if negb (tzp =? NULL) then ptr else NULL in
  let ptr := if negb (tzp =? NULL) then ptr_add ptr sizeof_timezone else ptr in
  ok <- can_buffer_syscall ptr ;;
  if ok =? 0 then syscall SYS_gettimeofday [APtr tp; APtr tzp] else
  ret <- untraced_syscall2 SYS_gettimeofday (APtr tp2) (APtr tzp2) ;;
  (if negb (tp =? NULL)
   then put_write (W_memcpy tp tp2 sizeof_timeval) else pure tt) ;;
  (if negb (tzp =? NULL)
   then put_write (W_memcpy tzp tzp2 sizeof_timezone) else pure tt) ;;
  commit_syscall SYS_gettimeofday ptr ret NO_DESCHED.

(** *** Notions used to state the properties *)

(** Where the record would end once stored, as [can_buffer_syscall]
    computes it. *)
Definition stored_end (s : shim_state) (record_end : Z) : Z :=
  ptr_add (buffer_last s)
    (stored_record_size (to_size_t (record_end - buffer_last s))).

(** The stored record would end beyond [buffer_end()] minus the room
    kept for the next record header. *)
Definition ring_full (s : shim_state) (record_end : Z) : Prop :=
  stored_end s record_end >
  ptr_add (buffer_end s) (- sizeof_syscallbuf_record).

(** The pointer [prep_syscall] returns when it takes the lock, and the
    record ends the two wrappers compute from it. *)
Definition reserved (s : shim_state) : Z :=
  ptr_add (buffer_last s) sizeof_syscallbuf_record.

(** What [prep_syscall] does for a thread whose ring is mapped: it
    hands out NULL if the ring is locked, and else locks it and hands
    out [reserved]. *)
Definition prep_result (s : shim_state) : Z :=
  if buffer_locked s =? 0 then reserved s else NULL.

Definition clock_gettime_record_end (ptr tp : Z) : Z :=
  if negb (tp =? NULL) then ptr_add ptr sizeof_timespec else ptr.

Definition gettimeofday_record_end (ptr tp tzp : Z) : Z :=
  let ptr := if negb (tp =? NULL) then ptr_add ptr sizeof_timeval else ptr in
  if negb (tzp =? NULL) then ptr_add ptr sizeof_timezone else ptr.

(** What is assumed of the absent header: the sizes are sizes, and
    [stored_record_size] pads a length by less than one 32-bit word
    (in the arithmetic of [size_t] and [int]). *)
Definition header_ok : Prop :=
  0 <= sizeof_syscallbuf_hdr /\ 0 < sizeof_syscallbuf_record /\
  forall length, 0 <= length < word ->
    exists pad, 0 <= pad < 4 /\
      stored_record_size length mod word = (length + pad) mod word.

(** [stored_record_size] returns an [int], and the offsets into the
    ring are [int]s too. *)
Definition header_small : Prop :=
  SYSCALLBUF_BUFFER_SIZE <= 2 ^ 30 /\
  forall length, - 2 ^ 31 <= stored_record_size length < 2 ^ 31.

(** The ring is mapped between the first and the last page of the
    address space, and its valid records leave room for one more record
    header (which is what [can_buffer_syscall] keeps free). *)
Definition ring_ok (s : shim_state) : Prop :=
  4096 <= buffer s /\
  buffer s + SYSCALLBUF_BUFFER_SIZE + 4096 <= word /\
  0 <= load s (buffer_hdr s) hdr_num_rec_bytes /\
  sizeof_syscallbuf_hdr + load s (buffer_hdr s) hdr_num_rec_bytes +
    sizeof_syscallbuf_record <= SYSCALLBUF_BUFFER_SIZE.

(** The states a wrapper goes through when it takes the lock and gives
    it back. *)
Definition locked (s : shim_state) : shim_state :=
  do_write (W_buffer_locked 1) s.

Definition unlocked (s : shim_state) : shim_state :=
  do_write (W_buffer_locked 0) (locked s).

Definition after_prep (s : shim_state) : shim_state :=
  if buffer_locked s =? 0 then locked s else s.

(** *** Notions used to state further properties *)

(** The state [syscall()] returns in: the mapping as the tracer left
    it, and [errno] set if the kernel reported an error. *)
Definition after_syscall (r : reply) (s : shim_state) : shim_state :=
  let s1 := with_mem (reply_mem r (mem s)) s in
  if libc_error (reply_ret r) then do_write (W_errno (- reply_ret r)) s1
  else s1.

(** The state an untraced syscall returns in. *)
Definition after_untraced (r : reply) (s : shim_state) : shim_state :=
  with_mem (reply_mem r (mem s)) s.

(** The two entries [fatal] ends with. *)
Definition stderr_write (msg : string) : entry :=
  Traced SYS_write [AInt STDERR_FILENO; AText msg; ATextLen msg].

Definition exit_group_1 : entry := Traced SYS_exit_group [AInt 1].

Definition ends_fatal (t : list (entry * reply)) : Prop :=
  exists t0 msg r r', t = t0 ++ [(stderr_write msg, r); (exit_group_1, r')].

(** All the ways [m] can end the process satisfy [P]; all the ways it
    can return are related by [R]. *)
Definition exits_only {A : Type} (P : list (entry * reply) -> Prop)
    (m : shim A) : Prop :=
  forall s t, exits_after (m s) t -> P t.

Definition returns_only {A : Type}
    (R : shim_state -> list (entry * reply) -> shim_state -> Prop)
    (m : shim A) : Prop :=
  forall s t a s', returns_after (m s) t (a, s') -> R s t s'.

Definition is_prctl (e : entry * reply) : bool :=
  match fst e with
  | Traced no _ => no =? SYS_prctl
  | Untraced _ _ => false
  end.

(** A run that leaves the process-wide setup alone: the filter flag and
    the fork handler stay, and no [prctl] is made. *)
Definition keeps_setup (s : shim_state) (t : list (entry * reply))
    (s' : shim_state) : Prop :=
  is_seccomp_bpf_installed s' = is_seccomp_bpf_installed s /\
  atfork_child_drop_buffer s' = atfork_child_drop_buffer s /\
  Forall (fun e => is_prctl e = false) t.

(** The entries that end the process. *)
Definition is_exit_group (e : entry) : bool :=
  match e with
  | Traced no _ => no =? SYS_exit_group
  | Untraced no _ => no =? SYS_exit_group
  end.

(** Code that enters [exit_group] only the way [fatal] does: as
    [exit_group(1)], right after a line written to stderr, and never to
    go on afterwards; and only if [allowed].  [prev] is the entry made
    last before the code runs. *)
Inductive exits_by_fatal {A : Type} (allowed : Prop)
    : option entry -> prog A -> Prop :=
| exits_by_fatal_done (prev : option entry) (a : A) :
    exits_by_fatal allowed prev (Done a)
| exits_by_fatal_exit (msg : string) (k : reply -> prog A) :
    allowed -> (forall r, k r = Gone) ->
    exits_by_fatal allowed (Some (stderr_write msg)) (Enter exit_group_1 k)
| exits_by_fatal_enter (prev : option entry) (e : entry)
    (k : reply -> prog A) :
    is_exit_group e = false ->
    (forall r, exits_by_fatal allowed (Some e) (k r)) ->
    exits_by_fatal allowed prev (Enter e k).

End Shim.

(** A header to run the definitions with: a ring of 1 MiB, a header
    of one word, a record header of two words, and records stored
    padded to a whole number of 32-bit words,
    [(length + sizeof(int) - 1) & ~(sizeof(int) - 1)]. *)
#[global] Instance i386_header : SyscallBufferH := {|
  SYSCALLBUF_BUFFER_SIZE := 1048576;
  sizeof_syscallbuf_hdr := 4;
  sizeof_syscallbuf_record := 8;
  stored_record_size := fun length =>
    to_int (Z.land (to_size_t (length + 4 - 1)) (to_size_t (Z.lnot (4 - 1))));
  RRCALL_init_syscall_buffer := 442;
  sizeof_perf_event_attr := 72;
  untraced_syscall_entry_point_ip := 134513000;
|}.

(** The writes [update_errno_ret] makes for a given raw return value. *)
Definition errno_writes (ret : Z) : list write :=
  if (0 >? ret) && (ret >=? - EHWPOISON) then [W_errno (- ret)] else [].

(** A kernel reply that leaves the shared mapping alone. *)
Definition plain_reply (v : Z) : reply :=
  {| reply_ret := v; reply_mem := fun m => m |}.

(** Sample states: a thread whose ring is mapped at 0x70000000 and
    holds [num_rec] bytes of records, with the lock and the tracer's
    [abort_commit] flag as given. *)
Definition sample_state (locked abort num_rec : Z) : shim_state :=
  {| is_seccomp_bpf_installed := 1;
     atfork_child_drop_buffer := true;
     buffer := 1879048192;
     buffer_locked := locked;
     desched_counter_fd := 5;
     errno := 0;
     mem := {[ (1879048192, hdr_num_rec_bytes) := num_rec;
               (1879048192, hdr_abort_commit) := abort ]};
     writes := [] |}.

(** A thread that has not mapped its ring yet, and a kernel and tracer
    that let [set_up_buffer] through: descriptor 7 for the counter, tid
    1234, and the ring mapped at 0x70000000 with a zeroed header. *)
Definition fresh_thread : shim_state :=
  {| is_seccomp_bpf_installed := 1;
     atfork_child_drop_buffer := true;
     buffer := NULL;
     buffer_locked := 0;
     desched_counter_fd := 0;
     errno := 0;
     mem := ∅;
     writes := [] |}.

Definition setup_replies : list reply :=
  [ plain_reply 7; plain_reply 0; plain_reply 1234; plain_reply 0;
    plain_reply 0; plain_reply 1234; plain_reply 0;
    {| reply_ret := 1879048192;
       reply_mem := fun _ => {[ (1879048192, hdr_num_rec_bytes) := 0;
                                (1879048192, hdr_abort_commit) := 0 ]} |};
    plain_reply 0 ].

End Preload.

(** ** The diversion loop: [src/diverter.cc] *)

Module Diverter.
Import Linux.

Record Registers := {
  original_syscallno : Z;
  syscall_result : Z;
  arg1 : Z; arg2 : Z; arg3 : Z; arg4 : Z; arg5 : Z; arg6 : Z;
  ip : Z;
}.

Definition set_syscall_result (r : Registers) (v : Z) : Registers :=
  {| original_syscallno := original_syscallno r;
     syscall_result := v;
     arg1 := arg1 r; arg2 := arg2 r; arg3 := arg3 r;
     arg4 := arg4 r; arg5 := arg5 r; arg6 := arg6 r;
     ip := ip r |}.

(** What the diverter has the kernel do to a task, in order. *)
Inductive TaskOp :=
| op_finish_emulated_syscall
| op_remote_syscall (no a1 a2 a3 a4 a5 a6 : Z)
| op_cont_sysemu
| op_cont_sysemu_singlestep.

Record Task := {
  rec_tid : Z;
  tgid : Z;
  regs : Registers;
  child_sig : Z;
  pending_sig : Z;
  ops : list TaskOp;
}.

Definition set_regs (t : Task) (r : Registers) : Task :=
  {| rec_tid := rec_tid t; tgid := tgid t; regs := r;
     child_sig := child_sig t; pending_sig := pending_sig t;
     ops := ops t |}.

Definition did (o : TaskOp) (t : Task) : Task :=
  {| rec_tid := rec_tid t; tgid := tgid t; regs := regs t;
     child_sig := child_sig t; pending_sig := pending_sig t;
     ops := ops t ++ [o] |}.

Definition stopped (t : Task) (r : Registers) (sig : Z) : Task :=
  {| rec_tid := rec_tid t; tgid := tgid t; regs := r;
     child_sig := child_sig t; pending_sig := sig;
     ops := ops t |}.

(** What task.h, address_space.h and the live kernel decide: whether
    the syscall a task is stopped at is the ioctl on its desched
    counter, what a syscall executed for the task returns, where a
    resumed task stops next (with which registers and which pending
    signal), and the kind of breakpoint at an address. *)
Class Tracees := {
  is_desched_event_syscall : Task -> bool;
  remote_syscall_result : Task -> Z;
  next_stop : Task -> Registers * Z;
  get_breakpoint_type_at_addr : Task -> Z -> Z;
  TRAP_BKPT_USER : Z;
}.

(** Modelled from the spec: [Task::finish_emulated_syscall] is declared
    in task.h, which is not among the sources.  Under SYSEMU the
    syscall is cancelled at entry and the tracer synthesizes the return
    value: finishing the emulated syscall steps the task over the
    syscall instruction with the registers the tracer has set. *)
Definition finish_emulated_syscall (t : Task) : Task :=
  did op_finish_emulated_syscall t.

Section WithTracees.
Context `{K : Tracees}.

(** Modelled from the spec: [AutoRemoteSyscalls] is declared in
    remote_syscalls.h, which is not among the sources.  It keeps the
    task's registers while it is alive ([remote.regs()]), has the task
    execute a syscall, whose result is then in the task's registers,
    and restores the kept registers when it goes out of scope. *)
Definition remote_syscall (t : Task) (no a1 a2 a3 a4 a5 a6 : Z) : Task :=
  let t := did (op_remote_syscall no a1 a2 a3 a4 a5 a6) t in
  set_regs t (set_syscall_result (regs t) (remote_syscall_result t)).

Definition finish_emulated_syscall_with_ret (t : Task) (ret : Z) : Task :=
  let r := regs t in
  let r := set_syscall_result r ret in
  let t := set_regs t r in
  finish_emulated_syscall t.

Definition execute_syscall (t : Task) : Task :=
  let t := finish_emulated_syscall t in
  let remote_regs := regs t in
  let t := remote_syscall t (original_syscallno remote_regs)
             (arg1 remote_regs) (arg2 remote_regs) (arg3 remote_regs)
             (arg4 remote_regs) (arg5 remote_regs) (arg6 remote_regs) in
  let remote_regs :=
    set_syscall_result remote_regs (syscall_result (regs t)) in
  set_regs t remote_regs.

Definition process_syscall (t : Task) (syscallno : Z) : Task :=
  if syscallno =? SYS_ioctl then
    if negb (is_desched_event_syscall t)
    then execute_syscall t
    else finish_emulated_syscall_with_ret t 0
  else if (syscallno =? SYS_ipc) || (syscallno =? SYS_kill) ||
          (syscallno =? SYS_rt_sigqueueinfo) ||
          (syscallno =? SYS_rt_tgsigqueueinfo) ||
          (syscallno =? SYS_tgkill) || (syscallno =? SYS_tkill)
  then t
  else execute_syscall t.

(** The debugger's requests. *)
Inductive dbg_request_type :=
| DREQ_CONTINUE | DREQ_STEP | DREQ_RESTART
| DREQ_READ_SIGINFO | DREQ_WRITE_SIGINFO | DREQ_SET_QUERY_THREAD
| DREQ_REMOVE_SW_BREAK | DREQ_REMOVE_HW_BREAK | DREQ_REMOVE_RD_WATCH
| DREQ_REMOVE_WR_WATCH | DREQ_REMOVE_RDWR_WATCH
| DREQ_SET_SW_BREAK | DREQ_SET_HW_BREAK | DREQ_SET_RD_WATCH
| DREQ_SET_WR_WATCH | DREQ_SET_RDWR_WATCH
| DREQ_OTHER (n : Z).

Record dbg_request := {
  type : dbg_request_type;
  target_tid : Z;
  mem_len : Z;
}.

(** Modelled from the spec: [dbg_is_resume_request] is declared in
    debugger_gdb.h, which is not among the sources.  The resume
    requests of the debugger interface are continue and single-step,
    the two that [advance] accepts. *)
Definition dbg_is_resume_request (req : dbg_request) : bool :=
  match type req with
  | DREQ_CONTINUE | DREQ_STEP => true
  | _ => false
  end.

(** The requests that set or remove a breakpoint or a watchpoint. *)
Definition is_break_request (req : dbg_request) : bool :=
  match type req with
  | DREQ_REMOVE_SW_BREAK | DREQ_REMOVE_HW_BREAK | DREQ_REMOVE_RD_WATCH
  | DREQ_REMOVE_WR_WATCH | DREQ_REMOVE_RDWR_WATCH
  | DREQ_SET_SW_BREAK | DREQ_SET_HW_BREAK | DREQ_SET_RD_WATCH
  | DREQ_SET_WR_WATCH | DREQ_SET_RDWR_WATCH => true
  | _ => false
  end.

(** What goes back to the debugger, in order. *)
Inductive dbg_reply :=
| reply_read_siginfo (len : Z)
| reply_write_siginfo
| dispatched (t : option Z) (req : dbg_request)
| notify_stop (pid tid sig : Z).

(** The diversion session (a [ReplaySession] cloned for the diversion)
    and the debugger channel.  A [Task*] is the tid of a task of the
    session, or [None] for [nullptr]. *)
Record Session := {
  diversion_refcount : Z;
  tasks : gmap Z Task;
  dbg_out : list dbg_reply;
}.

Definition with_refcount (n : Z) (s : Session) : Session :=
  {| diversion_refcount := n; tasks := tasks s; dbg_out := dbg_out s |}.

Definition with_tasks (m : gmap Z Task) (s : Session) : Session :=
  {| diversion_refcount := diversion_refcount s; tasks := m;
     dbg_out := dbg_out s |}.

Definition send (r : dbg_reply) (s : Session) : Session :=
  {| diversion_refcount := diversion_refcount s; tasks := tasks s;
     dbg_out := dbg_out s ++ [r] |}.

(** Modelled from the spec: the reference counting of session.h, which
    is not among the sources: a counter incremented by [diversion_ref],
    decremented by [diversion_unref], and the session is dying when it
    is zero. *)
Definition diversion_ref (s : Session) : Session :=
  with_refcount (diversion_refcount s + 1) s.

(** Modelled from the spec: session.h is not among the sources; see
    [diversion_ref]. *)
Definition diversion_unref (s : Session) : Session :=
  with_refcount (diversion_refcount s - 1) s.

(** Modelled from the spec: session.h is not among the sources; see
    [diversion_ref]. *)
Definition diversion_dying (s : Session) : bool :=
  diversion_refcount s =? 0.

(** Modelled from the spec: session.h is not among the sources; the
    session owns its tasks and finds them by tid. *)
Definition find_task (s : Session) (tid : Z) : option Z :=
  match tasks s !! tid with
  | Some _ => Some tid
  | None => None
  end.

(** Modelled from the spec: session.h is not among the sources; no task
    of the session is left alive. *)
Definition kill_all_tasks (s : Session) : Session :=
  with_tasks ∅ s.

(** Modelled from the spec: [dispatch_debugger_request] is defined in
    replayer.cc, which is not among the sources; the request is served
    on the debugger channel, with replies that are opaque here. *)
Definition dispatch_debugger_request (s : Session) (t : option Z)
    (req : dbg_request) : Session :=
  send (dispatched t req) s.

(** Modelled from the spec: [Task::cont_sysemu] is declared in task.h,
    which is not among the sources.  The task is resumed in SYSEMU
    mode and waited for; at the stop its registers are refreshed and
    the pending signal, if any, is known. *)
Definition cont_sysemu (t : Task) : Task :=
  let t := did op_cont_sysemu t in
  stopped t (fst (next_stop t)) (snd (next_stop t)).

(** Modelled from the spec: task.h is not among the sources; as
    [cont_sysemu], in SYSEMU_SINGLESTEP mode. *)
Definition cont_sysemu_singlestep (t : Task) : Task :=
  let t := did op_cont_sysemu_singlestep t in
  stopped t (fst (next_stop t)) (snd (next_stop t)).

(** A failed [assert] or a [FATAL()] ends the tracer (the build does
    not define [NDEBUG]). *)
Inductive result (A : Type) : Type :=
| Ok (a : A)
| Abort.
Arguments Ok {A} a.
Arguments Abort {A}.

Definition advance (t : Task) (req : dbg_request) : result (bool * Task) :=
  if negb (child_sig t =? 0) then Abort else
  match
    match type req with
    | DREQ_CONTINUE => Ok (cont_sysemu t)
    | DREQ_STEP => Ok (cont_sysemu_singlestep t)
    | _ => Abort
    end
  with
  | Abort => Abort
  | Ok t =>
      if negb (pending_sig t =? 0) then Ok (false, t)
      else Ok (true, process_syscall t (original_syscallno (regs t)))
  end.

(** What [process_debugger_requests] comes to: it returns a task to
    resume ([nullptr] to end the diversion) with the request it stopped
    at, the tracer crashes on a null task, or the debugger sends nothing
    more and the tracer waits in [dbg_get_request]. *)
Inductive requests_result :=
| Resume (t : option Z) (req : dbg_request) (s : Session)
    (rest : list dbg_request)
| Crash
| Waiting (s : Session).

Fixpoint process_debugger_requests (incoming : list dbg_request)
    (s : Session) (t : option Z) : requests_result :=
  match incoming with
  | [] => Waiting s
  | req :: incoming =>
      if dbg_is_resume_request req then
        if diversion_dying s then Resume None req s incoming
        else Resume t req s incoming
      else
        match type req with
        | DREQ_RESTART => Resume None req s incoming
        | DREQ_READ_SIGINFO =>
            let s := diversion_ref s in
            let s := send (reply_read_siginfo (mem_len req)) s in
            process_debugger_requests incoming s t
        | DREQ_SET_QUERY_THREAD =>
            match t with
            | None => Crash
            | Some tid =>
                let next_task := find_task s (target_tid req) in
                let t := match next_task with
                         | Some n => Some n
                         | None => Some tid
                         end in
                process_debugger_requests incoming
                  (dispatch_debugger_request s t req) t
            end
        | DREQ_WRITE_SIGINFO =>
            let s := diversion_unref s in
            let s := send reply_write_siginfo s in
            process_debugger_requests incoming s t
        | _ =>
            if is_break_request req && diversion_dying s
            then Resume None req s incoming
            else process_debugger_requests incoming
                   (dispatch_debugger_request s t req) t
        end
  end.

(** How [divert] ends: it returns with the diversion torn down, the
    tracer aborts, or it waits for the debugger. *)
Inductive divert_result :=
| Diverted (req : dbg_request) (s : Session) (rest : list dbg_request)
| Aborted
| Blocked (s : Session)
| OutOfFuel.

(** The loop of [divert], with what follows the loop at its [break]:
    the assertion that the session is dying, and the killing of its
    tasks.  Every turn takes at least one request, so [fuel] beyond the
    number of requests is never used up. *)
Fixpoint divert_loop (fuel : nat) (incoming : list dbg_request)
    (s : Session) (t : option Z) : divert_result :=
  match fuel with
  | O => OutOfFuel
  | S fuel =>
      match process_debugger_requests incoming s t with
      | Waiting s => Blocked s
      | Crash => Aborted
      | Resume None req s rest =>
          if diversion_dying s
          then Diverted req (kill_all_tasks s) rest
          else Aborted
      | Resume (Some tid) req s rest =>
          match tasks s !! tid with
          | None => Aborted
          | Some task =>
              match advance task req with
              | Abort => Aborted
              | Ok (true, task) =>
                  divert_loop fuel rest
                    (with_tasks (<[tid := task]> (tasks s)) s) (Some tid)
              | Ok (false, task) =>
                  let s := with_tasks (<[tid := task]> (tasks s)) s in
                  let sig := pending_sig task in
                  let sig :=
                    if negb (SIGTRAP =? sig) &&
                       (TRAP_BKPT_USER =?
                        get_breakpoint_type_at_addr task (ip (regs task)))
                    then SIGTRAP else sig in
                  divert_loop fuel rest
                    (send (notify_stop (tgid task) (rec_tid task) sig) s)
                    (Some tid)
              end
          end
      end
  end.

Definition divert (replay_clone : Session) (incoming : list dbg_request)
    (task : Z) : divert_result :=
  let session := replay_clone in
  let t := find_task session task in
  divert_loop (S (length incoming)) incoming session t.

End WithTracees.

Arguments Ok {A} a.
Arguments Abort {A}.

(** The syscalls [process_syscall] does not let through. *)
Definition blacklist : list Z :=
  [SYS_kill; SYS_tgkill; SYS_tkill; SYS_ipc; SYS_rt_sigqueueinfo;
   SYS_rt_tgsigqueueinfo].

(** A syscall result that reports an error, as the kernel encodes it. *)
Definition is_error_result (r : Z) : Prop := -4095 <= r < 0.

(** How often the debugger asked for [ty] in a run of requests. *)
Fixpoint count_requests (p : dbg_request -> bool) (l : list dbg_request) : Z :=
  match l with
  | [] => 0
  | req :: l => (if p req then 1 else 0) + count_requests p l
  end.

Definition is_read_siginfo (req : dbg_request) : bool :=
  match type req with DREQ_READ_SIGINFO => true | _ => false end.

Definition is_write_siginfo (req : dbg_request) : bool :=
  match type req with DREQ_WRITE_SIGINFO => true | _ => false end.

(** The requests at which [process_debugger_requests] gives up the
    diversion, for a session in state [s]. *)
Definition ends_diversion (s : Session) (req : dbg_request) : Prop :=
  type req = DREQ_RESTART \/
  (dbg_is_resume_request req = true /\ diversion_refcount s = 0) \/
  (is_break_request req = true /\ diversion_refcount s = 0).


(** A live kernel for examples: no desched ioctl in sight, every
    executed syscall returns 0, a resumed task stops at its next
    syscall with the registers it had, and there are no breakpoints. *)
#[global] Instance quiet_tracees : Tracees := {|
  is_desched_event_syscall := fun _ => false;
  remote_syscall_result := fun _ => 0;
  next_stop := fun t => (regs t, 0);
  get_breakpoint_type_at_addr := fun _ _ => 0;
  TRAP_BKPT_USER := 1;
|}.

(** The same kernel with every ioctl an ioctl on the desched counter. *)
Definition desched_tracees : Tracees := {|
  is_desched_event_syscall := fun _ => true;
  remote_syscall_result := fun _ => 0;
  next_stop := fun t => (regs t, 0);
  get_breakpoint_type_at_addr := fun _ _ => 0;
  TRAP_BKPT_USER := 1;
|}.

(** A kernel under which a resumed task stops with SIGSEGV pending, at
    an address where the user has set a breakpoint. *)
Definition signal_tracees : Tracees := {|
  is_desched_event_syscall := fun _ => false;
  remote_syscall_result := fun _ => 0;
  next_stop := fun t => (regs t, 11);
  get_breakpoint_type_at_addr := fun _ _ => 1;
  TRAP_BKPT_USER := 1;
|}.

(** A task stopped at the entry of syscall [no]: the kernel has put
    [-ENOSYS] in the result register. *)
Definition at_syscall_entry (no a1 a2 : Z) : Task :=
  {| rec_tid := 1234; tgid := 1234;
     regs := {| original_syscallno := no; syscall_result := - ENOSYS;
                arg1 := a1; arg2 := a2; arg3 := 0; arg4 := 0; arg5 := 0;
                arg6 := 0; ip := 134513000 |};
     child_sig := 0; pending_sig := 0; ops := [] |}.

Definition sample_session (refcount : Z) : Session :=
  {| diversion_refcount := refcount;
     tasks := {[ 1234 := at_syscall_entry SYS_getpid 0 0 ]};
     dbg_out := [] |}.

Definition request (ty : dbg_request_type) : dbg_request :=
  {| type := ty; target_tid := 1234; mem_len := 128 |}.

End Diverter.

(** * Properties *)

Section SeccompFilter.
Import Linux Bpf.

Lemma filter_verdict (callsite : Z) (d : seccomp_data) :
  seccomp_verdict callsite d =
  Some (if (instruction_pointer d mod word =? callsite mod word)
           || (nr d mod word =? SYS_clone)
           || (nr d mod word =? SYS_fork)
           || (nr d mod word =? SYS_restart_syscall)
        then SECCOMP_RET_ALLOW else SECCOMP_RET_TRACE).
Proof.
  unfold seccomp_verdict, filter, to_size_t.
  cbn -[Z.modulo Z.eqb word load_word].
  change (load_word d inst_ptr) with (Some (instruction_pointer d mod word)).
  change (load_word d syscall_nr) with (Some (nr d mod word)).
  rewrite Z.mod_mod by (unfold word; lia).
  change (SYS_clone mod word) with SYS_clone.
  change (SYS_fork mod word) with SYS_fork.
  change (SYS_restart_syscall mod word) with SYS_restart_syscall.
  destruct (instruction_pointer d mod word =? callsite mod word); [reflexivity|].
  destruct (nr d mod word =? SYS_clone); [reflexivity|].
  destruct (nr d mod word =? SYS_fork); [reflexivity|].
  destruct (nr d mod word =? SYS_restart_syscall); reflexivity.
Qed.

(** On the packet of a 32-bit task, a filter built for [callsite]
    allows exactly the syscalls issued at [callsite] and [clone],
    [fork] and [restart_syscall]; all others get [SECCOMP_RET_TRACE]. *)
Lemma filter_exact (callsite : Z) (d : seccomp_data) :
  0 <= callsite < word ->
  i386_data d ->
  (seccomp_verdict callsite d = Some SECCOMP_RET_ALLOW <->
     instruction_pointer d = callsite \/ nr d = SYS_clone \/
     nr d = SYS_fork \/ nr d = SYS_restart_syscall) /\
  (~ (instruction_pointer d = callsite \/ nr d = SYS_clone \/
      nr d = SYS_fork \/ nr d = SYS_restart_syscall) ->
   seccomp_verdict callsite d = Some SECCOMP_RET_TRACE).
Proof.
  intros Hc [Hnr Hip]. rewrite filter_verdict.
  rewrite !Z.mod_small by assumption.
  destruct (Z.eqb_spec (instruction_pointer d) callsite) as [?|Hn1];
    [ split; [split; [tauto | reflexivity] | tauto] |].
  destruct (Z.eqb_spec (nr d) SYS_clone) as [?|Hn2];
    [ split; [split; [tauto | reflexivity] | tauto] |].
  destruct (Z.eqb_spec (nr d) SYS_fork) as [?|Hn3];
    [ split; [split; [tauto | reflexivity] | tauto] |].
  destruct (Z.eqb_spec (nr d) SYS_restart_syscall) as [?|Hn4];
    [ split; [split; [tauto | reflexivity] | tauto] |].
  cbn [orb]. split; [| reflexivity].
  split; [ intros H; inversion H | tauto ].
Qed.

(** In particular every syscall the shim issues from its entry point
    goes through untraced, whatever its number. *)
Lemma entry_point_allowed (callsite : Z) (d : seccomp_data) :
  instruction_pointer d = callsite ->
  seccomp_verdict callsite d = Some SECCOMP_RET_ALLOW.
Proof.
  intros E. rewrite filter_verdict, E, Z.eqb_refl. reflexivity.
Qed.

End SeccompFilter.

Section CommitSyscall.
Import Linux Preload.
Context `{H : SyscallBufferH}.

Lemma update_errno_ret_eq (ret : Z) (s : shim_state) :
  update_errno_ret ret s =
  Done (if (0 >? ret) && (ret >=? - EHWPOISON)
        then (-1, do_write (W_errno (- ret)) s) else (ret, s)).
Proof.
  unfold update_errno_ret.
  destruct ((0 >? ret) && (ret >=? - EHWPOISON)); reflexivity.
Qed.

Lemma update_errno_ret_writes (ret : Z) (s : shim_state) :
  exists r s', update_errno_ret ret s = Done (r, s') /\
    r = (if (0 >? ret) && (ret >=? - EHWPOISON) then -1 else ret) /\
    writes s' = writes s ++ errno_writes ret /\
    mem s' = mem s /\ buffer s' = buffer s /\
    buffer_locked s' = buffer_locked s /\
    errno s' = (if (0 >? ret) && (ret >=? - EHWPOISON)
                then - ret else errno s).
Proof.
  rewrite update_errno_ret_eq. unfold errno_writes.
  destruct ((0 >? ret) && (ret >=? - EHWPOISON)); eexists _, _;
    (split; [reflexivity|]); cbn; rewrite ?app_nil_r; auto 10.
Qed.

Lemma commit_syscall_aborted (syscallno record_end ret dd : Z)
    (s : shim_state) :
  load s (buffer_hdr s) hdr_abort_commit <> 0 ->
  commit_syscall syscallno record_end ret dd s =
  update_errno_ret ret (aborted s).
Proof.
  intros Hab. unfold commit_syscall, bind, get. cbn [prog_bind].
  apply Z.eqb_neq in Hab. rewrite Hab. reflexivity.
Qed.

Lemma load_do_write_mem (s : shim_state) (a : Z) (f : field) (v : Z) :
  load (do_write (W_mem a f v) s) a f = v.
Proof. unfold load. cbn. rewrite lookup_insert_eq. reflexivity. Qed.

Lemma load_do_write_mem_ne (s : shim_state) (a b : Z) (f g : field) (v : Z) :
  (a, f) <> (b, g) ->
  load (do_write (W_mem a f v) s) b g = load s b g.
Proof. intros Hne. unfold load. cbn. rewrite lookup_insert_ne; auto. Qed.

Lemma commit_syscall_committed (syscallno record_end ret dd : Z)
    (s : shim_state) :
  load s (buffer_hdr s) hdr_abort_commit = 0 ->
  commit_syscall syscallno record_end ret dd s =
  update_errno_ret ret (committed syscallno record_end ret dd s).
Proof.
  intros Hab. unfold commit_syscall, bind, get. cbn [prog_bind].
  rewrite Hab. cbn [Z.eqb negb]. unfold put_write. cbn [prog_bind].
  unfold committed. rewrite load_do_write_mem.
  rewrite !load_do_write_mem_ne by congruence. reflexivity.
Qed.

(** C3: when the tracer has set [abort_commit], [commit_syscall] writes
    no field of the record and leaves [num_rec_bytes] as it is; its
    only store to the shared mapping resets [abort_commit] to 0, after
    which it unlocks the buffer. *)
Theorem commit_syscall_abort_commit (syscallno record_end ret dd : Z)
    (s : shim_state) :
  load s (buffer_hdr s) hdr_abort_commit <> 0 ->
  exists r s',
    commit_syscall syscallno record_end ret dd s = Done (r, s') /\
    writes s' = writes s ++
      [W_mem (buffer_hdr s) hdr_abort_commit 0; W_buffer_locked 0] ++
      errno_writes ret /\
    (forall a f, f <> hdr_abort_commit ->
       mem s' !! (a, f) = mem s !! (a, f)) /\
    load s' (buffer_hdr s') hdr_num_rec_bytes =
      load s (buffer_hdr s) hdr_num_rec_bytes /\
    load s' (buffer_hdr s') hdr_abort_commit = 0 /\
    buffer_locked s' = 0.
Proof.
  intros Hab. rewrite commit_syscall_aborted by assumption.
  destruct (update_errno_ret_writes ret (aborted s))
    as (r & s' & -> & _ & Hw & Hm & Hb & Hl & _).
  exists r, s'. split; [reflexivity|].
  unfold buffer_hdr, load in *. rewrite Hw, Hm, Hb, Hl. cbn.
  repeat split.
  - rewrite <- !app_assoc. reflexivity.
  - intros a f Hf. rewrite lookup_insert_ne; [reflexivity | congruence].
  - rewrite lookup_insert_ne; [reflexivity | congruence].
  - rewrite lookup_insert_eq. reflexivity.
Qed.


(** C8: in a commit that is not aborted the four fields of the record
    ([ret], [syscallno], [desched], [size]) are stored first, then
    [num_rec_bytes] is advanced by the stored size of the record, then
    [buffer_locked] is cleared; nothing but [errno] is written after
    that. *)
Theorem commit_syscall_store_order (syscallno record_end ret dd : Z)
    (s : shim_state) :
  load s (buffer_hdr s) hdr_abort_commit = 0 ->
  exists r s',
    commit_syscall syscallno record_end ret dd s = Done (r, s') /\
    writes s' = writes s ++
      [W_mem (buffer_last s) rec_ret ret;
       W_mem (buffer_last s) rec_syscallno syscallno;
       W_mem (buffer_last s) rec_desched
         (if negb (NO_DESCHED =? dd) then 1 else 0);
       W_mem (buffer_last s) rec_size (to_int (record_end - buffer_last s));
       W_mem (buffer_hdr s) hdr_num_rec_bytes
         (load s (buffer_hdr s) hdr_num_rec_bytes +
          stored_record_size
            (to_size_t (to_int (record_end - buffer_last s))));
       W_buffer_locked 0] ++ errno_writes ret /\
    load s' (buffer_hdr s') hdr_num_rec_bytes =
      load s (buffer_hdr s) hdr_num_rec_bytes +
      stored_record_size (to_size_t (to_int (record_end - buffer_last s))) /\
    buffer_locked s' = 0.
Proof.
  intros Hab. rewrite commit_syscall_committed by assumption.
  destruct (update_errno_ret_writes ret
              (committed syscallno record_end ret dd s))
    as (r & s' & -> & _ & Hw & Hm & Hb & Hl & _).
  exists r, s'. split; [reflexivity|].
  unfold buffer_hdr, load in *. rewrite Hw, Hm, Hb, Hl. cbn.
  repeat split.
  - rewrite <- !app_assoc. reflexivity.
  - rewrite lookup_insert_eq. reflexivity.
Qed.


(** C10: [commit_syscall] hands the raw return value through
    [update_errno_ret]: a value with [-EHWPOISON <= ret < 0] comes back
    as -1 with [errno] set to [-ret]; any other value comes back
    unchanged, and [errno] is not written. *)
Theorem commit_syscall_errno_ret (syscallno record_end ret dd : Z)
    (s : shim_state) :
  exists r s',
    commit_syscall syscallno record_end ret dd s = Done (r, s') /\
    (- EHWPOISON <= ret < 0 ->
       r = -1 /\ errno s' = - ret) /\
    (~ (- EHWPOISON <= ret < 0) ->
       r = ret /\ errno s' = errno s /\
       forall v, W_errno v ∉ drop (length (writes s)) (writes s')).
Proof.
  assert (Hrange : (0 >? ret) && (ret >=? - EHWPOISON) = true <->
                   - EHWPOISON <= ret < 0).
  { rewrite andb_true_iff. unfold Z.gtb, Z.geb.
    destruct (Z.compare_spec 0 ret), (Z.compare_spec ret (- EHWPOISON));
      split; intros; try lia; intuition congruence. }
  destruct (Z.eq_dec (load s (buffer_hdr s) hdr_abort_commit) 0) as [Hab|Hab].
  - rewrite commit_syscall_committed by assumption.
    destruct (update_errno_ret_writes ret
                (committed syscallno record_end ret dd s))
      as (r & s' & -> & -> & Hw & _ & _ & _ & He).
    eexists. exists s'. split; [reflexivity|]. unfold errno_writes in Hw.
    rewrite He.
    destruct ((0 >? ret) && (ret >=? - EHWPOISON)) eqn:E.
    + split; [auto | intros Hn; exfalso; apply Hn, Hrange; reflexivity].
    + split; [intros Hr; apply Hrange in Hr; discriminate |].
      intros _. repeat split. intros v. rewrite Hw. cbn.
      rewrite app_nil_r, <- !app_assoc, drop_app_length.
      intros Hin. repeat (apply elem_of_cons in Hin as [Hin|Hin];
                          [discriminate|]).
      inversion Hin.
  - rewrite commit_syscall_aborted by assumption.
    destruct (update_errno_ret_writes ret (aborted s))
      as (r & s' & -> & -> & Hw & _ & _ & _ & He).
    eexists. exists s'. split; [reflexivity|]. unfold errno_writes in Hw.
    rewrite He.
    destruct ((0 >? ret) && (ret >=? - EHWPOISON)) eqn:E.
    + split; [auto | intros Hn; exfalso; apply Hn, Hrange; reflexivity].
    + split; [intros Hr; apply Hrange in Hr; discriminate |].
      intros _. repeat split. intros v. rewrite Hw. cbn.
      rewrite app_nil_r, <- !app_assoc, drop_app_length.
      intros Hin. repeat (apply elem_of_cons in Hin as [Hin|Hin];
                          [discriminate|]).
      inversion Hin.
Qed.

End CommitSyscall.

Section CommitSyscallAtSamples.
Import Linux Preload.

Lemma commit_syscall_abort_commit_witness :
  exists r s',
    commit_syscall SYS_clock_gettime 1879048228 0 NO_DESCHED
      (sample_state 1 1 16) = Done (r, s') /\
    writes s' = writes (sample_state 1 1 16) ++
      [W_mem (buffer_hdr (sample_state 1 1 16)) hdr_abort_commit 0;
       W_buffer_locked 0] ++ errno_writes 0 /\
    (forall a f, f <> hdr_abort_commit ->
       mem s' !! (a, f) = mem (sample_state 1 1 16) !! (a, f)) /\
    load s' (buffer_hdr s') hdr_num_rec_bytes =
      load (sample_state 1 1 16) (buffer_hdr (sample_state 1 1 16))
        hdr_num_rec_bytes /\
    load s' (buffer_hdr s') hdr_abort_commit = 0 /\
    buffer_locked s' = 0.
Proof.
  apply (commit_syscall_abort_commit (H := i386_header)).
  vm_compute. discriminate.
Defined.

Lemma commit_syscall_store_order_witness :
  exists r s',
    commit_syscall SYS_clock_gettime 1879048228 0 NO_DESCHED
      (sample_state 1 0 16) = Done (r, s') /\
    writes s' = writes (sample_state 1 0 16) ++
      [W_mem (buffer_last (sample_state 1 0 16)) rec_ret 0;
       W_mem (buffer_last (sample_state 1 0 16)) rec_syscallno SYS_clock_gettime;
       W_mem (buffer_last (sample_state 1 0 16)) rec_desched
         (if negb (NO_DESCHED =? NO_DESCHED) then 1 else 0);
       W_mem (buffer_last (sample_state 1 0 16)) rec_size
         (to_int (1879048228 - buffer_last (sample_state 1 0 16)));
       W_mem (buffer_hdr (sample_state 1 0 16)) hdr_num_rec_bytes
         (load (sample_state 1 0 16) (buffer_hdr (sample_state 1 0 16))
            hdr_num_rec_bytes +
          stored_record_size
            (to_size_t
               (to_int (1879048228 - buffer_last (sample_state 1 0 16)))));
       W_buffer_locked 0] ++ errno_writes 0 /\
    load s' (buffer_hdr s') hdr_num_rec_bytes =
      load (sample_state 1 0 16) (buffer_hdr (sample_state 1 0 16))
        hdr_num_rec_bytes +
      stored_record_size
        (to_size_t (to_int (1879048228 - buffer_last (sample_state 1 0 16)))) /\
    buffer_locked s' = 0.
Proof.
  apply (commit_syscall_store_order (H := i386_header)).
  vm_compute. reflexivity.
Defined.

End CommitSyscallAtSamples.

Section Fallback.
Import Linux Preload.
Context `{H : SyscallBufferH}.

Lemma word_pos : 0 < word.
Proof. unfold word. lia. Qed.

Lemma buffer_last_eq (s : shim_state) :
  header_ok -> ring_ok s ->
  buffer_last s =
  buffer s + sizeof_syscallbuf_hdr + load s (buffer_hdr s) hdr_num_rec_bytes.
Proof.
  intros (Hh & Hr & _) (Hb & He & Hn & Hfit).
  unfold buffer_last, ptr_add. pose proof word_pos.
  rewrite (Z.mod_small (buffer s + _)) by lia.
  apply Z.mod_small. lia.
Qed.

(** The stored end is the record end, padded, as an address. *)
Lemma stored_end_pad (s : shim_state) (record_end : Z) :
  header_ok ->
  exists pad, 0 <= pad < 4 /\
    stored_end s record_end = (record_end + pad) mod word.
Proof.
  intros (_ & _ & Hpad). pose proof word_pos as Hw.
  unfold stored_end, ptr_add, to_size_t.
  destruct (Hpad ((record_end - buffer_last s) mod word)) as (pad & Hp & E).
  { apply Z.mod_pos_bound; assumption. }
  exists pad. split; [assumption|].
  rewrite <- Z.add_mod_idemp_r, E by lia.
  rewrite Z.add_mod_idemp_r by lia.
  rewrite Z.add_assoc, <- (Z.add_mod_idemp_l (_ + _ mod word)) by lia.
  rewrite Z.add_mod_idemp_r by lia.
  rewrite Z.add_mod_idemp_l by lia.
  f_equal. lia.
Qed.

Lemma prep_syscall_locked (notify_desched : Z) (s : shim_state) :
  buffer s <> NULL -> buffer_locked s <> 0 ->
  prep_syscall notify_desched s = Done (NULL, s).
Proof.
  intros Hb Hl. unfold prep_syscall, bind, get. cbn [prog_bind].
  apply Z.eqb_neq in Hb, Hl. rewrite Hb. cbn. rewrite Hl. reflexivity.
Qed.

Lemma prep_syscall_takes_lock (notify_desched : Z) (s : shim_state) :
  buffer s <> NULL -> buffer_locked s = 0 ->
  prep_syscall notify_desched s = Done (reserved s, locked s).
Proof.
  intros Hb Hl. unfold prep_syscall, bind, get. cbn [prog_bind].
  apply Z.eqb_neq in Hb. rewrite Hb. cbn. rewrite Hl. reflexivity.
Qed.

Lemma can_buffer_syscall_reentry (s : shim_state) (extra : Z) :
  header_ok -> ring_ok s -> 0 <= extra <= 16 ->
  can_buffer_syscall (ptr_add NULL extra) s = Done (0, s).
Proof.
  intros Hh Hr Hx. pose proof word_pos as Hw.
  destruct (stored_end_pad s (ptr_add NULL extra) Hh) as (pad & Hp & E).
  pose proof (buffer_last_eq s Hh Hr) as Hbl.
  destruct Hh as (Hh & Hrec & _), Hr as (Hb & He & Hn & Hfit).
  unfold can_buffer_syscall, bind, get. cbn [prog_bind].
  fold (stored_end s (ptr_add NULL extra)). rewrite E.
  unfold ptr_add, NULL, word in *. cbn [Z.add].
  rewrite (Z.mod_small extra) by lia.
  rewrite (Z.mod_small (extra + pad)) by lia.
  rewrite (Z.mod_small (buffer_last s + _)) by lia.
  replace (_ <? _) with true by (symmetry; apply Z.ltb_lt; lia).
  reflexivity.
Qed.

Lemma reserved_eq (s : shim_state) :
  header_ok -> ring_ok s ->
  reserved s = buffer_last s + sizeof_syscallbuf_record.
Proof.
  intros Hh Hr. pose proof (buffer_last_eq s Hh Hr) as Hbl.
  destruct Hh as (Hh & Hrec & _), Hr as (Hb & He & Hn & Hfit).
  unfold reserved, ptr_add, word in *. apply Z.mod_small. lia.
Qed.

Lemma can_buffer_syscall_full (s : shim_state) (record_end : Z) :
  header_ok -> ring_ok s ->
  reserved s <= record_end <= reserved s + 16 ->
  ring_full s record_end ->
  can_buffer_syscall record_end (locked s) = Done (0, unlocked s).
Proof.
  intros Hh Hr Hx Hfull. pose proof word_pos as Hw.
  rewrite reserved_eq in Hx by assumption.
  destruct (stored_end_pad s record_end Hh) as (pad & Hp & E).
  pose proof (buffer_last_eq s Hh Hr) as Hbl.
  destruct Hh as (Hh & Hrec & _), Hr as (Hb & He & Hn & Hfit).
  unfold can_buffer_syscall, bind, get. cbn [prog_bind].
  change (buffer_last (locked s)) with (buffer_last s).
  change (buffer_end (locked s)) with (buffer_end s).
  fold (stored_end s record_end).
  unfold ring_full in Hfull. apply Z.gt_lt, Z.gtb_lt in Hfull. rewrite Hfull.
  rewrite E. unfold ptr_add, word in *.
  rewrite (Z.mod_small (record_end + pad)) by lia.
  rewrite (Z.mod_small (buffer_last s + _)) by lia.
  replace (_ <? _) with false by (symmetry; apply Z.ltb_ge; lia).
  reflexivity.
Qed.

Lemma clock_gettime_record_end_bounds (s : shim_state) (tp : Z) :
  header_ok -> ring_ok s ->
  reserved s <= clock_gettime_record_end (reserved s) tp <= reserved s + 16.
Proof.
  intros Hh Hr. pose proof (reserved_eq s Hh Hr) as Hre.
  pose proof (buffer_last_eq s Hh Hr) as Hbl.
  destruct Hh as (Hh & Hrec & _), Hr as (Hb & He & Hn & Hfit).
  unfold clock_gettime_record_end, ptr_add, sizeof_timespec, word in *.
  destruct (negb (tp =? NULL)); [rewrite Z.mod_small|]; lia.
Qed.

Lemma gettimeofday_record_end_bounds (s : shim_state) (tp tzp : Z) :
  header_ok -> ring_ok s ->
  reserved s <= gettimeofday_record_end (reserved s) tp tzp <=
    reserved s + 16.
Proof.
  intros Hh Hr. pose proof (reserved_eq s Hh Hr) as Hre.
  pose proof (buffer_last_eq s Hh Hr) as Hbl.
  destruct Hh as (Hh & Hrec & _), Hr as (Hb & He & Hn & Hfit).
  unfold gettimeofday_record_end, ptr_add, sizeof_timeval, sizeof_timezone,
    word in *.
  destruct (negb (tp =? NULL)), (negb (tzp =? NULL));
    rewrite ?(Z.mod_small (reserved s + 8)) by lia;
    rewrite ?Z.mod_small by lia; lia.
Qed.

Lemma syscall_run (no : Z) (args : list arg) (s : shim_state)
    (r : reply) (rest : list reply) :
  exists s',
    run (syscall no args s) (r :: rest) =
      ([(Traced no args, r)], Returned (libc_ret (reply_ret r), s')) /\
    mem s' = reply_mem r (mem s) /\
    buffer_locked s' = buffer_locked s /\
    writes s' = writes s ++ libc_errno_writes (reply_ret r).
Proof.
  unfold syscall, bind, enter, libc_ret, libc_errno_writes. cbn.
  destruct (libc_error (reply_ret r)); cbn;
    eexists; (split; [reflexivity|]); cbn; rewrite ?app_nil_r; auto.
Qed.

Lemma clock_gettime_reentry (clk_id tp : Z) (s : shim_state) :
  header_ok -> ring_ok s -> buffer_locked s <> 0 ->
  clock_gettime clk_id tp s =
  syscall SYS_clock_gettime [AInt clk_id; APtr tp] s.
Proof.
  intros Hh Hr Hl.
  assert (Hb : buffer s <> NULL) by (destruct Hr; unfold NULL; lia).
  unfold clock_gettime, bind at 1. rewrite prep_syscall_locked by assumption.
  cbn [prog_bind]. unfold bind at 1.
  assert (E : can_buffer_syscall
                (if negb (tp =? NULL) then ptr_add NULL sizeof_timespec
                 else NULL) s = Done (0, s)).
  { destruct (negb (tp =? NULL)).
    - apply can_buffer_syscall_reentry; auto. unfold sizeof_timespec. lia.
    - apply (can_buffer_syscall_reentry s 0); auto. lia. }
  rewrite E. reflexivity.
Qed.

Lemma gettimeofday_reentry (tp tzp : Z) (s : shim_state) :
  header_ok -> ring_ok s -> buffer_locked s <> 0 ->
  gettimeofday tp tzp s =
  syscall SYS_gettimeofday [APtr tp; APtr tzp] s.
Proof.
  intros Hh Hr Hl.
  assert (Hb : buffer s <> NULL) by (destruct Hr; unfold NULL; lia).
  unfold gettimeofday, bind at 1. rewrite prep_syscall_locked by assumption.
  cbn [prog_bind]. unfold bind at 1.
  assert (E : forall extra, 0 <= extra <= 16 ->
            can_buffer_syscall (ptr_add NULL extra) s = Done (0, s))
    by (intros; apply can_buffer_syscall_reentry; auto).
  destruct (negb (tp =? NULL)), (negb (tzp =? NULL)).
  - change (ptr_add (ptr_add NULL sizeof_timeval) sizeof_timezone)
      with (ptr_add NULL 16).
    rewrite E by lia. reflexivity.
  - change sizeof_timeval with 8. rewrite E by lia. reflexivity.
  - change sizeof_timezone with 8. rewrite E by lia. reflexivity.
  - change NULL with (ptr_add NULL 0) at 1. rewrite E by lia. reflexivity.
Qed.

(** C6: a wrapper entered while [buffer_locked] is set gets NULL from
    [prep_syscall], which changes nothing; [can_buffer_syscall] then
    answers 0, again changing nothing; and the wrapper makes the one
    traced syscall, with the caller's own arguments.  The shim stores
    nothing in the shared mapping (it writes at most [errno], as libc
    does) and leaves the lock as it is: the mapping afterwards is what
    the tracer made of it at the trap. *)
Theorem reentry_falls_back (s : shim_state) :
  header_ok -> ring_ok s -> buffer_locked s <> 0 ->
  (forall notify_desched, prep_syscall notify_desched s = Done (NULL, s)) /\
  (forall tp,
     can_buffer_syscall (clock_gettime_record_end NULL tp) s = Done (0, s)) /\
  (forall tp tzp,
     can_buffer_syscall (gettimeofday_record_end NULL tp tzp) s =
     Done (0, s)) /\
  (forall clk_id tp r rest, exists s',
     run (clock_gettime clk_id tp s) (r :: rest) =
       ([(Traced SYS_clock_gettime [AInt clk_id; APtr tp], r)],
        Returned (libc_ret (reply_ret r), s')) /\
     mem s' = reply_mem r (mem s) /\
     buffer_locked s' = buffer_locked s /\
     writes s' = writes s ++ libc_errno_writes (reply_ret r)) /\
  (forall tp tzp r rest, exists s',
     run (gettimeofday tp tzp s) (r :: rest) =
       ([(Traced SYS_gettimeofday [APtr tp; APtr tzp], r)],
        Returned (libc_ret (reply_ret r), s')) /\
     mem s' = reply_mem r (mem s) /\
     buffer_locked s' = buffer_locked s /\
     writes s' = writes s ++ libc_errno_writes (reply_ret r)).
Proof.
  intros Hh Hr Hl.
  assert (Hb : buffer s <> NULL) by (destruct Hr; unfold NULL; lia).
  assert (E : forall extra, 0 <= extra <= 16 ->
            can_buffer_syscall (ptr_add NULL extra) s = Done (0, s))
    by (intros; apply can_buffer_syscall_reentry; auto).
  split; [intros; apply prep_syscall_locked; assumption|].
  split.
  { intros tp. unfold clock_gettime_record_end.
    destruct (negb (tp =? NULL)).
    - apply E. unfold sizeof_timespec. lia.
    - apply (E 0). lia. }
  split.
  { intros tp tzp. unfold gettimeofday_record_end.
    destruct (negb (tp =? NULL)), (negb (tzp =? NULL)).
    - apply (E 16). lia.
    - apply (E 8). lia.
    - apply (E 8). lia.
    - apply (E 0). lia. }
  split.
  - intros clk_id tp r rest. rewrite clock_gettime_reentry by assumption.
    apply syscall_run.
  - intros tp tzp r rest. rewrite gettimeofday_reentry by assumption.
    apply syscall_run.
Qed.

Lemma clock_gettime_full (clk_id tp : Z) (s : shim_state) :
  header_ok -> ring_ok s -> buffer_locked s = 0 ->
  ring_full s (clock_gettime_record_end (reserved s) tp) ->
  clock_gettime clk_id tp s =
  syscall SYS_clock_gettime [AInt clk_id; APtr tp] (unlocked s).
Proof.
  intros Hh Hr Hl Hfull.
  assert (Hb : buffer s <> NULL) by (destruct Hr; unfold NULL; lia).
  pose proof (clock_gettime_record_end_bounds s tp Hh Hr) as Hbd.
  unfold clock_gettime, bind at 1.
  rewrite prep_syscall_takes_lock by assumption.
  cbn [prog_bind]. unfold bind at 1.
  fold (clock_gettime_record_end (reserved s) tp).
  rewrite can_buffer_syscall_full by assumption. reflexivity.
Qed.

Lemma gettimeofday_full (tp tzp : Z) (s : shim_state) :
  header_ok -> ring_ok s -> buffer_locked s = 0 ->
  ring_full s (gettimeofday_record_end (reserved s) tp tzp) ->
  gettimeofday tp tzp s =
  syscall SYS_gettimeofday [APtr tp; APtr tzp] (unlocked s).
Proof.
  intros Hh Hr Hl Hfull.
  assert (Hb : buffer s <> NULL) by (destruct Hr; unfold NULL; lia).
  pose proof (gettimeofday_record_end_bounds s tp tzp Hh Hr) as Hbd.
  unfold gettimeofday, bind at 1.
  rewrite prep_syscall_takes_lock by assumption.
  cbn [prog_bind]. unfold bind at 1.
  fold (gettimeofday_record_end (reserved s) tp tzp).
  rewrite can_buffer_syscall_full by assumption. reflexivity.
Qed.

(** A wrapper that did not get the lock never sees the ring as full:
    its record end is a small offset from NULL. *)
Lemma reentry_not_full (s : shim_state) (extra : Z) :
  header_ok -> ring_ok s -> 0 <= extra <= 16 ->
  ~ ring_full s (ptr_add NULL extra).
Proof.
  intros Hh Hr Hx. pose proof word_pos as Hw.
  destruct (stored_end_pad s (ptr_add NULL extra) Hh) as (pad & Hp & E).
  destruct Hh as (Hh & Hrec & _), Hr as (Hb & He & Hn & Hfit).
  unfold ring_full. rewrite E.
  unfold buffer_end, ptr_add, NULL, buffer_hdr, word in *. cbn [Z.add].
  rewrite (Z.mod_small extra) by lia.
  rewrite (Z.mod_small (extra + pad)) by lia.
  rewrite (Z.mod_small (buffer s + _)) by lia.
  rewrite Z.mod_small by lia. lia.
Qed.

Lemma prep_syscall_mapped (notify_desched : Z) (s : shim_state) :
  buffer s <> NULL ->
  prep_syscall notify_desched s = Done (prep_result s, after_prep s).
Proof.
  intros Hb. unfold prep_result, after_prep.
  destruct (Z.eqb_spec (buffer_locked s) 0) as [Hl|Hl].
  - apply prep_syscall_takes_lock; assumption.
  - apply prep_syscall_locked; assumption.
Qed.

Lemma clock_gettime_ring_full (s : shim_state) (tp : Z) :
  header_ok -> ring_ok s ->
  ring_full s (clock_gettime_record_end (prep_result s) tp) ->
  buffer_locked s = 0.
Proof.
  intros Hh Hr Hfull.
  destruct (Z.eq_dec (buffer_locked s) 0) as [Hl|Hl]; [assumption|].
  exfalso. revert Hfull. unfold prep_result, clock_gettime_record_end.
  apply Z.eqb_neq in Hl. rewrite Hl.
  destruct (negb (tp =? NULL)).
  - apply reentry_not_full; auto. unfold sizeof_timespec. lia.
  - apply (reentry_not_full s 0); auto. lia.
Qed.

Lemma gettimeofday_ring_full (s : shim_state) (tp tzp : Z) :
  header_ok -> ring_ok s ->
  ring_full s (gettimeofday_record_end (prep_result s) tp tzp) ->
  buffer_locked s = 0.
Proof.
  intros Hh Hr Hfull.
  destruct (Z.eq_dec (buffer_locked s) 0) as [Hl|Hl]; [assumption|].
  exfalso. revert Hfull. unfold prep_result, gettimeofday_record_end.
  apply Z.eqb_neq in Hl. rewrite Hl.
  destruct (negb (tp =? NULL)), (negb (tzp =? NULL)).
  - apply (reentry_not_full s 16); auto. lia.
  - apply (reentry_not_full s 8); auto. lia.
  - apply (reentry_not_full s 8); auto. lia.
  - apply (reentry_not_full s 0); auto. lia.
Qed.

(** C7: when the stored record of a wrapper would end beyond
    [buffer_end()] minus the size of a record header,
    [can_buffer_syscall] clears [buffer_locked] and returns 0, and the
    wrapper makes the traced syscall instead: besides taking and giving
    back the lock it stores nothing (at most [errno], as libc does), so
    nothing is written into the ring.  (The record end is the one the
    wrapper computes from what [prep_syscall] gave it; only a wrapper
    that got the lock can find the ring full.) *)
Theorem ring_full_falls_back (s : shim_state) :
  header_ok -> ring_ok s ->
  (forall notify_desched,
     prep_syscall notify_desched s = Done (prep_result s, after_prep s)) /\
  (forall tp,
     ring_full s (clock_gettime_record_end (prep_result s) tp) ->
     can_buffer_syscall (clock_gettime_record_end (prep_result s) tp)
       (after_prep s) = Done (0, unlocked s)) /\
  (forall tp tzp,
     ring_full s (gettimeofday_record_end (prep_result s) tp tzp) ->
     can_buffer_syscall (gettimeofday_record_end (prep_result s) tp tzp)
       (after_prep s) = Done (0, unlocked s)) /\
  (forall clk_id tp r rest,
     ring_full s (clock_gettime_record_end (prep_result s) tp) ->
     exists s',
       run (clock_gettime clk_id tp s) (r :: rest) =
         ([(Traced SYS_clock_gettime [AInt clk_id; APtr tp], r)],
          Returned (libc_ret (reply_ret r), s')) /\
       mem s' = reply_mem r (mem s) /\
       buffer_locked s' = 0 /\
       writes s' = writes s ++ [W_buffer_locked 1; W_buffer_locked 0] ++
                   libc_errno_writes (reply_ret r)) /\
  (forall tp tzp r rest,
     ring_full s (gettimeofday_record_end (prep_result s) tp tzp) ->
     exists s',
       run (gettimeofday tp tzp s) (r :: rest) =
         ([(Traced SYS_gettimeofday [APtr tp; APtr tzp], r)],
          Returned (libc_ret (reply_ret r), s')) /\
       mem s' = reply_mem r (mem s) /\
       buffer_locked s' = 0 /\
       writes s' = writes s ++ [W_buffer_locked 1; W_buffer_locked 0] ++
                   libc_errno_writes (reply_ret r)).
Proof.
  intros Hh Hr.
  assert (Hb : buffer s <> NULL) by (destruct Hr; unfold NULL; lia).
  split; [intros; apply prep_syscall_mapped; assumption|].
  split.
  { intros tp Hfull.
    pose proof (clock_gettime_ring_full s tp Hh Hr Hfull) as Hl.
    unfold prep_result, after_prep in *. rewrite Hl in *. cbn [Z.eqb] in *.
    apply can_buffer_syscall_full; auto.
    apply clock_gettime_record_end_bounds; assumption. }
  split.
  { intros tp tzp Hfull.
    pose proof (gettimeofday_ring_full s tp tzp Hh Hr Hfull) as Hl.
    unfold prep_result, after_prep in *. rewrite Hl in *. cbn [Z.eqb] in *.
    apply can_buffer_syscall_full; auto.
    apply gettimeofday_record_end_bounds; assumption. }
  split.
  - intros clk_id tp r rest Hfull.
    pose proof (clock_gettime_ring_full s tp Hh Hr Hfull) as Hl.
    unfold prep_result in Hfull. rewrite Hl in Hfull. cbn [Z.eqb] in Hfull.
    rewrite clock_gettime_full by assumption.
    destruct (syscall_run SYS_clock_gettime [AInt clk_id; APtr tp]
                (unlocked s) r rest) as (s' & E1 & E2 & E3 & E4).
    exists s'. rewrite E1, E2, E3, E4. cbn. rewrite <- !app_assoc. auto.
  - intros tp tzp r rest Hfull.
    pose proof (gettimeofday_ring_full s tp tzp Hh Hr Hfull) as Hl.
    unfold prep_result in Hfull. rewrite Hl in Hfull. cbn [Z.eqb] in Hfull.
    rewrite gettimeofday_full by assumption.
    destruct (syscall_run SYS_gettimeofday [APtr tp; APtr tzp]
                (unlocked s) r rest) as (s' & E1 & E2 & E3 & E4).
    exists s'. rewrite E1, E2, E3, E4. cbn. rewrite <- !app_assoc. auto.
Qed.

(** When the record fits, the wrapper goes on to the buffered path
    with the lock held. *)
Lemma can_buffer_syscall_fits (s : shim_state) (record_end : Z) :
  header_ok -> ring_ok s ->
  reserved s <= record_end <= reserved s + 16 ->
  ~ ring_full s record_end ->
  can_buffer_syscall record_end (locked s) = Done (1, locked s).
Proof.
  intros Hh Hr Hx Hfits. pose proof word_pos as Hw.
  rewrite reserved_eq in Hx by assumption.
  destruct (stored_end_pad s record_end Hh) as (pad & Hp & E).
  pose proof (buffer_last_eq s Hh Hr) as Hbl.
  destruct Hh as (Hh & Hrec & _), Hr as (Hb & He & Hn & Hfit).
  unfold can_buffer_syscall, bind, get. cbn [prog_bind].
  change (buffer_last (locked s)) with (buffer_last s).
  change (buffer_end (locked s)) with (buffer_end s).
  fold (stored_end s record_end).
  unfold ring_full in Hfits.
  destruct (Z.gtb_spec (stored_end s record_end)
              (ptr_add (buffer_end s) (- sizeof_syscallbuf_record)))
    as [Hgt|Hle]; [exfalso; apply Hfits; lia|].
  rewrite E. unfold ptr_add, word in *.
  rewrite (Z.mod_small (record_end + pad)) by lia.
  rewrite (Z.mod_small (buffer_last s + _)) by lia.
  replace (_ <? _) with false by (symmetry; apply Z.ltb_ge; lia).
  reflexivity.
Qed.

Lemma stored_record_size_exact (length : Z) :
  header_ok -> header_small -> 0 <= length -> length + 4 <= 2 ^ 31 ->
  exists pad, 0 <= pad < 4 /\ stored_record_size length = length + pad.
Proof.
  intros (_ & _ & Hpad) (_ & Hint) Hl Hu.
  destruct (Hpad length) as (pad & Hp & E); [unfold word; lia|].
  exists pad. split; [assumption|].
  specialize (Hint length).
  rewrite (Z.mod_small (length + pad)) in E by (unfold word; lia).
  destruct (Z_lt_le_dec (stored_record_size length) 0) as [Hneg|Hpos].
  - replace (stored_record_size length)
      with (stored_record_size length + 1 * word - 1 * word) in E by lia.
    rewrite Zminus_mod, Z_mod_mult, Z.sub_0_r, Z.mod_mod in E
      by (unfold word; lia).
    rewrite Z.mod_small in E by (unfold word; lia).
    unfold word in E. lia.
  - rewrite Z.mod_small in E by (unfold word; lia). assumption.
Qed.

(** The room [can_buffer_syscall] keeps free is still there after the
    commit: [ring_ok] is an invariant of the buffered path. *)
Lemma commit_syscall_keeps_ring_ok (s : shim_state)
    (syscallno record_end ret dd r : Z) (s' : shim_state) :
  header_ok -> header_small -> ring_ok s ->
  reserved s <= record_end <= reserved s + 16 ->
  ~ ring_full s record_end ->
  commit_syscall syscallno record_end ret dd s = Done (r, s') ->
  ring_ok s'.
Proof.
  intros Hh Hs Hr Hx Hfits Hc. pose proof word_pos as Hw.
  rewrite reserved_eq in Hx by assumption.
  destruct (Z.eq_dec (load s (buffer_hdr s) hdr_abort_commit) 0) as [Hab|Hab].
  - rewrite commit_syscall_committed in Hc by assumption.
    destruct (update_errno_ret_writes ret
                (committed syscallno record_end ret dd s))
      as (r1 & s1 & E & _ & _ & Hm & Hb & _).
    rewrite E in Hc. inversion Hc; subst r1 s1. clear Hc E.
    destruct (stored_end_pad s record_end Hh) as (pad & Hp & Hse).
    pose proof (buffer_last_eq s Hh Hr) as Hbl.
    pose proof Hh as (Hh0 & Hrec & _). pose proof Hs as (Hsz & _).
    pose proof Hr as (Hb0 & He & Hn & Hfit).
    assert (Hlen : to_size_t (to_int (record_end - buffer_last s)) =
                   record_end - buffer_last s).
    { unfold to_size_t, to_int, word.
      rewrite (Z.mod_small (_ + 2 ^ 31)) by lia.
      rewrite Z.mod_small by lia. lia. }
    destruct (stored_record_size_exact (record_end - buffer_last s) Hh Hs)
      as (pad' & Hp' & Hsrs); [lia | lia |].
    unfold ring_full, stored_end, to_size_t in Hfits.
    rewrite (Z.mod_small (record_end - buffer_last s)) in Hfits
      by (unfold word; lia).
    rewrite Hsrs in Hfits. unfold buffer_end, ptr_add in Hfits.
    unfold word in *.
    rewrite (Z.mod_small (buffer s + _)) in Hfits by lia.
    rewrite !Z.mod_small in Hfits by lia.
    unfold ring_ok, buffer_hdr, load in *. rewrite Hm, Hb. cbn.
    rewrite lookup_insert_eq. cbn.
    fold (load s (buffer s) hdr_num_rec_bytes).
    unfold to_size_t, to_int, word in Hlen. unfold to_size_t, to_int, word.
    rewrite Hlen, Hsrs. unfold load, buffer_hdr in *. lia.
  - rewrite commit_syscall_aborted in Hc by assumption.
    destruct (update_errno_ret_writes ret (aborted s))
      as (r1 & s1 & E & _ & _ & Hm & Hb & _).
    rewrite E in Hc. inversion Hc; subst r1 s1. clear Hc E.
    unfold ring_ok, buffer_hdr, load in *. rewrite Hm, Hb. cbn.
    rewrite lookup_insert_ne by congruence. assumption.
Qed.

End Fallback.

Section DeschedCounter.
Import Linux Preload.
Context `{H : SyscallBufferH}.

Lemma run_returns {A : Type} (p : prog A) :
  forall replies t a, run p replies = (t, Returned a) -> returns_after p t a.
Proof.
  induction p as [a' | e k IH |]; intros replies t a Hrun; cbn in Hrun.
  - inversion Hrun; subst. constructor.
  - destruct replies as [|r rs]; [discriminate|].
    destruct (run (k r) rs) as [t' o] eqn:E.
    inversion Hrun; subst. constructor. eapply IH; eassumption.
  - discriminate.
Qed.

Lemma returns_prog_bind_inv {A B : Type} (p : prog A) (f : A -> prog B) :
  forall t b, returns_after (prog_bind p f) t b ->
  exists t1 t2 a,
    t = t1 ++ t2 /\ returns_after p t1 a /\ returns_after (f a) t2 b.
Proof.
  induction p as [a | e k IH |]; intros t b Hr; cbn in Hr.
  - exists [], t, a. repeat split; [constructor | assumption].
  - inversion Hr as [| e' k' r t' b' Hk]; subst.
    apply IH in Hk as (t1 & t2 & a & -> & H1 & H2).
    exists ((e, r) :: t1), t2, a. repeat split; [constructor|]; assumption.
  - inversion Hr.
Qed.

Lemma returns_bind_inv {A B : Type} (m : shim A) (f : A -> shim B)
    (s : shim_state) (t : list (entry * reply)) (b : B) (s' : shim_state) :
  returns_after (bind m f s) t (b, s') ->
  exists t1 t2 a s1,
    t = t1 ++ t2 /\ returns_after (m s) t1 (a, s1) /\
    returns_after (f a s1) t2 (b, s').
Proof.
  intros Hr. unfold bind in Hr.
  apply returns_prog_bind_inv in Hr as (t1 & t2 & [a s1] & -> & H1 & H2).
  exists t1, t2, a, s1. auto.
Qed.

Lemma returns_pure_inv {A : Type} (a b : A) (s s' : shim_state)
    (t : list (entry * reply)) :
  returns_after (pure a s) t (b, s') -> t = [] /\ b = a /\ s' = s.
Proof. intros Hr. inversion Hr. auto. Qed.

Lemma returns_put_write_inv (w : write) (u : unit) (s s' : shim_state)
    (t : list (entry * reply)) :
  returns_after (put_write w s) t (u, s') -> t = [] /\ s' = do_write w s.
Proof. intros Hr. inversion Hr. auto. Qed.

Lemma returns_get_inv (s0 s s' : shim_state) (t : list (entry * reply)) :
  returns_after (get s) t (s0, s') -> t = [] /\ s0 = s /\ s' = s.
Proof. intros Hr. inversion Hr. auto. Qed.

Lemma returns_syscall_inv (no : Z) (args : list arg) (s s' : shim_state)
    (t : list (entry * reply)) (v : Z) :
  returns_after (syscall no args s) t (v, s') ->
  exists r, t = [(Traced no args, r)] /\ v = libc_ret (reply_ret r) /\
    desched_counter_fd s' = desched_counter_fd s /\ buffer s' = buffer s.
Proof.
  unfold syscall, bind, enter, libc_ret. cbn. intros Hr.
  inversion Hr as [| e k r t' a Hk]; subst. exists r.
  destruct (libc_error (reply_ret r)); cbn in Hk; inversion Hk; subst; auto.
Qed.

Lemma returns_traced__exit_inv {A : Type} (status : Z) (s : shim_state)
    (t : list (entry * reply)) (a : A * shim_state) :
  ~ returns_after (traced__exit status s) t a.
Proof.
  unfold traced__exit. intros Hr.
  inversion Hr as [| e k r t' a' Hk]; subst. inversion Hk.
Qed.

Lemma returns_fatal_inv {A : Type} (msg : string) (s : shim_state)
    (t : list (entry * reply)) (a : A) (s' : shim_state) :
  ~ returns_after (fatal msg s) t (a, s').
Proof.
  unfold fatal. intros Hr.
  apply returns_bind_inv in Hr as (t1 & t2 & u & s1 & -> & _ & Hr).
  exact (returns_traced__exit_inv _ _ _ _ Hr).
Qed.

Ltac inv_bind Hr :=
  let t1 := fresh "t" in let t2 := fresh "t" in
  let a := fresh "a" in let s1 := fresh "s" in
  let H1 := fresh "Hstep" in
  apply returns_bind_inv in Hr as (t1 & t2 & a & s1 & -> & H1 & Hr).

Ltac inv_syscall Hs :=
  let r := fresh "r" in
  let Hfd := fresh "Hfd" in let Hbuf := fresh "Hbuf" in
  apply returns_syscall_inv in Hs as (r & -> & -> & Hfd & Hbuf).

Ltac inv_check Hr :=
  match type of Hr with
  | returns_after ((if ?c then fatal _ else _) _) _ _ =>
      destruct c eqn:?; [exfalso; exact (returns_fatal_inv _ _ _ _ _ Hr) |]
  end.

Lemma open_desched_event_counter_trace (nr_descheds : Z) (s s' : shim_state)
    (t : list (entry * reply)) (fd : Z) :
  returns_after (open_desched_event_counter nr_descheds s) t (fd, s') ->
  exists r1 r2 r3 r4 r5,
    fd = libc_ret (reply_ret r1) /\ 0 <= fd /\
    buffer s' = buffer s /\
    t = [ (Traced SYS_perf_event_open
             [AAttr {| attr_type := PERF_TYPE_SOFTWARE;
                       attr_size := sizeof_perf_event_attr;
                       attr_config := PERF_COUNT_SW_CONTEXT_SWITCHES;
                       attr_sample_period := nr_descheds;
                       attr_disabled := 1 |};
              AInt 0; AInt (-1); AInt (-1); AInt 0], r1);
          (Traced SYS_fcntl64 [AInt fd; AInt F_SETFL; AInt O_ASYNC], r2);
          (Traced SYS_gettid [], r3);
          (Traced SYS_fcntl64
             [AInt fd; AInt F_SETOWN_EX;
              AOwner {| own_type := F_OWNER_TID;
                        own_pid := libc_ret (reply_ret r3) |}], r4);
          (Traced SYS_fcntl64 [AInt fd; AInt F_SETSIG; AInt SIGIO], r5) ].
Proof.
  unfold open_desched_event_counter, traced_perf_event_open, traced_fcntl,
    traced_gettid.
  intros Hr.
  inv_bind Hr. inv_syscall Hstep. inv_check Hr.
  inv_bind Hr. inv_syscall Hstep. inv_check Hr.
  inv_bind Hr. inv_syscall Hstep.
  inv_bind Hr. inv_syscall Hstep. inv_check Hr.
  inv_bind Hr. inv_syscall Hstep. inv_check Hr.
  apply returns_pure_inv in Hr as (-> & -> & ->).
  exists r, r0, r1, r2, r3. repeat split; try reflexivity.
  - match goal with Hc : (0 >? _) = false |- _ =>
      unfold Z.gtb in Hc;
      destruct (Z.compare_spec 0 (libc_ret (reply_ret r)));
      try discriminate; lia end.
  - congruence.
Qed.

(** C5: the counter a thread sets up in [set_up_buffer] is opened by
    [open_desched_event_counter(1)]: a [perf_event_open] of a software
    event counting context switches, with sample period 1 and created
    disabled, for the calling thread on any cpu; the descriptor is then
    made asynchronous ([F_SETFL], [O_ASYNC]), owned by the tid that
    [gettid] returns ([F_SETOWN_EX], [F_OWNER_TID]) and set to signal
    with [SIGIO] ([F_SETSIG]).  These are the first five kernel entries
    of [set_up_buffer], and the descriptor is the one it keeps in
    [desched_counter_fd]. *)
Theorem desched_counter_configuration (s s' : shim_state)
    (replies : list reply) (t : list (entry * reply)) :
  buffer s = NULL ->
  run (set_up_buffer s) replies = (t, Returned (tt, s')) ->
  exists r1 r2 r3 r4 r5 rest,
    let fd := libc_ret (reply_ret r1) in
    let tid := libc_ret (reply_ret r3) in
    desched_counter_fd s' = fd /\ 0 <= fd /\
    t = [ (Traced SYS_perf_event_open
             [AAttr {| attr_type := PERF_TYPE_SOFTWARE;
                       attr_size := sizeof_perf_event_attr;
                       attr_config := PERF_COUNT_SW_CONTEXT_SWITCHES;
                       attr_sample_period := 1;
                       attr_disabled := 1 |};
              AInt 0; AInt (-1); AInt (-1); AInt 0], r1);
          (Traced SYS_fcntl64 [AInt fd; AInt F_SETFL; AInt O_ASYNC], r2);
          (Traced SYS_gettid [], r3);
          (Traced SYS_fcntl64
             [AInt fd; AInt F_SETOWN_EX;
              AOwner {| own_type := F_OWNER_TID; own_pid := tid |}], r4);
          (Traced SYS_fcntl64 [AInt fd; AInt F_SETSIG; AInt SIGIO], r5) ]
        ++ rest.
Proof.
  intros Hnull Hrun. apply run_returns in Hrun.
  unfold set_up_buffer in Hrun.
  inv_bind Hrun. apply returns_get_inv in Hstep as (-> & -> & ->).
  rewrite Hnull in Hrun. cbn [Z.eqb NULL assert] in Hrun.
  inv_bind Hrun. apply returns_pure_inv in Hstep as (-> & _ & ->).
  inv_bind Hrun.
  apply open_desched_event_counter_trace in Hstep
    as (r1 & r2 & r3 & r4 & r5 & Hfd & Hpos & Hbuf & ->).
  inv_bind Hrun. apply returns_put_write_inv in Hstep as (-> & ->).
  inv_bind Hrun. unfold traced_gettid in Hstep. inv_syscall Hstep.
  inv_bind Hrun. apply returns_get_inv in Hstep as (-> & -> & ->).
  inv_bind Hrun. unfold traced_sigprocmask in Hstep. inv_syscall Hstep.
  inv_bind Hrun. unfold rrcall_init_syscall_buffer in Hstep.
  inv_bind Hstep. inv_syscall Hstep0.
  apply returns_pure_inv in Hstep as (-> & -> & ->).
  inv_bind Hrun. apply returns_put_write_inv in Hstep as (-> & ->).
  inv_bind Hrun. unfold traced_sigprocmask in Hstep. inv_syscall Hstep.
  apply returns_pure_inv in Hrun as (-> & _ & ->).
  exists r1, r2, r3, r4, r5. eexists. cbn zeta. subst a0.
  split; [|split; [assumption|]].
  - rewrite Hfd3. cbn. rewrite Hfd2, Hfd1, Hfd0. reflexivity.
  - cbn [app]. reflexivity.
Qed.

(** The filter handed to the kernel is [filter], at the shim's entry
    point. *)
Lemma install_syscall_filter_trace (s s' : shim_state)
    (t : list (entry * reply)) :
  returns_after (install_syscall_filter s) t (tt, s') ->
  exists msg r0 r1 r2,
    t = [ (Traced SYS_write [AInt STDERR_FILENO; AText msg; ATextLen msg], r0);
          (Traced SYS_prctl
             [AInt PR_SET_NO_NEW_PRIVS; AInt 1; AInt 0; AInt 0; AInt 0], r1);
          (Traced SYS_prctl
             [AInt PR_SET_SECCOMP; AInt SECCOMP_MODE_FILTER;
              AFprog 11 (Bpf.filter get_untraced_syscall_entry_point);
              AInt 0; AInt 0], r2) ].
Proof.
  unfold install_syscall_filter, log_info, logmsg, traced_write, traced_prctl.
  intros Hr.
  inv_bind Hr. inv_bind Hstep. inv_syscall Hstep0.
  apply returns_pure_inv in Hstep as (-> & _ & ->).
  inv_bind Hr. inv_syscall Hstep. inv_check Hr.
  inv_bind Hr. inv_syscall Hstep. inv_check Hr.
  apply returns_pure_inv in Hr as (-> & _ & ->).
  change (Z.of_nat (length (Bpf.filter get_untraced_syscall_entry_point)))
    with 11.
  cbn [app]. eexists _, r, r0, r1. reflexivity.
Qed.

(** C2: the seccomp filter the shim installs.  Whenever
    [install_syscall_filter] returns, it has handed the kernel, with
    [prctl(PR_SET_SECCOMP, SECCOMP_MODE_FILTER, ...)] after
    [prctl(PR_SET_NO_NEW_PRIVS, 1, ...)], its array [filter] built at
    the address [get_untraced_syscall_entry_point] returns, and the
    kernel accepted it.  Run on the packet of any syscall of a 32-bit
    task, this program allows without a ptrace trap exactly the
    syscalls whose instruction pointer is the address of the label
    [_untraced_syscall_entry_point_ip] (where the [int $0x80] of the
    shim's untraced entry point returns to), and [clone], [fork] and
    [restart_syscall] from any callsite; every other syscall gets the
    verdict [SECCOMP_RET_TRACE]. *)
Theorem filter_allows_exactly (s s' : shim_state) (replies : list reply)
    (t : list (entry * reply)) :
  0 <= untraced_syscall_entry_point_ip < word ->
  run (install_syscall_filter s) replies = (t, Returned (tt, s')) ->
  exists msg r0 r1 r2 prog,
    t = [ (Traced SYS_write [AInt STDERR_FILENO; AText msg; ATextLen msg],
           r0);
          (Traced SYS_prctl
             [AInt PR_SET_NO_NEW_PRIVS; AInt 1; AInt 0; AInt 0; AInt 0], r1);
          (Traced SYS_prctl
             [AInt PR_SET_SECCOMP; AInt SECCOMP_MODE_FILTER;
              AFprog (Z.of_nat (length prog)) prog; AInt 0; AInt 0], r2) ] /\
    libc_ret (reply_ret r1) = 0 /\ libc_ret (reply_ret r2) = 0 /\
    prog = Bpf.filter get_untraced_syscall_entry_point /\
    forall d : Bpf.seccomp_data,
      Bpf.i386_data d ->
      (Bpf.bpf_run 0 prog 0 d = Some SECCOMP_RET_ALLOW <->
         Bpf.instruction_pointer d = untraced_syscall_entry_point_ip \/
         Bpf.nr d = SYS_clone \/ Bpf.nr d = SYS_fork \/
         Bpf.nr d = SYS_restart_syscall) /\
      (~ (Bpf.instruction_pointer d = untraced_syscall_entry_point_ip \/
          Bpf.nr d = SYS_clone \/ Bpf.nr d = SYS_fork \/
          Bpf.nr d = SYS_restart_syscall) ->
       Bpf.bpf_run 0 prog 0 d = Some SECCOMP_RET_TRACE).
Proof.
  intros Hentry Hrun. apply run_returns in Hrun.
  unfold install_syscall_filter, log_info, logmsg, traced_write,
    traced_prctl in Hrun.
  inv_bind Hrun. inv_bind Hstep. inv_syscall Hstep0.
  apply returns_pure_inv in Hstep as (-> & _ & ->).
  inv_bind Hrun. inv_syscall Hstep. inv_check Hrun.
  inv_bind Hrun. inv_syscall Hstep. inv_check Hrun.
  apply returns_pure_inv in Hrun as (-> & _ & ->).
  eexists _, r, r0, r1, (Bpf.filter get_untraced_syscall_entry_point).
  cbn [app]. split; [reflexivity|].
  split; [|split; [|split; [reflexivity|]]].
  - match goal with
    | E : negb (libc_ret (reply_ret r0) =? 0) = false |- _ =>
        apply negb_false_iff, Z.eqb_eq in E; exact E
    end.
  - match goal with
    | E : negb (libc_ret (reply_ret r1) =? 0) = false |- _ =>
        apply negb_false_iff, Z.eqb_eq in E; exact E
    end.
  - intros d Hd. unfold get_untraced_syscall_entry_point.
    exact (filter_exact untraced_syscall_entry_point_ip d Hentry Hd).
Qed.

End DeschedCounter.

Section DeschedCounterAtSamples.
Import Linux Preload.

Lemma desched_counter_configuration_witness :
  buffer fresh_thread = NULL /\
  exists t s',
    run (set_up_buffer fresh_thread) setup_replies =
      (t, Returned (tt, s')) /\
    exists r1 r2 r3 r4 r5 rest,
      let fd := libc_ret (reply_ret r1) in
      let tid := libc_ret (reply_ret r3) in
      desched_counter_fd s' = fd /\ 0 <= fd /\
      t = [ (Traced SYS_perf_event_open
               [AAttr {| attr_type := PERF_TYPE_SOFTWARE;
                         attr_size := sizeof_perf_event_attr;
                         attr_config := PERF_COUNT_SW_CONTEXT_SWITCHES;
                         attr_sample_period := 1;
                         attr_disabled := 1 |};
                AInt 0; AInt (-1); AInt (-1); AInt 0], r1);
            (Traced SYS_fcntl64 [AInt fd; AInt F_SETFL; AInt O_ASYNC], r2);
            (Traced SYS_gettid [], r3);
            (Traced SYS_fcntl64
               [AInt fd; AInt F_SETOWN_EX;
                AOwner {| own_type := F_OWNER_TID; own_pid := tid |}], r4);
            (Traced SYS_fcntl64 [AInt fd; AInt F_SETSIG; AInt SIGIO], r5) ]
          ++ rest.
Proof.
  split; [reflexivity|].
  assert (E : exists t s',
            run (set_up_buffer fresh_thread) setup_replies =
              (t, Returned (tt, s'))) by (vm_compute; eauto).
  destruct E as (t & s' & E). exists t, s'. split; [exact E|].
  exact (desched_counter_configuration (H := i386_header)
           fresh_thread s' setup_replies t eq_refl E).
Defined.

(** At a concrete run: the filter goes to the kernel, and it lets
    [getpid] through from the entry point and has it traced from
    anywhere else. *)
Lemma filter_allows_exactly_witness :
  0 <= untraced_syscall_entry_point_ip (SyscallBufferH := i386_header)
    < word /\
  exists t s',
    run (install_syscall_filter fresh_thread)
      [plain_reply 0; plain_reply 0; plain_reply 0] =
      (t, Returned (tt, s')) /\
    exists prog r2,
      last t =
        Some (Traced SYS_prctl
                [AInt PR_SET_SECCOMP; AInt SECCOMP_MODE_FILTER;
                 AFprog (Z.of_nat (length prog)) prog; AInt 0; AInt 0],
              r2) /\
      Bpf.bpf_run 0 prog 0
        {| Bpf.nr := SYS_getpid; Bpf.arch := 0;
           Bpf.instruction_pointer := 134513000; Bpf.args := [] |} =
        Some SECCOMP_RET_ALLOW /\
      Bpf.bpf_run 0 prog 0
        {| Bpf.nr := SYS_getpid; Bpf.arch := 0;
           Bpf.instruction_pointer := 134513999; Bpf.args := [] |} =
        Some SECCOMP_RET_TRACE.
Proof.
  assert (Hentry : 0 <= untraced_syscall_entry_point_ip
                          (SyscallBufferH := i386_header) < word)
    by (vm_compute; split; [discriminate | reflexivity]).
  split; [exact Hentry|].
  assert (E : exists t s',
            run (install_syscall_filter fresh_thread)
              [plain_reply 0; plain_reply 0; plain_reply 0] =
              (t, Returned (tt, s'))) by (vm_compute; eauto).
  destruct E as (t & s' & E). exists t, s'. split; [exact E|].
  destruct (filter_allows_exactly (H := i386_header) fresh_thread s' _ t
              Hentry E)
    as (msg & r0 & r1 & r2 & prog & -> & _ & _ & _ & Hfilter).
  exists prog, r2. split; [reflexivity|]. split.
  - apply Hfilter.
    + vm_compute. repeat split; discriminate.
    + left. reflexivity.
  - apply Hfilter.
    + vm_compute. repeat split; discriminate.
    + vm_compute. intros [F | [F | [F | F]]]; discriminate.
Defined.

End DeschedCounterAtSamples.

Section FallbackAtSamples.
Import Linux Preload.

Lemma to_int_mod (z : Z) : to_int z mod word = z mod word.
Proof.
  unfold to_int. rewrite Zminus_mod_idemp_l. f_equal. lia.
Qed.

Lemma land_align (y : Z) :
  0 <= y < word -> Z.land y (to_size_t (Z.lnot (4 - 1))) = 4 * (y / 4).
Proof.
  intros Hy.
  change (to_size_t (Z.lnot (4 - 1)))
    with (Z.land (Z.ones 32) (Z.lnot (Z.ones 2))).
  rewrite Z.land_assoc, Z.land_ones by lia.
  change (2 ^ 32) with word. rewrite Z.mod_small by assumption.
  rewrite <- Z.ldiff_land, Z.ldiff_ones_r by lia.
  rewrite Z.shiftr_div_pow2, Z.shiftl_mul_pow2 by lia.
  change (2 ^ 2) with 4. lia.
Qed.

Lemma i386_header_ok : header_ok (H := i386_header).
Proof.
  split; [cbn; lia|]. split; [cbn; lia|].
  intros length Hl. pose proof word_pos as Hw.
  set (y := (length + 4 - 1) mod word).
  assert (Hy : 0 <= y < word) by (apply Z.mod_pos_bound; assumption).
  exists (3 - y mod 4). split.
  { pose proof (Z.mod_pos_bound y 4). lia. }
  cbn [stored_record_size i386_header]. rewrite to_int_mod.
  fold (to_size_t (length + 4 - 1)). unfold to_size_t at 1. fold y.
  rewrite land_align by assumption.
  replace (4 * (y / 4)) with (y - y mod 4)
    by (pose proof (Z.div_mod y 4); lia).
  unfold y. rewrite Zminus_mod_idemp_l. f_equal. lia.
Qed.

Lemma i386_header_small : header_small (H := i386_header).
Proof.
  split; [cbn; lia|]. intros length. cbn [stored_record_size i386_header].
  unfold to_int.
  pose proof (Z.mod_pos_bound
    (Z.land (to_size_t (length + 4 - 1)) (to_size_t (Z.lnot (4 - 1)))
     + 2 ^ 31) word word_pos) as Hm.
  unfold word in *. lia.
Qed.

(** The buffered path at a sample state: the syscall goes to the
    kernel untraced, writing into the ring behind the record header;
    the outparam is copied to the caller and the record committed. *)
Lemma clock_gettime_buffered :
  exists s',
    run (clock_gettime 1 3221221000 (sample_state 0 0 16)) [plain_reply 0] =
      ([(Untraced SYS_clock_gettime
           [AInt 1; APtr 1879048220; AInt 0; AInt 0; AInt 0],
         plain_reply 0)],
       Returned (0, s')) /\
    writes s' =
      [ W_buffer_locked 1;
        W_memcpy 3221221000 1879048220 8;
        W_mem 1879048212 rec_ret 0;
        W_mem 1879048212 rec_syscallno SYS_clock_gettime;
        W_mem 1879048212 rec_desched 0;
        W_mem 1879048212 rec_size 16;
        W_mem 1879048192 hdr_num_rec_bytes 32;
        W_buffer_locked 0 ].
Proof. eexists. split; vm_compute; reflexivity. Qed.

Lemma sample_ring_ok (locked abort num_rec : Z) :
  0 <= num_rec <= 1048564 ->
  ring_ok (H := i386_header) (sample_state locked abort num_rec).
Proof.
  intros Hn. unfold ring_ok, load, buffer_hdr, word. cbn.
  rewrite lookup_insert_eq. cbn. lia.
Qed.

Lemma reentry_falls_back_witness :
  header_ok (H := i386_header) /\
  ring_ok (sample_state 1 0 16) /\
  buffer_locked (sample_state 1 0 16) <> 0 /\
  prep_syscall NO_DESCHED (sample_state 1 0 16) =
    Done (NULL, sample_state 1 0 16) /\
  can_buffer_syscall (clock_gettime_record_end NULL 3221221000)
    (sample_state 1 0 16) = Done (0, sample_state 1 0 16) /\
  exists s',
    run (clock_gettime 1 3221221000 (sample_state 1 0 16)) [plain_reply 0] =
      ([(Traced SYS_clock_gettime [AInt 1; APtr 3221221000], plain_reply 0)],
       Returned (libc_ret 0, s')) /\
    mem s' = mem (sample_state 1 0 16) /\
    buffer_locked s' = 1 /\
    writes s' = [].
Proof.
  assert (Hl : buffer_locked (sample_state 1 0 16) <> 0)
    by (cbn; discriminate).
  assert (Hr : ring_ok (H := i386_header) (sample_state 1 0 16))
    by (apply sample_ring_ok; lia).
  destruct (reentry_falls_back (sample_state 1 0 16) i386_header_ok Hr Hl)
    as (Hprep & Hcan & _ & Hclock & _).
  split; [exact i386_header_ok|]. split; [exact Hr|]. split; [exact Hl|].
  split; [apply Hprep|]. split; [apply Hcan|].
  destruct (Hclock 1 3221221000 (plain_reply 0) []) as (s' & E1 & E2 & E3 & E4).
  exists s'. auto.
Defined.

Lemma ring_full_falls_back_witness :
  header_ok (H := i386_header) /\
  ring_ok (sample_state 0 0 1048564) /\
  ring_full (sample_state 0 0 1048564)
    (clock_gettime_record_end (prep_result (sample_state 0 0 1048564))
       3221221000) /\
  can_buffer_syscall
    (clock_gettime_record_end (prep_result (sample_state 0 0 1048564))
       3221221000)
    (after_prep (sample_state 0 0 1048564)) =
    Done (0, unlocked (sample_state 0 0 1048564)) /\
  exists s',
    run (clock_gettime 1 3221221000 (sample_state 0 0 1048564))
      [plain_reply 0] =
      ([(Traced SYS_clock_gettime [AInt 1; APtr 3221221000], plain_reply 0)],
       Returned (libc_ret 0, s')) /\
    mem s' = mem (sample_state 0 0 1048564) /\
    buffer_locked s' = 0 /\
    writes s' = [W_buffer_locked 1; W_buffer_locked 0].
Proof.
  assert (Hr : ring_ok (H := i386_header) (sample_state 0 0 1048564))
    by (apply sample_ring_ok; lia).
  assert (Hfull : ring_full (sample_state 0 0 1048564)
            (clock_gettime_record_end
               (prep_result (sample_state 0 0 1048564)) 3221221000))
    by (vm_compute; reflexivity).
  destruct (ring_full_falls_back (sample_state 0 0 1048564) i386_header_ok Hr)
    as (_ & Hcan & _ & Hclock & _).
  split; [exact i386_header_ok|]. split; [exact Hr|].
  split; [exact Hfull|]. split; [apply Hcan; exact Hfull|].
  destruct (Hclock 1 3221221000 (plain_reply 0) [] Hfull)
    as (s' & E1 & E2 & E3 & E4).
  exists s'. auto.
Defined.

End FallbackAtSamples.

Section ProcessSyscall.
Import Linux Diverter.
Context `{K : Tracees}.

Lemma process_syscall_blacklisted (t : Task) (syscallno : Z) :
  In syscallno blacklist -> process_syscall t syscallno = t.
Proof.
  unfold blacklist, process_syscall. cbn [In].
  intros [<- | [<- | [<- | [<- | [<- | [<- | []]]]]]]; reflexivity.
Qed.

(** C1, as the code has it: at a stop for one of the blacklisted
    syscalls [process_syscall] returns at once.  Nothing is executed
    against the kernel, and the task is left exactly as it was at the
    stop: its registers, the syscall result register among them, are
    not written. *)
Theorem blacklisted_syscall_skipped (t : Task) (syscallno : Z) :
  In syscallno blacklist ->
  process_syscall t syscallno = t /\
  ops (process_syscall t syscallno) = ops t /\
  syscall_result (regs (process_syscall t syscallno)) =
    syscall_result (regs t).
Proof.
  intros Hin. rewrite process_syscall_blacklisted by assumption. auto.
Qed.

(** C4: at a stop for the ioctl on the desched counter the syscall is
    not executed: the result register is set to 0, the other registers
    stay, and the emulated syscall is finished. *)
Theorem desched_ioctl_emulated (t : Task) :
  is_desched_event_syscall t = true ->
  syscall_result (regs (process_syscall t SYS_ioctl)) = 0 /\
  regs (process_syscall t SYS_ioctl) = set_syscall_result (regs t) 0 /\
  ops (process_syscall t SYS_ioctl) = ops t ++ [op_finish_emulated_syscall] /\
  (forall no a1 a2 a3 a4 a5 a6,
     op_remote_syscall no a1 a2 a3 a4 a5 a6 ∉
       drop (length (ops t)) (ops (process_syscall t SYS_ioctl))).
Proof.
  intros Hd. unfold process_syscall. cbn [Z.eqb SYS_ioctl Pos.eqb].
  rewrite Hd. cbn. repeat split.
  intros no a1 a2 a3 a4 a5 a6. rewrite drop_app_length.
  intros Hin. apply list_elem_of_singleton in Hin. discriminate.
Qed.

(** Any other ioctl, like any other syscall, is executed. *)
Lemma other_ioctl_executed (t : Task) :
  is_desched_event_syscall t = false ->
  process_syscall t SYS_ioctl = execute_syscall t.
Proof.
  intros Hd. unfold process_syscall. cbn [Z.eqb SYS_ioctl Pos.eqb].
  rewrite Hd. reflexivity.
Qed.

Lemma execute_syscall_result (t : Task) :
  exists r,
    regs (execute_syscall t) = set_syscall_result (regs t) r /\
    ops (execute_syscall t) =
      ops t ++ [op_finish_emulated_syscall;
                op_remote_syscall (original_syscallno (regs t))
                  (arg1 (regs t)) (arg2 (regs t)) (arg3 (regs t))
                  (arg4 (regs t)) (arg5 (regs t)) (arg6 (regs t))].
Proof.
  eexists. unfold execute_syscall. cbn. split; [reflexivity|].
  rewrite <- app_assoc. reflexivity.
Qed.

(** [advance] gets to [process_syscall] with the number the task
    stopped at, unless a signal is pending. *)
Lemma advance_to_syscall (t : Task) (req : dbg_request) :
  child_sig t = 0 -> type req = DREQ_CONTINUE ->
  pending_sig (cont_sysemu t) = 0 ->
  advance t req =
  Diverter.Ok (true, process_syscall (cont_sysemu t)
                       (original_syscallno (regs (cont_sysemu t)))).
Proof.
  intros Hc Hty Hp. unfold advance. rewrite Hc, Hty. cbn [Z.eqb negb].
  rewrite Hp. reflexivity.
Qed.

End ProcessSyscall.

Section ProcessSyscallAtSamples.
Import Linux Diverter.

(** C1 as stated fails: a task stopped at the entry of [kill] has
    [-ENOSYS] in its result register, and it is still there after
    [process_syscall]. *)
Lemma blacklisted_syscall_no_success :
  ~ (forall (K : Tracees) (t : Task) (syscallno : Z),
       In syscallno blacklist ->
       ops (process_syscall t syscallno) = ops t /\
       ~ is_error_result (syscall_result (regs (process_syscall t syscallno)))).
Proof.
  intros Hclaim.
  destruct (Hclaim quiet_tracees (at_syscall_entry SYS_kill 4321 9) SYS_kill)
    as [_ Hok].
  - unfold blacklist. cbn. auto.
  - apply Hok. unfold is_error_result. vm_compute.
    split; [discriminate | reflexivity].
Qed.

Lemma blacklisted_syscall_skipped_witness :
  In SYS_kill blacklist /\
  process_syscall (at_syscall_entry SYS_kill 4321 9) SYS_kill =
    at_syscall_entry SYS_kill 4321 9 /\
  syscall_result
    (regs (process_syscall (at_syscall_entry SYS_kill 4321 9) SYS_kill)) =
    - ENOSYS.
Proof.
  assert (Hin : In SYS_kill blacklist) by (unfold blacklist; cbn; auto).
  destruct (blacklisted_syscall_skipped (K := quiet_tracees)
              (at_syscall_entry SYS_kill 4321 9) SYS_kill Hin)
    as (E1 & _ & E3).
  split; [exact Hin|]. split; [exact E1|]. rewrite E3. reflexivity.
Defined.

Lemma desched_ioctl_emulated_witness :
  syscall_result
    (regs (process_syscall (K := desched_tracees)
             (at_syscall_entry SYS_ioctl 5 9216) SYS_ioctl)) = 0 /\
  ops (process_syscall (K := desched_tracees)
         (at_syscall_entry SYS_ioctl 5 9216) SYS_ioctl) =
    [op_finish_emulated_syscall].
Proof.
  destruct (desched_ioctl_emulated (K := desched_tracees)
              (at_syscall_entry SYS_ioctl 5 9216) eq_refl)
    as (E1 & _ & E3 & _).
  split; [exact E1 | exact E3].
Defined.

End ProcessSyscallAtSamples.

Section Divert.
Import Linux Diverter.
Context `{K : Tracees}.

Ltac by_request req :=
  destruct req as [ty target len]; destruct ty; cbn in *.

Lemma process_debugger_requests_takes (incoming : list dbg_request) :
  forall s t t' req s' rest,
    process_debugger_requests incoming s t = Resume t' req s' rest ->
    (length rest < length incoming)%nat.
Proof.
  induction incoming as [|r incoming IH]; intros s t t' req s' rest Hp;
    [discriminate|].
  cbn [length].
  assert (Hrec : forall s1 t1,
            process_debugger_requests incoming s1 t1 =
              Resume t' req s' rest -> (length rest < S (length incoming))%nat).
  { intros s1 t1 Hp1. apply IH in Hp1. lia. }
  by_request r;
    try (destruct (diversion_dying s); inversion Hp; subst; lia);
    try (destruct (diversion_dying s);
         [inversion Hp; subst; lia | eapply Hrec; eassumption]);
    try (inversion Hp; subst; lia);
    try (eapply Hrec; eassumption).
  destruct t as [tid|]; [eapply Hrec; eassumption | discriminate].
Qed.

(** Where [process_debugger_requests] stops for a non-null task: the
    requests before the one it stops at have moved the reference count
    by the siginfo reads and writes among them, and it returns null
    just at the requests of [ends_diversion]. *)
Lemma process_debugger_requests_stops (incoming : list dbg_request) :
  forall s tid t' req s' rest,
    process_debugger_requests incoming s (Some tid) =
      Resume t' req s' rest ->
    exists consumed,
      incoming = consumed ++ req :: rest /\
      diversion_refcount s' =
        diversion_refcount s + count_requests is_read_siginfo consumed -
        count_requests is_write_siginfo consumed /\
      match t' with
      | None => ends_diversion s' req
      | Some _ =>
          dbg_is_resume_request req = true /\ diversion_refcount s' <> 0
      end.
Proof.
  induction incoming as [|r incoming IH]; intros s tid t' req s' rest Hp;
    [discriminate|].
  assert (Hstop : forall t0,
            Resume t0 r s incoming = Resume t' req s' rest ->
            match t0 with
            | None => ends_diversion s r
            | Some _ =>
                dbg_is_resume_request r = true /\ diversion_refcount s <> 0
            end ->
            exists consumed,
              r :: incoming = consumed ++ req :: rest /\
              diversion_refcount s' =
                diversion_refcount s +
                count_requests is_read_siginfo consumed -
                count_requests is_write_siginfo consumed /\
              match t' with
              | None => ends_diversion s' req
              | Some _ =>
                  dbg_is_resume_request req = true /\
                  diversion_refcount s' <> 0
              end).
  { intros t0 E Hm. inversion E; subst. exists []. cbn.
    split; [reflexivity|]. split; [lia | assumption]. }
  assert (Hgo : forall s1 tid1 (d : Z),
            process_debugger_requests incoming s1 (Some tid1) =
              Resume t' req s' rest ->
            diversion_refcount s1 = diversion_refcount s + d ->
            d = (if is_read_siginfo r then 1 else 0) -
                (if is_write_siginfo r then 1 else 0) ->
            exists consumed,
              r :: incoming = consumed ++ req :: rest /\
              diversion_refcount s' =
                diversion_refcount s +
                count_requests is_read_siginfo consumed -
                count_requests is_write_siginfo consumed /\
              match t' with
              | None => ends_diversion s' req
              | Some _ =>
                  dbg_is_resume_request req = true /\
                  diversion_refcount s' <> 0
              end).
  { intros s1 tid1 d Hp1 Hd1 Hd.
    apply IH in Hp1 as (consumed & -> & Hcount & Hm).
    exists (r :: consumed). cbn [app count_requests].
    split; [reflexivity|]. split; [lia | assumption]. }
  unfold ends_diversion in *.
  by_request r; unfold diversion_dying in *;
    try (destruct (Z.eqb_spec (diversion_refcount s) 0);
         (eapply Hstop; [eassumption | cbn; auto; fail]));
    try (eapply Hstop; [eassumption | cbn; auto; fail]);
    try (eapply (Hgo _ _ 0); [eassumption | cbn; lia | cbn; lia]).
  all: try (destruct (Z.eqb_spec (diversion_refcount s) 0);
            [ eapply Hstop; [eassumption | cbn; auto]
            | eapply (Hgo _ _ 0); [eassumption | cbn; lia | cbn; lia] ]).
  - eapply (Hgo _ _ 1); [eassumption | cbn; lia | cbn; lia].
  - eapply (Hgo _ _ (-1)); [eassumption | cbn; lia | cbn; lia].
  - destruct (find_task s target);
      (eapply (Hgo _ _ 0); [eassumption | cbn; lia | cbn; lia]).
Qed.

Lemma process_debugger_requests_ends (req : dbg_request)
    (rest : list dbg_request) (s : Session) (t : option Z) :
  ends_diversion s req ->
  process_debugger_requests (req :: rest) s t = Resume None req s rest.
Proof.
  unfold ends_diversion, diversion_dying.
  intros [Hr | [[Hr Hz] | [Hb Hz]]].
  - by_request req; try discriminate. reflexivity.
  - cbn [process_debugger_requests]. rewrite Hr. unfold diversion_dying.
    rewrite Hz. reflexivity.
  - by_request req; try discriminate; unfold diversion_dying;
      rewrite Hz; reflexivity.
Qed.

Lemma divert_loop_exit (fuel : nat) (incoming : list dbg_request)
    (s : Session) (t : option Z) (req : dbg_request) (s' : Session)
    (rest : list dbg_request) :
  process_debugger_requests incoming s t = Resume None req s' rest ->
  diversion_refcount s' = 0 ->
  divert_loop (S fuel) incoming s t = Diverted req (kill_all_tasks s') rest.
Proof.
  intros Hp Hz. cbn [divert_loop]. rewrite Hp. unfold diversion_dying.
  rewrite Hz. reflexivity.
Qed.

Lemma divert_loop_diverted (fuel : nat) :
  forall incoming s t req s' rest,
    divert_loop fuel incoming s t = Diverted req s' rest ->
    tasks s' = ∅ /\ diversion_refcount s' = 0.
Proof.
  induction fuel as [|fuel IH]; intros incoming s t req s' rest Hd;
    [discriminate|].
  cbn [divert_loop] in Hd.
  destruct (process_debugger_requests incoming s t)
    as [[tid|] req1 s1 rest1 | | s1]; try discriminate.
  - destruct (tasks s1 !! tid) as [task|]; [|discriminate].
    destruct (advance task req1) as [[[] task1]|]; try discriminate;
      eapply IH; eassumption.
  - unfold diversion_dying in Hd.
    destruct (Z.eqb_spec (diversion_refcount s1) 0); [|discriminate].
    inversion Hd; subst. cbn. auto.
Qed.

(** The loop never runs out of the fuel [divert] gives it. *)
Lemma divert_loop_fuel (fuel : nat) :
  forall incoming s t,
    (length incoming < fuel)%nat ->
    divert_loop fuel incoming s t <> OutOfFuel.
Proof.
  induction fuel as [|fuel IH]; intros incoming s t Hlen; [lia|].
  cbn [divert_loop].
  destruct (process_debugger_requests incoming s t)
    as [[tid|] req1 s1 rest1 | | s1] eqn:Hp; try discriminate.
  - apply process_debugger_requests_takes in Hp.
    destruct (tasks s1 !! tid) as [task|]; [|discriminate].
    destruct (advance task req1) as [[[] task1]|]; try discriminate;
      apply IH; lia.
  - destruct (diversion_dying s1); discriminate.
Qed.

(** C9, as the code has it: [process_debugger_requests] returns null
    exactly at a restart request, or at a resume-execution request or a
    request to set or remove a breakpoint or watchpoint that finds the
    reference count (moved up by each READ_SIGINFO and down by each
    WRITE_SIGINFO before it) at zero.  When it returns null with the
    count at zero, the loop of [divert] exits and all tasks of the
    diversion are killed; and whenever [divert] returns, that is how
    it ended. *)
Theorem diversion_ends (incoming : list dbg_request) (s : Session)
    (tid task : Z) :
  (forall req s' rest,
     process_debugger_requests incoming s (Some tid) =
       Resume None req s' rest ->
     exists consumed,
       incoming = consumed ++ req :: rest /\
       diversion_refcount s' =
         diversion_refcount s + count_requests is_read_siginfo consumed -
         count_requests is_write_siginfo consumed /\
       ends_diversion s' req) /\
  (forall t' req s' rest,
     process_debugger_requests incoming s (Some tid) =
       Resume (Some t') req s' rest ->
     ~ ends_diversion s' req) /\
  (forall req rest,
     ends_diversion s req ->
     process_debugger_requests (req :: rest) s (Some tid) =
       Resume None req s rest) /\
  (forall fuel t req s' rest,
     process_debugger_requests incoming s t = Resume None req s' rest ->
     diversion_refcount s' = 0 ->
     divert_loop (S fuel) incoming s t =
       Diverted req (kill_all_tasks s') rest /\
     tasks (kill_all_tasks s') = ∅) /\
  (forall req s' rest,
     divert s incoming task = Diverted req s' rest ->
     tasks s' = ∅ /\ diversion_refcount s' = 0) /\
  divert s incoming task <> OutOfFuel.
Proof.
  split.
  { intros req s' rest Hp.
    apply process_debugger_requests_stops in Hp as (consumed & E & Hc & He).
    exists consumed. auto. }
  split.
  { intros t' req s' rest Hp.
    apply process_debugger_requests_stops in Hp
      as (consumed & E & Hc & Hres & Hnz).
    unfold ends_diversion. intros [Hr | [[_ Hz] | [_ Hz]]]; try contradiction.
    destruct req as [ty target len]; destruct ty; discriminate. }
  split; [intros; apply process_debugger_requests_ends; assumption|].
  split.
  { intros fuel t req s' rest Hp Hz. split; [|reflexivity].
    apply divert_loop_exit; assumption. }
  split.
  { intros req s' rest Hd. unfold divert in Hd.
    eapply divert_loop_diverted; eassumption. }
  unfold divert. apply divert_loop_fuel. lia.
Qed.

End Divert.

Section DivertAtSamples.
Import Linux Diverter.

(** C9 as stated fails: once the debugger has written the siginfo back
    and the count is at zero, a request to set a breakpoint ends the
    diversion, though it is neither a restart nor a resume request. *)
Lemma break_request_ends_diversion :
  ~ (forall (K : Tracees) (incoming : list dbg_request) (s : Session)
       (tid : Z) (req : dbg_request) (s' : Session)
       (rest : list dbg_request),
       process_debugger_requests incoming s (Some tid) =
         Resume None req s' rest ->
       type req = DREQ_RESTART \/
       (dbg_is_resume_request req = true /\ diversion_refcount s' = 0)).
Proof.
  intros Hclaim.
  destruct (Hclaim quiet_tracees
              [request DREQ_WRITE_SIGINFO; request DREQ_SET_SW_BREAK;
               request DREQ_CONTINUE]
              (sample_session 1) 1234 (request DREQ_SET_SW_BREAK)
              (send reply_write_siginfo (diversion_unref (sample_session 1)))
              [request DREQ_CONTINUE] eq_refl)
    as [Hr | [Hr _]]; discriminate.
Qed.

(** The same run through [divert]: the diversion is torn down at the
    breakpoint request. *)
Lemma dying_diversion_torn_down_at_break :
  exists s',
    divert (K := quiet_tracees) (sample_session 1)
      [request DREQ_WRITE_SIGINFO; request DREQ_SET_SW_BREAK;
       request DREQ_CONTINUE] 1234 =
      Diverted (request DREQ_SET_SW_BREAK) s' [request DREQ_CONTINUE] /\
    tasks s' = ∅.
Proof. eexists. split; reflexivity. Qed.

(** A restart that finds the count above zero trips the assertion at
    the end of [divert]. *)
Lemma restart_with_references_aborts :
  divert (K := quiet_tracees) (sample_session 1) [request DREQ_RESTART] 1234 =
    Aborted.
Proof. reflexivity. Qed.

(** A whole diversion: the debugger continues once (the task runs to
    its next syscall, which is executed), writes the siginfo back and
    continues again, which ends the diversion with all tasks killed. *)
Lemma diversion_ends_witness :
  exists s',
    divert (K := quiet_tracees) (sample_session 1)
      [request DREQ_CONTINUE; request DREQ_WRITE_SIGINFO;
       request DREQ_CONTINUE] 1234 =
      Diverted (request DREQ_CONTINUE) s' [] /\
    tasks s' = ∅ /\ diversion_refcount s' = 0.
Proof.
  assert (E : exists s',
            divert (K := quiet_tracees) (sample_session 1)
              [request DREQ_CONTINUE; request DREQ_WRITE_SIGINFO;
               request DREQ_CONTINUE] 1234 =
              Diverted (request DREQ_CONTINUE) s' [])
    by (vm_compute; eauto).
  destruct E as (s' & E). exists s'. split; [exact E|].
  destruct (diversion_ends (K := quiet_tracees)
              [request DREQ_CONTINUE; request DREQ_WRITE_SIGINFO;
               request DREQ_CONTINUE] (sample_session 1) 1234 1234)
    as (_ & _ & _ & _ & Hd & _).
  exact (Hd _ _ _ E).
Defined.

End DivertAtSamples.

(** * Further properties of the shim's setup *)

Section Setup.
Import Linux Preload.
Context `{H : SyscallBufferH}.

Lemma run_exits {A : Type} (p : prog A) :
  forall replies t, run p replies = (t, Exited) -> exits_after p t.
Proof.
  induction p as [a' | e k IH |]; intros replies t Hrun; cbn in Hrun.
  - discriminate.
  - destruct replies as [|r rs]; [discriminate|].
    destruct (run (k r) rs) as [t' o] eqn:E.
    inversion Hrun; subst. constructor. eapply IH; eassumption.
  - inversion Hrun; subst. constructor.
Qed.

Lemma exits_prog_bind_inv {A B : Type} (p : prog A) (f : A -> prog B) :
  forall t, exits_after (prog_bind p f) t ->
  exits_after p t \/
  exists t1 t2 a,
    t = t1 ++ t2 /\ returns_after p t1 a /\ exits_after (f a) t2.
Proof.
  induction p as [a | e k IH |]; intros t Hx; cbn in Hx.
  - right. exists [], t, a. repeat split; [constructor | assumption].
  - inversion Hx as [| e' k' r t' Hk]; subst.
    apply IH in Hk as [Hk | (t1 & t2 & a & -> & H1 & H2)].
    + left. constructor. assumption.
    + right. exists ((e, r) :: t1), t2, a.
      repeat split; [constructor|]; assumption.
  - left. inversion Hx. constructor.
Qed.

Section Frames.
Variable P : list (entry * reply) -> Prop.
Hypothesis P_app : forall t1 t2, P t2 -> P (t1 ++ t2).
Variable R : shim_state -> list (entry * reply) -> shim_state -> Prop.
Hypothesis R_nil : forall s, R s [] s.
Hypothesis R_app : forall s1 t1 s2 t2 s3,
  R s1 t1 s2 -> R s2 t2 s3 -> R s1 (t1 ++ t2) s3.

Lemma exits_only_bind {A B : Type} (m : shim A) (f : A -> shim B) :
  exits_only P m -> (forall a, exits_only P (f a)) ->
  exits_only P (bind m f).
Proof.
  intros Hm Hf s t Hx. unfold bind in Hx.
  apply exits_prog_bind_inv in Hx as [Hx | (t1 & t2 & [a s1] & -> & _ & Hx)].
  - exact (Hm s t Hx).
  - apply P_app. exact (Hf a s1 t2 Hx).
Qed.

Lemma exits_only_pure {A : Type} (a : A) : exits_only P (pure a).
Proof. intros s t Hx. inversion Hx. Qed.

Lemma exits_only_get : exits_only P get.
Proof. intros s t Hx. inversion Hx. Qed.

Lemma exits_only_put_write (w : write) : exits_only P (put_write w).
Proof. intros s t Hx. inversion Hx. Qed.

Lemma exits_only_modify (f : shim_state -> shim_state) :
  exits_only P (modify f).
Proof. intros s t Hx. inversion Hx. Qed.

Lemma exits_only_enter (e : entry) : exits_only P (enter e).
Proof.
  intros s t Hx. unfold enter in Hx.
  inversion Hx as [| e' k' r t' Hk]; subst. inversion Hk.
Qed.

Lemma exits_only_syscall (no : Z) (args : list arg) :
  exits_only P (syscall no args).
Proof.
  unfold syscall. apply exits_only_bind; [apply exits_only_enter|].
  intros r. destruct (libc_error r).
  - apply exits_only_bind; [apply exits_only_put_write|].
    intros _. apply exits_only_pure.
  - apply exits_only_pure.
Qed.

Lemma returns_only_bind {A B : Type} (m : shim A) (f : A -> shim B) :
  returns_only R m -> (forall a, returns_only R (f a)) ->
  returns_only R (bind m f).
Proof.
  intros Hm Hf s t b s' Hr. unfold bind in Hr.
  apply returns_prog_bind_inv in Hr as (t1 & t2 & [a s1] & -> & H1 & H2).
  eapply R_app; [exact (Hm _ _ _ _ H1) | exact (Hf _ _ _ _ _ H2)].
Qed.

Lemma returns_only_pure {A : Type} (a : A) : returns_only R (pure a).
Proof. intros s t b s' Hr. inversion Hr; subst. apply R_nil. Qed.

Lemma returns_only_get : returns_only R get.
Proof. intros s t b s' Hr. inversion Hr; subst. apply R_nil. Qed.

Lemma returns_only_put_write (w : write) :
  (forall s, R s [] (do_write w s)) -> returns_only R (put_write w).
Proof. intros Hw s t b s' Hr. inversion Hr; subst. apply Hw. Qed.

Lemma returns_only_modify (f : shim_state -> shim_state) :
  (forall s, R s [] (f s)) -> returns_only R (modify f).
Proof. intros Hw s t b s' Hr. inversion Hr; subst. apply Hw. Qed.

Lemma returns_only_syscall (no : Z) (args : list arg) :
  (forall s r, R s [(Traced no args, r)] (after_syscall r s)) ->
  returns_only R (syscall no args).
Proof.
  intros Hs s t v s' Hr. unfold syscall, bind, enter in Hr. cbn in Hr.
  inversion Hr as [| e k r t' a Hk]; subst.
  specialize (Hs s r). unfold after_syscall in Hs.
  destruct (libc_error (reply_ret r)); cbn in Hk; inversion Hk; subst;
    exact Hs.
Qed.

Lemma returns_only_untraced (no : Z) (a0 a1 a2 a3 a4 : arg) :
  (forall s r,
     R s [(Untraced no [a0; a1; a2; a3; a4], r)] (after_untraced r s)) ->
  returns_only R (untraced_syscall no a0 a1 a2 a3 a4).
Proof.
  intros Hs s t v s' Hr. unfold untraced_syscall, enter in Hr.
  inversion Hr as [| e k r t' a Hk]; subst. inversion Hk; subst. apply Hs.
Qed.

Lemma returns_only_exit {A : Type} (status : Z) :
  returns_only R (traced__exit (A := A) status).
Proof.
  intros s t a s' Hr. unfold traced__exit in Hr.
  inversion Hr as [| e k r t' a' Hk]; subst. inversion Hk.
Qed.

End Frames.

Lemma ends_fatal_app (t1 t2 : list (entry * reply)) :
  ends_fatal t2 -> ends_fatal (t1 ++ t2).
Proof.
  intros (t0 & msg & r & r' & ->). exists (t1 ++ t0), msg, r, r'.
  rewrite app_assoc. reflexivity.
Qed.

Lemma exits_only_logmsg (P : list (entry * reply) -> Prop) (msg : string) :
  (forall t1 t2, P t2 -> P (t1 ++ t2)) -> exits_only P (logmsg msg).
Proof.
  intros HP. unfold logmsg, traced_write.
  apply exits_only_bind; [assumption | apply exits_only_syscall; assumption |].
  intros _. apply exits_only_pure.
Qed.

Lemma fatal_ends_fatal {A : Type} (msg : string) :
  exits_only ends_fatal (fatal (A := A) msg).
Proof.
  intros s t Hx. unfold fatal, logmsg, traced_write, bind, syscall, enter,
    traced__exit in Hx. cbn in Hx.
  inversion Hx as [| e k r t' Hk]; subst.
  destruct (libc_error (reply_ret r)); cbn in Hk;
    inversion Hk as [| e' k' r' t'' Hk']; subst; inversion Hk'; subst;
    eexists [], _, r, r'; reflexivity.
Qed.

Ltac fatally :=
  repeat first
    [ apply fatal_ends_fatal
    | apply exits_only_logmsg; exact ends_fatal_app
    | apply exits_only_syscall; exact ends_fatal_app
    | apply exits_only_pure
    | apply exits_only_get
    | apply exits_only_put_write
    | apply exits_only_modify
    | apply exits_only_enter
    | apply exits_only_bind; [exact ends_fatal_app | | intros ? ]
    | match goal with
      | |- exits_only _ (if ?c then _ else _) => destruct c
      end ].

Lemma open_desched_event_counter_fatally (nr_descheds : Z) :
  exits_only ends_fatal (open_desched_event_counter nr_descheds).
Proof.
  unfold open_desched_event_counter, traced_perf_event_open, traced_fcntl,
    traced_gettid. cbv zeta. fatally.
Qed.

Lemma install_syscall_filter_fatally :
  exits_only ends_fatal install_syscall_filter.
Proof.
  unfold install_syscall_filter, log_info, traced_prctl. cbv zeta. fatally.
Qed.

Lemma set_up_buffer_fatally : exits_only ends_fatal set_up_buffer.
Proof.
  unfold set_up_buffer, assert, traced_raise, traced_getpid, traced_gettid,
    traced_sigprocmask, rrcall_init_syscall_buffer. cbv zeta.
  fatally.
Qed.

Lemma init_fatally : exits_only ends_fatal init.
Proof.
  unfold init. apply exits_only_bind; [exact ends_fatal_app | fatally |].
  intros s. apply exits_only_bind; [exact ends_fatal_app | |].
  - destruct (is_seccomp_bpf_installed s =? 0); [|fatally].
    apply exits_only_bind;
      [exact ends_fatal_app | apply install_syscall_filter_fatally |].
    intros _. fatally.
  - intros _. apply set_up_buffer_fatally.
Qed.

Lemma exits_bind_inv {A B : Type} (m : shim A) (f : A -> shim B)
    (s : shim_state) (t : list (entry * reply)) :
  exits_after (bind m f s) t ->
  exits_after (m s) t \/
  exists t1 t2 a s1,
    t = t1 ++ t2 /\ returns_after (m s) t1 (a, s1) /\
    exits_after (f a s1) t2.
Proof.
  intros Hx. unfold bind in Hx.
  apply exits_prog_bind_inv in Hx as [Hx | (t1 & t2 & [a s1] & -> & H1 & H2)].
  - left. assumption.
  - right. exists t1, t2, a, s1. auto.
Qed.

Ltac never :=
  repeat first
    [ apply exits_only_syscall; exact (fun _ _ (F : False) => F)
    | apply exits_only_pure
    | apply exits_only_get
    | apply exits_only_put_write
    | apply exits_only_modify
    | apply exits_only_enter
    | apply exits_only_bind;
        [exact (fun _ _ (F : False) => F) | | intros ? ]
    | match goal with
      | |- exits_only _ (if ?c then _ else _) => destruct c
      end ].

Lemma can_buffer_syscall_never_exits (record_end : Z) :
  exits_only (fun _ => False) (can_buffer_syscall record_end).
Proof. unfold can_buffer_syscall. cbv zeta. never. Qed.

Lemma commit_syscall_never_exits (syscallno record_end ret dd : Z) :
  exits_only (fun _ => False) (commit_syscall syscallno record_end ret dd).
Proof. unfold commit_syscall, update_errno_ret. cbv zeta. never. Qed.

Lemma returns_syscall_state (no : Z) (args : list arg) (s s' : shim_state)
    (t : list (entry * reply)) (v : Z) :
  returns_after (syscall no args s) t (v, s') ->
  exists r, t = [(Traced no args, r)] /\ v = libc_ret (reply_ret r) /\
    s' = after_syscall r s.
Proof.
  unfold syscall, bind, enter, libc_ret, after_syscall. cbn. intros Hr.
  inversion Hr as [| e k r t' a Hk]; subst. exists r.
  destruct (libc_error (reply_ret r)); cbn in Hk; inversion Hk; subst; auto.
Qed.

Lemma after_syscall_fields (r : reply) (s : shim_state) :
  buffer (after_syscall r s) = buffer s /\
  buffer_locked (after_syscall r s) = buffer_locked s /\
  desched_counter_fd (after_syscall r s) = desched_counter_fd s /\
  is_seccomp_bpf_installed (after_syscall r s) = is_seccomp_bpf_installed s /\
  atfork_child_drop_buffer (after_syscall r s) = atfork_child_drop_buffer s /\
  mem (after_syscall r s) = reply_mem r (mem s).
Proof.
  unfold after_syscall. destruct (libc_error (reply_ret r)); cbn; auto 10.
Qed.

Lemma fatal_exits_exact {A : Type} (msg : string) (s : shim_state)
    (t : list (entry * reply)) :
  exits_after (fatal (A := A) msg s) t ->
  exists msg' r r', t = [(stderr_write msg', r); (exit_group_1, r')].
Proof.
  intros Hx. unfold fatal, logmsg, traced_write, bind, syscall, enter,
    traced__exit in Hx. cbn in Hx.
  inversion Hx as [| e k r t' Hk]; subst.
  destruct (libc_error (reply_ret r)); cbn in Hk;
    inversion Hk as [| e' k' r' t'' Hk']; subst; inversion Hk'; subst;
    eexists _, r, r'; reflexivity.
Qed.

Ltac inv_bind Hr :=
  let t1 := fresh "t" in let t2 := fresh "t" in
  let a := fresh "a" in let s1 := fresh "s" in
  let H1 := fresh "Hstep" in
  apply returns_bind_inv in Hr as (t1 & t2 & a & s1 & -> & H1 & Hr).

Ltac inv_syscall Hs :=
  let r := fresh "r" in
  apply returns_syscall_state in Hs as (r & -> & -> & ->).

Ltac inv_check Hr :=
  match type of Hr with
  | returns_after ((if ?c then fatal _ else _) _) _ _ =>
      destruct c eqn:?; [exfalso; exact (returns_fatal_inv _ _ _ _ _ Hr) |]
  end.

Ltac inv_exit Hx :=
  let t1 := fresh "t" in let t2 := fresh "t" in
  let a := fresh "a" in let s1 := fresh "s" in
  let H1 := fresh "Hstep" in
  apply exits_bind_inv in Hx as [Hx | (t1 & t2 & a & s1 & -> & H1 & Hx)].

Lemma syscall_never_exits (no : Z) (args : list arg) (s : shim_state)
    (t : list (entry * reply)) :
  ~ exits_after (syscall no args s) t.
Proof.
  intros Hx.
  exact (exits_only_syscall (fun _ => False) (fun _ _ (F : False) => F)
           no args s t Hx).
Qed.

Lemma negb_eqb_false (z : Z) : negb (z =? 0) = false -> z = 0.
Proof. intros E. apply negb_false_iff, Z.eqb_eq in E. assumption. Qed.

Lemma negb_eqb_true (z : Z) : negb (z =? 0) = true -> z <> 0.
Proof. intros E. apply negb_true_iff, Z.eqb_neq in E. assumption. Qed.

(** X1: [install_syscall_filter] returns only after three traced
    entries (the log line and the two [prctl]s) that both succeeded;
    when it ends the process instead, it is because one of the [prctl]s
    failed, and if the first one failed the filter was never handed to
    the kernel. *)
Theorem install_syscall_filter_outcomes (s : shim_state)
    (replies : list reply) (t : list (entry * reply)) :
  (forall s',
     run (install_syscall_filter s) replies = (t, Returned (tt, s')) ->
     exists msg r0 r1 r2,
       t = [ (stderr_write msg, r0);
             (Traced SYS_prctl
                [AInt PR_SET_NO_NEW_PRIVS; AInt 1; AInt 0; AInt 0; AInt 0],
              r1);
             (Traced SYS_prctl
                [AInt PR_SET_SECCOMP; AInt SECCOMP_MODE_FILTER;
                 AFprog 11 (Bpf.filter get_untraced_syscall_entry_point);
                 AInt 0; AInt 0], r2) ] /\
       libc_ret (reply_ret r1) = 0 /\ libc_ret (reply_ret r2) = 0) /\
  (run (install_syscall_filter s) replies = (t, Exited) ->
   exists msg msg' r0 r1 r r',
     libc_ret (reply_ret r1) <> 0 /\
     t = [ (stderr_write msg, r0);
           (Traced SYS_prctl
              [AInt PR_SET_NO_NEW_PRIVS; AInt 1; AInt 0; AInt 0; AInt 0],
            r1);
           (stderr_write msg', r); (exit_group_1, r') ] \/
     exists r2,
     libc_ret (reply_ret r1) = 0 /\ libc_ret (reply_ret r2) <> 0 /\
     t = [ (stderr_write msg, r0);
           (Traced SYS_prctl
              [AInt PR_SET_NO_NEW_PRIVS; AInt 1; AInt 0; AInt 0; AInt 0],
            r1);
           (Traced SYS_prctl
              [AInt PR_SET_SECCOMP; AInt SECCOMP_MODE_FILTER;
               AFprog 11 (Bpf.filter get_untraced_syscall_entry_point);
               AInt 0; AInt 0], r2);
           (stderr_write msg', r); (exit_group_1, r') ]).
Proof.
  split.
  - intros s' Hrun. apply run_returns in Hrun.
    unfold install_syscall_filter, log_info, logmsg, traced_write,
      traced_prctl in Hrun.
    inv_bind Hrun. inv_bind Hstep. inv_syscall Hstep0.
    apply returns_pure_inv in Hstep as (-> & _ & ->).
    inv_bind Hrun. inv_syscall Hstep. inv_check Hrun.
    inv_bind Hrun. inv_syscall Hstep. inv_check Hrun.
    apply returns_pure_inv in Hrun as (-> & _ & ->).
    change (Z.of_nat (length (Bpf.filter get_untraced_syscall_entry_point)))
      with 11.
    eexists _, r, r0, r1. cbn [app].
    split; [reflexivity|]. split; apply negb_eqb_false; assumption.
  - intros Hrun. apply run_exits in Hrun.
    unfold install_syscall_filter, log_info, logmsg, traced_write,
      traced_prctl in Hrun.
    change (Z.of_nat (length (Bpf.filter get_untraced_syscall_entry_point)))
      with 11 in Hrun.
    inv_exit Hrun.
    { inv_exit Hrun; [exfalso; exact (syscall_never_exits _ _ _ _ Hrun)|].
      inversion Hrun. }
    inv_bind Hstep. inv_syscall Hstep0.
    apply returns_pure_inv in Hstep as (-> & _ & ->).
    inv_exit Hrun; [exfalso; exact (syscall_never_exits _ _ _ _ Hrun)|].
    inv_syscall Hstep.
    destruct (negb (libc_ret (reply_ret r0) =? 0)) eqn:E1.
    { apply fatal_exits_exact in Hrun as (msg' & r' & r'' & ->).
      eexists _, msg', r, r0, r', r''. left.
      split; [apply negb_eqb_true; assumption | reflexivity]. }
    inv_exit Hrun; [exfalso; exact (syscall_never_exits _ _ _ _ Hrun)|].
    inv_syscall Hstep.
    destruct (negb (libc_ret (reply_ret r1) =? 0)) eqn:E2.
    { apply fatal_exits_exact in Hrun as (msg' & r' & r'' & ->).
      eexists _, msg', r, r0, r', r''. right. exists r1.
      split; [apply negb_eqb_false; assumption|].
      split; [apply negb_eqb_true; assumption | reflexivity]. }
    inversion Hrun.
Qed.

(** A run of a wrapper that ends in [exit_group] is one that found the
    thread without a ring, and it ends with [fatal]'s two entries. *)
Lemma wrapper_exits_fatally (s : shim_state)
    (replies : list reply) (t : list (entry * reply)) :
  (forall clk_id tp,
     run (clock_gettime clk_id tp s) replies = (t, Exited) ->
     buffer s = NULL /\ ends_fatal t) /\
  (forall tp tzp,
     run (gettimeofday tp tzp s) replies = (t, Exited) ->
     buffer s = NULL /\ ends_fatal t).
Proof.
  assert (Hprep : forall nd t0,
            exits_after (prep_syscall nd s) t0 ->
            buffer s = NULL /\ ends_fatal t0).
  { intros nd t0 Hx. unfold prep_syscall in Hx.
    inv_exit Hx; [inversion Hx|].
    apply returns_get_inv in Hstep as (-> & -> & ->).
    inv_exit Hx.
    - destruct (Z.eqb_spec (buffer s) NULL) as [E|E]; [|inversion Hx].
      split; [assumption|]. exact (init_fatally _ _ Hx).
    - exfalso. revert Hx.
      apply (exits_only_bind (fun _ => False) (fun _ _ (F : False) => F));
        [never|]. intros s2. never. }
  split.
  - intros clk_id tp Hrun. apply run_exits in Hrun.
    unfold clock_gettime in Hrun. inv_exit Hrun; [eauto|].
    exfalso. revert Hrun.
    apply (exits_only_bind (fun _ => False) (fun _ _ (F : False) => F));
      [apply can_buffer_syscall_never_exits|].
    intros ok. destruct (ok =? 0); [never|].
    unfold untraced_syscall2, untraced_syscall3, untraced_syscall.
    apply (exits_only_bind (fun _ => False) (fun _ _ (F : False) => F));
      [never|]. intros ret.
    apply (exits_only_bind (fun _ => False) (fun _ _ (F : False) => F));
      [never|]. intros _. apply commit_syscall_never_exits.
  - intros tp tzp Hrun. apply run_exits in Hrun.
    unfold gettimeofday in Hrun. inv_exit Hrun; [eauto|].
    exfalso. revert Hrun.
    apply (exits_only_bind (fun _ => False) (fun _ _ (F : False) => F));
      [apply can_buffer_syscall_never_exits|].
    intros ok. destruct (ok =? 0); [never|].
    unfold untraced_syscall2, untraced_syscall3, untraced_syscall.
    apply (exits_only_bind (fun _ => False) (fun _ _ (F : False) => F));
      [never|]. intros ret.
    apply (exits_only_bind (fun _ => False) (fun _ _ (F : False) => F));
      [never|]. intros _.
    apply (exits_only_bind (fun _ => False) (fun _ _ (F : False) => F));
      [never|]. intros _. apply commit_syscall_never_exits.
Qed.

Lemma exits_by_fatal_run {A : Type} (allowed : Prop)
    (prev : option entry) (p : prog A) :
  exits_by_fatal allowed prev p ->
  forall replies t o, run p replies = (t, o) ->
  forall t1 e r t2, t = t1 ++ (e, r) :: t2 -> is_exit_group e = true ->
    allowed /\ e = exit_group_1 /\ t2 = [] /\ o = Exited /\
    match t1 with
    | [] => exists msg, prev = Some (stderr_write msg)
    | _ => exists t0 msg r', t1 = t0 ++ [(stderr_write msg, r')]
    end.
Proof.
  induction 1 as [prev a | msg k Hal Hk | prev e0 k He0 Hk IH];
    intros replies t o Hrun t1 e r t2 Ht He.
  - cbn in Hrun. apply pair_equal_spec in Hrun as [<- <-].
    destruct t1; discriminate.
  - cbn in Hrun. destruct replies as [|r0 rs].
    + apply pair_equal_spec in Hrun as [<- <-]. destruct t1; discriminate.
    + rewrite Hk in Hrun. cbn in Hrun.
      apply pair_equal_spec in Hrun as [<- <-].
      destruct t1 as [|x t1].
      * cbn in Ht. inversion Ht; subst. eauto 10.
      * cbn in Ht. inversion Ht. destruct t1; discriminate.
  - cbn in Hrun. destruct replies as [|r0 rs].
    + apply pair_equal_spec in Hrun as [<- <-]. destruct t1; discriminate.
    + destruct (run (k r0) rs) as [t' o'] eqn:E.
      apply pair_equal_spec in Hrun as [<- <-].
      destruct t1 as [|x t1].
      * cbn in Ht. inversion Ht; subst. congruence.
      * cbn in Ht. inversion Ht as [[Hx Ht']]. subst x.
        destruct (IH r0 rs _ _ E t1 e r t2 Ht' He)
          as (Hal & -> & -> & -> & Hprev).
        repeat split; try assumption.
        destruct t1 as [|y t1].
        -- destruct Hprev as (msg & Hm). inversion Hm; subst.
           exists [], msg, r0. reflexivity.
        -- destruct Hprev as (t0 & msg & r' & ->).
           exists ((e0, r0) :: t0), msg, r'. reflexivity.
Qed.

Lemma exits_by_fatal_prog_bind {A B : Type} (allowed : Prop)
    (prev : option entry) (p : prog A) (g : A -> prog B) :
  exits_by_fatal allowed prev p ->
  (forall a prev', exits_by_fatal allowed prev' (g a)) ->
  exits_by_fatal allowed prev (prog_bind p g).
Proof.
  intros Hp Hg.
  induction Hp as [prev a | msg k Hal Hk | prev e0 k He0 Hk IH];
    cbn [prog_bind].
  - apply Hg.
  - apply exits_by_fatal_exit; [assumption|].
    intros r. rewrite Hk. reflexivity.
  - apply exits_by_fatal_enter; [assumption|]. intros r. apply IH.
Qed.

Lemma exits_by_fatal_bind {A B : Type} (allowed : Prop)
    (prev : option entry) (m : shim A) (f : A -> shim B) (s : shim_state) :
  exits_by_fatal allowed prev (m s) ->
  (forall a s' prev', exits_by_fatal allowed prev' (f a s')) ->
  exits_by_fatal allowed prev (bind m f s).
Proof.
  intros Hm Hf. unfold bind. apply exits_by_fatal_prog_bind; [assumption|].
  intros [a s'] prev'. apply Hf.
Qed.

Lemma exits_by_fatal_pure {A : Type} (allowed : Prop)
    (prev : option entry) (a : A) (s : shim_state) :
  exits_by_fatal allowed prev (pure a s).
Proof. apply exits_by_fatal_done. Qed.

Lemma exits_by_fatal_get (allowed : Prop) (prev : option entry)
    (s : shim_state) :
  exits_by_fatal allowed prev (get s).
Proof. apply exits_by_fatal_done. Qed.

Lemma exits_by_fatal_put_write (allowed : Prop) (prev : option entry)
    (w : write) (s : shim_state) :
  exits_by_fatal allowed prev (put_write w s).
Proof. apply exits_by_fatal_done. Qed.

Lemma exits_by_fatal_modify (allowed : Prop) (prev : option entry)
    (f : shim_state -> shim_state) (s : shim_state) :
  exits_by_fatal allowed prev (modify f s).
Proof. apply exits_by_fatal_done. Qed.

Lemma exits_by_fatal_syscall (allowed : Prop) (prev : option entry)
    (no : Z) (args : list arg) (s : shim_state) :
  no <> SYS_exit_group ->
  exits_by_fatal allowed prev (syscall no args s).
Proof.
  intros Hno. unfold syscall, bind, enter. cbn [prog_bind].
  apply exits_by_fatal_enter; [cbn; apply Z.eqb_neq; assumption|].
  intros r. destruct (libc_error (reply_ret r)); apply exits_by_fatal_done.
Qed.

Lemma exits_by_fatal_untraced (allowed : Prop) (prev : option entry)
    (no : Z) (a0 a1 a2 a3 a4 : arg) (s : shim_state) :
  no <> SYS_exit_group ->
  exits_by_fatal allowed prev (untraced_syscall no a0 a1 a2 a3 a4 s).
Proof.
  intros Hno. unfold untraced_syscall, enter.
  apply exits_by_fatal_enter; [cbn; apply Z.eqb_neq; assumption|].
  intros r. apply exits_by_fatal_done.
Qed.

Lemma exits_by_fatal_fatal {A : Type} (allowed : Prop)
    (prev : option entry) (msg : string) (s : shim_state) :
  allowed -> exits_by_fatal allowed prev (fatal (A := A) msg s).
Proof.
  intros Hal. unfold fatal, logmsg, traced_write, syscall, bind, enter,
    traced__exit.
  cbn [prog_bind].
  apply exits_by_fatal_enter; [reflexivity|]. intros r.
  destruct (libc_error (reply_ret r)); cbn [prog_bind put_write pure];
    apply (exits_by_fatal_exit allowed _ (fun _ => Gone));
    [assumption | reflexivity | assumption | reflexivity].
Qed.

Ltac by_fatal :=
  repeat first
    [ apply exits_by_fatal_pure
    | apply exits_by_fatal_get
    | apply exits_by_fatal_put_write
    | apply exits_by_fatal_modify
    | apply exits_by_fatal_fatal; assumption
    | apply exits_by_fatal_syscall; first [assumption | discriminate]
    | apply exits_by_fatal_untraced; first [assumption | discriminate]
    | apply exits_by_fatal_bind; [ | intros ? ? ? ]
    | progress cbv beta zeta
    | match goal with
      | |- exits_by_fatal _ _ ((if ?c then _ else _) _) => destruct c
      end ].

Lemma init_exits_by_fatal (allowed : Prop) (prev : option entry)
    (s : shim_state) :
  RRCALL_init_syscall_buffer <> SYS_exit_group -> allowed ->
  exits_by_fatal allowed prev (init s).
Proof.
  intros Hrr Hal.
  unfold init, install_syscall_filter, log_info, set_up_buffer, assert,
    logmsg, traced_raise, traced_getpid, traced_gettid, traced_sigprocmask,
    traced_write, traced_prctl, rrcall_init_syscall_buffer,
    open_desched_event_counter, traced_perf_event_open, traced_fcntl.
  cbv zeta. by_fatal.
Qed.

Lemma prep_syscall_exits_by_fatal (prev : option entry)
    (notify_desched : Z) (s : shim_state) :
  RRCALL_init_syscall_buffer <> SYS_exit_group ->
  exits_by_fatal (buffer s = NULL) prev (prep_syscall notify_desched s).
Proof.
  intros Hrr. unfold prep_syscall. unfold bind at 1. unfold get at 1.
  cbn [prog_bind].
  apply exits_by_fatal_bind.
  - destruct (Z.eqb_spec (buffer s) NULL) as [E|E];
      [apply init_exits_by_fatal; assumption | apply exits_by_fatal_pure].
  - intros; by_fatal.
Qed.

(** X2: the only [exit_group] the wrappers make is the one of [fatal].
    In any run of [clock_gettime] or [gettimeofday], complete or not,
    an [exit_group] entry is [exit_group(1)], it is the last entry, it
    comes right after a line written to stderr, the run ends with it,
    and the call had found the thread without a ring: it happens during
    set-up only, and a wrapper called with a ring pointer set never
    enters [exit_group].  Faults are not part of the model: a thread
    that dies of a signal on a bad ring pointer has made a prefix of
    the entries of the run described here. *)
Theorem wrapper_exit_group_only_by_fatal (s : shim_state)
    (replies : list reply) (t : list (entry * reply))
    (o : outcome (Z * shim_state)) :
  RRCALL_init_syscall_buffer <> SYS_exit_group ->
  (exists clk_id tp, run (clock_gettime clk_id tp s) replies = (t, o)) \/
  (exists tp tzp, run (gettimeofday tp tzp s) replies = (t, o)) ->
  (forall t1 e r t2,
     t = t1 ++ (e, r) :: t2 -> is_exit_group e = true ->
     buffer s = NULL /\ e = exit_group_1 /\ t2 = [] /\ o = Exited /\
     exists t0 msg r', t1 = t0 ++ [(stderr_write msg, r')]) /\
  (o = Exited -> buffer s = NULL /\ ends_fatal t).
Proof.
  intros Hrr Hrun.
  assert (Hby : exists p : prog (Z * shim_state),
            run p replies = (t, o) /\
            exits_by_fatal (buffer s = NULL) None p).
  { destruct Hrun as [(clk_id & tp & Hrun) | (tp & tzp & Hrun)].
    - exists (clock_gettime clk_id tp s). split; [exact Hrun|].
      unfold clock_gettime.
      apply exits_by_fatal_bind;
        [apply prep_syscall_exits_by_fatal; assumption|].
      intros ptr s1 prev1. cbv beta zeta.
      unfold untraced_syscall2, untraced_syscall3, commit_syscall,
        can_buffer_syscall, update_errno_ret.
      by_fatal.
    - exists (gettimeofday tp tzp s). split; [exact Hrun|].
      unfold gettimeofday.
      apply exits_by_fatal_bind;
        [apply prep_syscall_exits_by_fatal; assumption|].
      intros ptr s1 prev1. cbv beta zeta.
      unfold untraced_syscall2, untraced_syscall3, commit_syscall,
        can_buffer_syscall, update_errno_ret.
      by_fatal. }
  destruct Hby as (p & Hp & Hby). split.
  - intros t1 e r t2 Ht He.
    destruct (exits_by_fatal_run _ _ _ Hby _ _ _ Hp t1 e r t2 Ht He)
      as (Hal & He1 & Ht2 & Ho & Hprev).
    repeat split; try assumption.
    destruct t1 as [|x t1]; [|exact Hprev].
    destruct Hprev as (msg & F). discriminate.
  - intros ->.
    destruct Hrun as [(clk_id & tp & Hrun) | (tp & tzp & Hrun)].
    + exact (proj1 (wrapper_exits_fatally s replies t) clk_id tp Hrun).
    + exact (proj2 (wrapper_exits_fatally s replies t) tp tzp Hrun).
Qed.

Lemma after_syscall_buffer (r : reply) (s : shim_state) :
  buffer (after_syscall r s) = buffer s.
Proof. apply after_syscall_fields. Qed.

Lemma after_syscall_buffer_locked (r : reply) (s : shim_state) :
  buffer_locked (after_syscall r s) = buffer_locked s.
Proof. apply after_syscall_fields. Qed.

Lemma after_syscall_desched_counter_fd (r : reply) (s : shim_state) :
  desched_counter_fd (after_syscall r s) = desched_counter_fd s.
Proof. apply after_syscall_fields. Qed.

Lemma after_syscall_installed (r : reply) (s : shim_state) :
  is_seccomp_bpf_installed (after_syscall r s) = is_seccomp_bpf_installed s.
Proof. apply after_syscall_fields. Qed.

Lemma after_syscall_atfork (r : reply) (s : shim_state) :
  atfork_child_drop_buffer (after_syscall r s) = atfork_child_drop_buffer s.
Proof. apply after_syscall_fields. Qed.

Lemma returns_only_fatal {A : Type}
    (R : shim_state -> list (entry * reply) -> shim_state -> Prop)
    (msg : string) :
  returns_only R (fatal (A := A) msg).
Proof.
  intros s t a s' Hr. exfalso. exact (returns_fatal_inv _ _ _ _ _ Hr).
Qed.

Ltac frames leaf :=
  repeat first
    [ apply returns_only_fatal
    | apply returns_only_pure; intros; leaf
    | apply returns_only_get; intros; leaf
    | apply returns_only_put_write; intros; leaf
    | apply returns_only_modify; intros; leaf
    | apply returns_only_syscall; [intros; leaf]
    | apply returns_only_bind; [intros; leaf | | intros ? ]
    | match goal with
      | |- returns_only _ (if ?c then _ else _) => destruct c
      end ].

Lemma keeps_setup_nil (s : shim_state) : keeps_setup s [] s.
Proof. unfold keeps_setup. auto. Qed.

Lemma keeps_setup_app (s1 : shim_state) (t1 : list (entry * reply))
    (s2 : shim_state) (t2 : list (entry * reply)) (s3 : shim_state) :
  keeps_setup s1 t1 s2 -> keeps_setup s2 t2 s3 ->
  keeps_setup s1 (t1 ++ t2) s3.
Proof.
  intros (A1 & B1 & C1) (A2 & B2 & C2). unfold keeps_setup.
  repeat split; [congruence | congruence |].
  apply Forall_app; auto.
Qed.

Lemma keeps_setup_syscall (no : Z) (args : list arg) (r : reply)
    (s : shim_state) :
  no <> SYS_prctl ->
  keeps_setup s [(Traced no args, r)] (after_syscall r s).
Proof.
  intros Hno. unfold keeps_setup.
  rewrite after_syscall_installed, after_syscall_atfork.
  repeat split. constructor; [|constructor].
  unfold is_prctl. cbn. apply Z.eqb_neq. assumption.
Qed.

Ltac keeps_setup_leaf :=
  first
    [ apply keeps_setup_nil
    | eapply keeps_setup_app; eassumption
    | apply keeps_setup_syscall; first [assumption | discriminate]
    | unfold keeps_setup; cbn; auto ].

Lemma set_up_buffer_keeps_setup :
  RRCALL_init_syscall_buffer <> SYS_prctl ->
  returns_only keeps_setup set_up_buffer.
Proof.
  intros Hrr.
  unfold set_up_buffer, assert, logmsg, traced_raise, traced_getpid,
    traced_gettid, traced_sigprocmask, traced_write,
    rrcall_init_syscall_buffer, open_desched_event_counter,
    traced_perf_event_open, traced_fcntl.
  cbv zeta. frames keeps_setup_leaf.
Qed.

Lemma open_desched_event_counter_keeps_lock (nr_descheds : Z) :
  returns_only (fun s _ s' => buffer_locked s' = buffer_locked s)
    (open_desched_event_counter nr_descheds).
Proof.
  unfold open_desched_event_counter, traced_perf_event_open, traced_fcntl,
    traced_gettid.
  cbv zeta.
  frames ltac:(first [ reflexivity
                     | apply after_syscall_buffer_locked
                     | etransitivity; eassumption ]).
Qed.

(** A failed [assert] logs and raises [SIGABRT], and returns if the
    kernel lets it. *)
Lemma assert_trace (cond : bool) (text : string) (s s' : shim_state)
    (t : list (entry * reply)) (u : unit) :
  returns_after (assert cond text s) t (u, s') ->
  buffer_locked s' = buffer_locked s /\
  if cond then t = []
  else exists r0 r1 r2,
    t = [ (stderr_write
             (String.append "%s:%d: Assertion "
                (String.append text "failed.")), r0);
          (Traced SYS_getpid [], r1);
          (Traced SYS_kill [AInt (libc_ret (reply_ret r1)); AInt SIGABRT],
           r2) ].
Proof.
  intros Hstep. unfold assert in Hstep. destruct cond.
  - apply returns_pure_inv in Hstep as (-> & _ & ->).
    split; reflexivity.
  - unfold logmsg, traced_write, traced_raise, traced_getpid in Hstep.
    inv_bind Hstep. inv_bind Hstep0. inv_syscall Hstep1.
    apply returns_pure_inv in Hstep0 as (-> & _ & ->).
    inv_bind Hstep. inv_bind Hstep0. inv_syscall Hstep1.
    inv_syscall Hstep0.
    apply returns_pure_inv in Hstep as (-> & _ & ->).
    rewrite !after_syscall_buffer_locked. split; [reflexivity|].
    exists r, r0, r1. reflexivity.
Qed.

(** What [set_up_buffer] does when it returns: after the failed
    assertion if the thread had a ring, and the five entries of the
    counter, it asks for its tid, blocks signals, traps to the tracer
    and restores the signal mask. *)
Lemma set_up_buffer_trace (s s' : shim_state) (t : list (entry * reply)) :
  returns_after (set_up_buffer s) t (tt, s') ->
  exists t0 t5 r6 r7 r8 r9,
    t = t0 ++ t5 ++
        [ (Traced SYS_gettid [], r6);
          (Traced SYS_rt_sigprocmask [ALocal "mask"; ALocal "oldmask"], r7);
          (Traced RRCALL_init_syscall_buffer
             [APtr get_untraced_syscall_entry_point;
              ASockaddr (libc_ret (reply_ret r6));
              AMsg (desched_counter_fd s');
              ACmsgFd (desched_counter_fd s');
              ALocal "args_vec"], r8);
          (Traced SYS_rt_sigprocmask [ALocal "oldmask"; APtr NULL], r9) ] /\
    length t5 = 5%nat /\
    (if buffer s =? NULL then t0 = []
     else exists r0 r1 r2,
       t0 = [ (stderr_write "%s:%d: Assertion !bufferfailed.", r0);
              (Traced SYS_getpid [], r1);
              (Traced SYS_kill [AInt (libc_ret (reply_ret r1)); AInt SIGABRT],
               r2) ]) /\
    buffer s' = to_size_t (libc_ret (reply_ret r8)) /\
    buffer_locked s' = buffer_locked s.
Proof.
  intros Hrun. unfold set_up_buffer in Hrun.
  inv_bind Hrun. apply returns_get_inv in Hstep as (-> & -> & ->).
  inv_bind Hrun. apply assert_trace in Hstep as (Hlock0 & Ht0).
  change (String.append "%s:%d: Assertion "%string
            (String.append "!buffer"%string "failed."%string))
    with "%s:%d: Assertion !bufferfailed."%string in Ht0.
  match type of Ht0 with
  | if _ then ?x = _ else _ => rename x into tassert
  end.
  inv_bind Hrun.
  pose proof (open_desched_event_counter_keeps_lock _ _ _ _ _ Hstep) as Hlock1.
  cbv beta in Hlock1.
  apply open_desched_event_counter_trace in Hstep
    as (r1 & r2 & r3 & r4 & r5 & Hfd & Hpos & Hbuf & ->).
  inv_bind Hrun. apply returns_put_write_inv in Hstep as (-> & ->).
  inv_bind Hrun. unfold traced_gettid in Hstep. inv_syscall Hstep.
  inv_bind Hrun. apply returns_get_inv in Hstep as (-> & -> & ->).
  inv_bind Hrun. unfold traced_sigprocmask in Hstep. inv_syscall Hstep.
  inv_bind Hrun. unfold rrcall_init_syscall_buffer in Hstep.
  inv_bind Hstep. inv_syscall Hstep0.
  apply returns_pure_inv in Hstep as (-> & -> & ->).
  inv_bind Hrun. apply returns_put_write_inv in Hstep as (-> & ->).
  inv_bind Hrun. unfold traced_sigprocmask in Hstep. inv_syscall Hstep.
  apply returns_pure_inv in Hrun as (-> & _ & ->).
  exists tassert. eexists [_; _; _; _; _]. exists r, r0, r6, r7.
  rewrite !after_syscall_desched_counter_fd, !after_syscall_buffer,
    !after_syscall_buffer_locked.
  cbn [do_write buffer buffer_locked desched_counter_fd].
  rewrite !after_syscall_desched_counter_fd, !after_syscall_buffer_locked.
  cbn [do_write buffer buffer_locked desched_counter_fd].
  split; [|split; [|split; [exact Ht0 | split; [reflexivity | congruence]]]].
  - cbn [app]. reflexivity.
  - reflexivity.
Qed.

(** X3: [init] installs the seccomp filter once per process.  If the
    flag is set it makes no [prctl] and leaves the flag and the fork
    handler alone; if the flag is clear, the run starts with the three
    entries of [install_syscall_filter], makes no other [prctl], and
    ends with the flag set and [drop_buffer] registered for forked
    children. *)
Theorem init_installs_filter_once (s s' : shim_state)
    (replies : list reply) (t : list (entry * reply)) :
  RRCALL_init_syscall_buffer <> SYS_prctl ->
  run (init s) replies = (t, Returned (tt, s')) ->
  (is_seccomp_bpf_installed s <> 0 -> keeps_setup s t s') /\
  (is_seccomp_bpf_installed s = 0 ->
   is_seccomp_bpf_installed s' = 1 /\
   atfork_child_drop_buffer s' = true /\
   exists msg r0 r1 r2 rest,
     t = [ (stderr_write msg, r0);
           (Traced SYS_prctl
              [AInt PR_SET_NO_NEW_PRIVS; AInt 1; AInt 0; AInt 0; AInt 0],
            r1);
           (Traced SYS_prctl
              [AInt PR_SET_SECCOMP; AInt SECCOMP_MODE_FILTER;
               AFprog 11 (Bpf.filter get_untraced_syscall_entry_point);
               AInt 0; AInt 0], r2) ] ++ rest /\
     Forall (fun e => is_prctl e = false) rest).
Proof.
  intros Hrr Hrun. apply run_returns in Hrun. unfold init in Hrun.
  inv_bind Hrun. apply returns_get_inv in Hstep as (-> & -> & ->).
  inv_bind Hrun. cbn [app].
  destruct (Z.eqb_spec (is_seccomp_bpf_installed s) 0) as [E|E].
  - split; [intros F; contradiction | intros _].
    inv_bind Hstep.
    repeat match goal with u : unit |- _ => destruct u end.
    apply install_syscall_filter_trace in Hstep0
      as (msg & r0 & r1 & r2 & ->).
    inv_bind Hstep. inversion Hstep0; subst. inversion Hstep; subst.
    apply set_up_buffer_keeps_setup in Hrun as (A1 & B1 & C1);
      [|assumption].
    cbn in A1, B1.
    split; [assumption|]. split; [assumption|].
    exists msg, r0, r1, r2. eexists. split; [|exact C1].
    cbn [app]. reflexivity.
  - split; [intros _ | intros F; contradiction].
    apply returns_pure_inv in Hstep as (-> & _ & ->).
    apply set_up_buffer_keeps_setup in Hrun; assumption.
Qed.

(** X4: a thread without a ring that gets through [set_up_buffer]
    makes nine traced entries: the five of the counter, [gettid],
    [rt_sigprocmask] (the wrapper passes the new and old sets only, not
    [how]), the tracer call with the shim's entry point, the socket
    address named after the tid and the counter's descriptor in both
    message buffers, and [rt_sigprocmask] giving the old set back.  The
    ring is where the tracer call says, and the lock is as it was. *)
Theorem set_up_buffer_maps_ring (s s' : shim_state)
    (replies : list reply) (t : list (entry * reply)) :
  buffer s = NULL ->
  run (set_up_buffer s) replies = (t, Returned (tt, s')) ->
  exists t5 r6 r7 r8 r9,
    length t5 = 5%nat /\
    t = t5 ++
        [ (Traced SYS_gettid [], r6);
          (Traced SYS_rt_sigprocmask [ALocal "mask"; ALocal "oldmask"], r7);
          (Traced RRCALL_init_syscall_buffer
             [APtr get_untraced_syscall_entry_point;
              ASockaddr (libc_ret (reply_ret r6));
              AMsg (desched_counter_fd s');
              ACmsgFd (desched_counter_fd s');
              ALocal "args_vec"], r8);
          (Traced SYS_rt_sigprocmask [ALocal "oldmask"; APtr NULL], r9) ] /\
    buffer s' = to_size_t (libc_ret (reply_ret r8)) /\
    buffer_locked s' = buffer_locked s.
Proof.
  intros Hnull Hrun. apply run_returns in Hrun.
  apply set_up_buffer_trace in Hrun
    as (t0 & t5 & r6 & r7 & r8 & r9 & -> & Hlen & Ht0 & Hbuf & Hlock).
  rewrite Hnull in Ht0. cbn in Ht0. subst t0.
  exists t5, r6, r7, r8, r9. auto.
Qed.

(** X5: the shim's own [assert] does not stop the thread by itself.  On
    a thread that already has a ring, [set_up_buffer] writes the
    assertion message to stderr and sends [SIGABRT] with
    [kill(getpid(), SIGABRT)]; if those return, it goes on to open a
    counter and map another ring. *)
Theorem set_up_buffer_failed_assert (s s' : shim_state)
    (replies : list reply) (t : list (entry * reply)) :
  buffer s <> NULL ->
  run (set_up_buffer s) replies = (t, Returned (tt, s')) ->
  exists r0 r1 r2 t5 r6 r7 r8 r9,
    length t5 = 5%nat /\
    t = [ (stderr_write "%s:%d: Assertion !bufferfailed.", r0);
          (Traced SYS_getpid [], r1);
          (Traced SYS_kill [AInt (libc_ret (reply_ret r1)); AInt SIGABRT],
           r2) ] ++ t5 ++
        [ (Traced SYS_gettid [], r6);
          (Traced SYS_rt_sigprocmask [ALocal "mask"; ALocal "oldmask"], r7);
          (Traced RRCALL_init_syscall_buffer
             [APtr get_untraced_syscall_entry_point;
              ASockaddr (libc_ret (reply_ret r6));
              AMsg (desched_counter_fd s');
              ACmsgFd (desched_counter_fd s');
              ALocal "args_vec"], r8);
          (Traced SYS_rt_sigprocmask [ALocal "oldmask"; APtr NULL], r9) ] /\
    buffer s' = to_size_t (libc_ret (reply_ret r8)).
Proof.
  intros Hbuf Hrun. apply run_returns in Hrun.
  apply set_up_buffer_trace in Hrun
    as (t0 & t5 & r6 & r7 & r8 & r9 & -> & Hlen & Ht0 & Hb & Hlock).
  apply Z.eqb_neq in Hbuf. rewrite Hbuf in Ht0.
  destruct Ht0 as (r0 & r1 & r2 & ->).
  exists r0, r1, r2, t5, r6, r7, r8, r9. auto.
Qed.

(** X6: after [drop_buffer] (the fork handler of the child), the next
    [prep_syscall] maps a ring again for the thread, whatever the lock
    was in the parent: it runs [set_up_buffer] without installing the
    filter a second time, and then takes the fresh lock. *)
Theorem dropped_buffer_is_mapped_again (notify_desched : Z)
    (s s' : shim_state) (replies : list reply) (t : list (entry * reply))
    (p : Z) :
  is_seccomp_bpf_installed s <> 0 ->
  RRCALL_init_syscall_buffer <> SYS_prctl ->
  run ((drop_buffer ;; prep_syscall notify_desched)%shim s) replies =
    (t, Returned (p, s')) ->
  exists t5 r6 r7 r8 r9,
    length t5 = 5%nat /\
    t = t5 ++
        [ (Traced SYS_gettid [], r6);
          (Traced SYS_rt_sigprocmask [ALocal "mask"; ALocal "oldmask"], r7);
          (Traced RRCALL_init_syscall_buffer
             [APtr get_untraced_syscall_entry_point;
              ASockaddr (libc_ret (reply_ret r6));
              AMsg (desched_counter_fd s');
              ACmsgFd (desched_counter_fd s');
              ALocal "args_vec"], r8);
          (Traced SYS_rt_sigprocmask [ALocal "oldmask"; APtr NULL], r9) ] /\
    Forall (fun e => is_prctl e = false) t /\
    buffer s' = to_size_t (libc_ret (reply_ret r8)) /\
    buffer_locked s' = 1 /\
    p = reserved s'.
Proof.
  intros Hinst Hrr Hrun. apply run_returns in Hrun.
  inv_bind Hrun. unfold drop_buffer in Hstep.
  inv_bind Hstep. apply returns_put_write_inv in Hstep0 as (-> & ->).
  apply returns_put_write_inv in Hstep as (-> & ->).
  unfold prep_syscall in Hrun.
  inv_bind Hrun. apply returns_get_inv in Hstep as (-> & -> & ->).
  cbn [do_write buffer Z.eqb NULL] in Hrun.
  inv_bind Hrun. unfold init in Hstep.
  inv_bind Hstep. apply returns_get_inv in Hstep0 as (-> & -> & ->).
  cbn [do_write is_seccomp_bpf_installed] in Hstep.
  apply Z.eqb_neq in Hinst. rewrite Hinst in Hstep.
  inv_bind Hstep. apply returns_pure_inv in Hstep0 as (-> & _ & ->).
  repeat match goal with u : unit |- _ => destruct u end.
  pose proof (set_up_buffer_keeps_setup Hrr _ _ _ _ Hstep) as (_ & _ & Hno).
  apply set_up_buffer_trace in Hstep
    as (ta & t5 & r6 & r7 & r8 & r9 & -> & Hlen & Ht0 & Hbuf & Hlock).
  cbn in Ht0. subst ta. cbn [do_write buffer_locked] in Hlock.
  inv_bind Hrun. apply returns_get_inv in Hstep as (-> & -> & ->).
  rewrite Hlock in Hrun. cbn [Z.eqb negb] in Hrun.
  inv_bind Hrun. apply returns_put_write_inv in Hstep as (-> & ->).
  inv_bind Hrun. apply returns_get_inv in Hstep as (-> & -> & ->).
  apply returns_pure_inv in Hrun as (-> & -> & ->).
  exists t5, r6, r7, r8, r9. cbn [app] in *. rewrite !app_nil_r.
  cbn [do_write desched_counter_fd buffer buffer_locked].
  repeat split; try assumption.
Qed.

End Setup.

Section SetupAtSamples.
Import Linux Preload.

Lemma install_syscall_filter_outcomes_witness :
  (exists t s',
     run (install_syscall_filter fresh_thread)
       [plain_reply 0; plain_reply 0; plain_reply 0] =
       (t, Returned (tt, s')) /\
     length t = 3%nat) /\
  (exists t,
     run (install_syscall_filter fresh_thread)
       [plain_reply 0; plain_reply (-1); plain_reply 0; plain_reply 0] =
       (t, Exited) /\
     length t = 4%nat).
Proof.
  split.
  - assert (E : exists t s',
              run (install_syscall_filter fresh_thread)
                [plain_reply 0; plain_reply 0; plain_reply 0] =
                (t, Returned (tt, s'))) by (vm_compute; eauto).
    destruct E as (t & s' & E). exists t, s'. split; [exact E|].
    destruct (proj1 (install_syscall_filter_outcomes (H := i386_header)
                       fresh_thread _ t) s' E)
      as (msg & r0 & r1 & r2 & -> & _). reflexivity.
  - assert (E : exists t,
              run (install_syscall_filter fresh_thread)
                [plain_reply 0; plain_reply (-1); plain_reply 0;
                 plain_reply 0] = (t, Exited)) by (vm_compute; eauto).
    destruct E as (t & E). exists t. split; [exact E|].
    destruct (proj2 (install_syscall_filter_outcomes (H := i386_header)
                       fresh_thread _ t) E)
      as (msg & msg' & r0 & r1 & r & r' & [(_ & ->) | (r2 & _ & _ & ->)]).
    + reflexivity.
    + vm_compute in E. discriminate.
Defined.

Lemma wrapper_exit_group_only_by_fatal_witness :
  RRCALL_init_syscall_buffer (SyscallBufferH := i386_header) <>
    SYS_exit_group /\
  exists t,
    run (clock_gettime 1 3221221000 fresh_thread)
      [plain_reply (-1); plain_reply 0; plain_reply 0] = (t, Exited) /\
    length t = 3%nat /\
    buffer fresh_thread = NULL /\ ends_fatal t.
Proof.
  split; [discriminate|].
  assert (E : exists t,
            run (clock_gettime 1 3221221000 fresh_thread)
              [plain_reply (-1); plain_reply 0; plain_reply 0] =
              (t, Exited)) by (vm_compute; eauto).
  destruct E as (t & E). exists t. split; [exact E|].
  split; [vm_compute in E; inversion E; reflexivity|].
  exact (proj2 (wrapper_exit_group_only_by_fatal (H := i386_header)
                  fresh_thread _ t Exited ltac:(discriminate)
                  (or_introl (ex_intro _ 1 (ex_intro _ 3221221000 E))))
           eq_refl).
Defined.

Lemma init_installs_filter_once_witness :
  RRCALL_init_syscall_buffer (SyscallBufferH := i386_header) <> SYS_prctl /\
  exists t s',
    run (init fresh_thread) setup_replies = (t, Returned (tt, s')) /\
    is_seccomp_bpf_installed fresh_thread <> 0 /\
    keeps_setup fresh_thread t s'.
Proof.
  split; [discriminate|].
  assert (E : exists t s',
            run (init fresh_thread) setup_replies =
              (t, Returned (tt, s'))) by (vm_compute; eauto).
  destruct E as (t & s' & E). exists t, s'. split; [exact E|].
  assert (Hi : is_seccomp_bpf_installed fresh_thread <> 0) by discriminate.
  split; [exact Hi|].
  exact (proj1 (init_installs_filter_once (H := i386_header)
                  fresh_thread s' setup_replies t
                  ltac:(discriminate) E) Hi).
Defined.

Lemma set_up_buffer_maps_ring_witness :
  buffer fresh_thread = NULL /\
  exists t s',
    run (set_up_buffer fresh_thread) setup_replies =
      (t, Returned (tt, s')) /\
    length t = 9%nat /\ buffer s' = 1879048192.
Proof.
  split; [reflexivity|].
  assert (E : exists t s',
            run (set_up_buffer fresh_thread) setup_replies =
              (t, Returned (tt, s'))) by (vm_compute; eauto).
  destruct E as (t & s' & E). exists t, s'. split; [exact E|].
  destruct (set_up_buffer_maps_ring (H := i386_header)
              fresh_thread s' setup_replies t eq_refl E)
    as (t5 & r6 & r7 & r8 & r9 & Hlen & -> & Hbuf & _).
  split.
  - rewrite length_app, Hlen. reflexivity.
  - vm_compute in E. inversion E; subst. reflexivity.
Defined.

Lemma set_up_buffer_failed_assert_witness :
  buffer (sample_state 0 0 16) <> NULL /\
  exists t s',
    run (set_up_buffer (sample_state 0 0 16))
      (plain_reply 0 :: plain_reply 1234 :: plain_reply 0 :: setup_replies) =
      (t, Returned (tt, s')) /\
    length t = 12%nat.
Proof.
  split; [discriminate|].
  assert (E : exists t s',
            run (set_up_buffer (sample_state 0 0 16))
              (plain_reply 0 :: plain_reply 1234 :: plain_reply 0 ::
               setup_replies) =
              (t, Returned (tt, s'))) by (vm_compute; eauto).
  destruct E as (t & s' & E). exists t, s'. split; [exact E|].
  destruct (set_up_buffer_failed_assert (H := i386_header)
              (sample_state 0 0 16) s' _ t ltac:(discriminate) E)
    as (r0 & r1 & r2 & t5 & r6 & r7 & r8 & r9 & Hlen & -> & _).
  cbn [app length]. rewrite length_app, Hlen. reflexivity.
Defined.

Lemma dropped_buffer_is_mapped_again_witness :
  is_seccomp_bpf_installed (sample_state 1 0 16) <> 0 /\
  RRCALL_init_syscall_buffer (SyscallBufferH := i386_header) <> SYS_prctl /\
  exists t p s',
    run ((drop_buffer ;; prep_syscall NO_DESCHED)%shim (sample_state 1 0 16))
      setup_replies = (t, Returned (p, s')) /\
    buffer_locked s' = 1 /\ p = reserved s'.
Proof.
  split; [discriminate|]. split; [discriminate|].
  assert (E : exists t p s',
            run ((drop_buffer ;; prep_syscall NO_DESCHED)%shim
                   (sample_state 1 0 16)) setup_replies =
              (t, Returned (p, s'))) by (vm_compute; eauto).
  destruct E as (t & p & s' & E). exists t, p, s'. split; [exact E|].
  destruct (dropped_buffer_is_mapped_again (H := i386_header) NO_DESCHED
              (sample_state 1 0 16) s' setup_replies t p
              ltac:(discriminate) ltac:(discriminate) E)
    as (t5 & r6 & r7 & r8 & r9 & _ & _ & _ & _ & Hl & Hp).
  split; assumption.
Defined.

End SetupAtSamples.

(** * Further properties of the wrappers *)

Section Wrappers.
Import Linux Preload.
Context `{H : SyscallBufferH}.

Lemma clock_gettime_fits (clk_id tp : Z) (s : shim_state) :
  header_ok -> ring_ok s -> buffer_locked s = 0 ->
  ~ ring_full s (clock_gettime_record_end (reserved s) tp) ->
  clock_gettime clk_id tp s =
  (ret <- untraced_syscall2 SYS_clock_gettime (AInt clk_id)
            (APtr (if negb (tp =? NULL) then reserved s else NULL)) ;;
   (if negb (tp =? NULL)
    then put_write (W_memcpy tp (reserved s) sizeof_timespec)
    else pure tt) ;;
   commit_syscall SYS_clock_gettime
     (clock_gettime_record_end (reserved s) tp) ret NO_DESCHED)%shim
    (locked s).
Proof.
  intros Hh Hr Hl Hfits.
  assert (Hb : buffer s <> NULL) by (destruct Hr; unfold NULL; lia).
  pose proof (clock_gettime_record_end_bounds s tp Hh Hr) as Hbd.
  unfold clock_gettime, bind at 1.
  rewrite prep_syscall_takes_lock by assumption.
  cbn [prog_bind]. unfold bind at 1.
  fold (clock_gettime_record_end (reserved s) tp).
  rewrite can_buffer_syscall_fits by assumption.
  cbn [prog_bind Z.eqb]. destruct (negb (tp =? NULL)); reflexivity.
Qed.

Lemma gettimeofday_fits (tp tzp : Z) (s : shim_state) :
  header_ok -> ring_ok s -> buffer_locked s = 0 ->
  ~ ring_full s (gettimeofday_record_end (reserved s) tp tzp) ->
  gettimeofday tp tzp s =
  (ret <- untraced_syscall2 SYS_gettimeofday
            (APtr (if negb (tp =? NULL) then reserved s else NULL))
            (APtr (if negb (tzp =? NULL)
                   then (if negb (tp =? NULL)
                         then ptr_add (reserved s) sizeof_timeval
                         else reserved s)
                   else NULL)) ;;
   (if negb (tp =? NULL)
    then put_write (W_memcpy tp (reserved s) sizeof_timeval)
    else pure tt) ;;
   (if negb (tzp =? NULL)
    then put_write (W_memcpy tzp
                      (if negb (tp =? NULL)
                       then ptr_add (reserved s) sizeof_timeval
                       else reserved s) sizeof_timezone)
    else pure tt) ;;
   commit_syscall SYS_gettimeofday
     (gettimeofday_record_end (reserved s) tp tzp) ret NO_DESCHED)%shim
    (locked s).
Proof.
  intros Hh Hr Hl Hfits.
  assert (Hb : buffer s <> NULL) by (destruct Hr; unfold NULL; lia).
  pose proof (gettimeofday_record_end_bounds s tp tzp Hh Hr) as Hbd.
  unfold gettimeofday, bind at 1.
  rewrite prep_syscall_takes_lock by assumption.
  cbn [prog_bind]. unfold bind at 1.
  fold (gettimeofday_record_end (reserved s) tp tzp).
  rewrite can_buffer_syscall_fits by assumption.
  cbn [prog_bind Z.eqb].
  destruct (negb (tp =? NULL)), (negb (tzp =? NULL)); reflexivity.
Qed.

(** [commit_syscall] always returns, with the lock released and the
    tracer's flag cleared; the record counts only if the flag was
    clear. *)
Lemma commit_syscall_done (syscallno record_end ret dd : Z)
    (s : shim_state) :
  exists s',
    commit_syscall syscallno record_end ret dd s =
      Done (if (0 >? ret) && (ret >=? - EHWPOISON) then -1 else ret, s') /\
    buffer s' = buffer s /\
    buffer_locked s' = 0 /\
    load s' (buffer s) hdr_abort_commit = 0 /\
    load s' (buffer s) hdr_num_rec_bytes =
      (if load s (buffer s) hdr_abort_commit =? 0
       then load s (buffer s) hdr_num_rec_bytes +
            stored_record_size
              (to_size_t (to_int (record_end - buffer_last s)))
       else load s (buffer s) hdr_num_rec_bytes) /\
    (forall w, In w (writes s) -> In w (writes s')).
Proof.
  destruct (Z.eqb_spec (load s (buffer s) hdr_abort_commit) 0) as [Hab|Hab].
  - rewrite commit_syscall_committed by exact Hab.
    rewrite update_errno_ret_eq.
    assert (Hc : let s1 := committed syscallno record_end ret dd s in
              buffer s1 = buffer s /\ buffer_locked s1 = 0 /\
              load s1 (buffer s) hdr_abort_commit = 0 /\
              load s1 (buffer s) hdr_num_rec_bytes =
                load s (buffer s) hdr_num_rec_bytes +
                stored_record_size
                  (to_size_t (to_int (record_end - buffer_last s))) /\
              (forall w, In w (writes s) -> In w (writes s1))).
    { cbv zeta. unfold committed, load, buffer_hdr. cbn.
      rewrite lookup_insert_eq. rewrite !lookup_insert_ne by congruence.
      repeat split; try reflexivity.
      - exact Hab.
      - intros w Hw. rewrite !in_app_iff. tauto. }
    cbv zeta in Hc. destruct Hc as (C1 & C2 & C3 & C4 & C5).
    destruct ((0 >? ret) && (ret >=? - EHWPOISON)); eexists;
      (split; [reflexivity|]); unfold load in *; cbn;
      repeat split; try assumption.
    intros w Hw. rewrite in_app_iff. left. apply C5. assumption.
  - rewrite commit_syscall_aborted by exact Hab.
    rewrite update_errno_ret_eq.
    assert (Hc : buffer (aborted s) = buffer s /\
              buffer_locked (aborted s) = 0 /\
              load (aborted s) (buffer s) hdr_abort_commit = 0 /\
              load (aborted s) (buffer s) hdr_num_rec_bytes =
                load s (buffer s) hdr_num_rec_bytes /\
              (forall w, In w (writes s) -> In w (writes (aborted s)))).
    { unfold aborted, load, buffer_hdr. cbn.
      rewrite lookup_insert_eq. rewrite !lookup_insert_ne by congruence.
      repeat split; try reflexivity.
      intros w Hw. rewrite !in_app_iff. tauto. }
    destruct Hc as (C1 & C2 & C3 & C4 & C5).
    destruct ((0 >? ret) && (ret >=? - EHWPOISON)); eexists;
      (split; [reflexivity|]); unfold load in *; cbn;
      repeat split; try assumption.
    intros w Hw. rewrite in_app_iff. left. apply C5. assumption.
Qed.

(** X7: the buffered path of the two wrappers.  With the lock free and
    room in the ring, a call is one untraced kernel entry whose output
    pointers point into the ring right behind the record header (a
    NULL argument is passed on as NULL); the result goes through
    [update_errno_ret], the lock is free again and the tracer's flag
    clear, and the ring grows by the stored record unless the tracer
    set [abort_commit] while the thread was in the kernel. *)
Theorem buffered_call_commits (s : shim_state) (r : reply)
    (rest : list reply) :
  header_ok -> ring_ok s -> buffer_locked s = 0 ->
  let st := after_untraced r s in
  (forall clk_id tp,
     let record_end := clock_gettime_record_end (reserved s) tp in
     ~ ring_full s record_end ->
     exists s',
       run (clock_gettime clk_id tp s) (r :: rest) =
         ([(Untraced SYS_clock_gettime
              [AInt clk_id;
               APtr (if negb (tp =? NULL) then reserved s else NULL);
               AInt 0; AInt 0; AInt 0], r)],
          Returned (if (0 >? reply_ret r) && (reply_ret r >=? - EHWPOISON)
                    then -1 else reply_ret r, s')) /\
       buffer_locked s' = 0 /\
       load s' (buffer s) hdr_abort_commit = 0 /\
       load s' (buffer s) hdr_num_rec_bytes =
         (if load st (buffer s) hdr_abort_commit =? 0
          then load st (buffer s) hdr_num_rec_bytes +
               stored_record_size
                 (to_size_t (to_int (record_end - buffer_last st)))
          else load st (buffer s) hdr_num_rec_bytes) /\
       (tp <> NULL ->
        In (W_memcpy tp (reserved s) sizeof_timespec) (writes s'))) /\
  (forall tp tzp,
     let record_end := gettimeofday_record_end (reserved s) tp tzp in
     ~ ring_full s record_end ->
     exists s',
       run (gettimeofday tp tzp s) (r :: rest) =
         ([(Untraced SYS_gettimeofday
              [APtr (if negb (tp =? NULL) then reserved s else NULL);
               APtr (if negb (tzp =? NULL)
                     then (if negb (tp =? NULL)
                           then ptr_add (reserved s) sizeof_timeval
                           else reserved s)
                     else NULL);
               AInt 0; AInt 0; AInt 0], r)],
          Returned (if (0 >? reply_ret r) && (reply_ret r >=? - EHWPOISON)
                    then -1 else reply_ret r, s')) /\
       buffer_locked s' = 0 /\
       load s' (buffer s) hdr_abort_commit = 0 /\
       load s' (buffer s) hdr_num_rec_bytes =
         (if load st (buffer s) hdr_abort_commit =? 0
          then load st (buffer s) hdr_num_rec_bytes +
               stored_record_size
                 (to_size_t (to_int (record_end - buffer_last st)))
          else load st (buffer s) hdr_num_rec_bytes) /\
       (tp <> NULL ->
        In (W_memcpy tp (reserved s) sizeof_timeval) (writes s')) /\
       (tzp <> NULL ->
        In (W_memcpy tzp
              (if negb (tp =? NULL)
               then ptr_add (reserved s) sizeof_timeval else reserved s)
              sizeof_timezone) (writes s'))).
Proof.
  intros Hh Hr Hl st. split.
  - intros clk_id tp record_end Hfits.
    rewrite clock_gettime_fits by assumption.
    fold record_end.
    unfold untraced_syscall2, untraced_syscall3, untraced_syscall, bind,
      enter.
    cbn [prog_bind run].
    destruct (Z.eqb_spec tp NULL) as [Etp|Etp]; cbn [negb pure put_write
      prog_bind].
    + destruct (commit_syscall_done SYS_clock_gettime record_end
                  (reply_ret r) NO_DESCHED
                  (with_mem (reply_mem r (mem (locked s))) (locked s)))
        as (s' & E & _ & C2 & C3 & C4 & C5).
      rewrite E. cbn [run]. exists s'.
      split; [reflexivity|]. split; [exact C2|]. split; [exact C3|].
      split; [exact C4|]. intros F; contradiction.
    + destruct (commit_syscall_done SYS_clock_gettime record_end
                  (reply_ret r) NO_DESCHED
                  (do_write (W_memcpy tp (reserved s) sizeof_timespec)
                     (with_mem (reply_mem r (mem (locked s))) (locked s))))
        as (s' & E & _ & C2 & C3 & C4 & C5).
      rewrite E. cbn [run]. exists s'.
      split; [reflexivity|]. split; [exact C2|]. split; [exact C3|].
      split; [exact C4|]. intros _. apply C5. cbn.
      rewrite in_app_iff. right. left. reflexivity.
  - intros tp tzp record_end Hfits.
    rewrite gettimeofday_fits by assumption.
    fold record_end.
    unfold untraced_syscall2, untraced_syscall3, untraced_syscall, bind,
      enter.
    cbn [prog_bind run].
    destruct (Z.eqb_spec tp NULL) as [Etp|Etp];
      destruct (Z.eqb_spec tzp NULL) as [Etz|Etz];
      cbn [negb pure put_write prog_bind];
      match goal with
      | |- context [commit_syscall ?a ?b ?c ?d ?x] =>
          destruct (commit_syscall_done a b c d x)
            as (s' & E & _ & C2 & C3 & C4 & C5)
      end;
      rewrite E; cbn [run]; exists s';
      (split; [reflexivity|]); (split; [exact C2|]); (split; [exact C3|]);
      (split; [exact C4|]);
      (split; intros F; try contradiction; apply C5; cbn;
       rewrite !in_app_iff; cbn; intuition auto).
Qed.

Lemma same_ring (s s2 : shim_state) :
  buffer s2 = buffer s ->
  load s2 (buffer s) hdr_num_rec_bytes = load s (buffer s) hdr_num_rec_bytes ->
  buffer_last s2 = buffer_last s /\ reserved s2 = reserved s /\
  (forall record_end, ring_full s2 record_end <-> ring_full s record_end) /\
  (ring_ok s -> ring_ok s2).
Proof.
  intros Hb Hn.
  assert (Hl : buffer_last s2 = buffer_last s).
  { unfold buffer_last, buffer_hdr. rewrite Hb, Hn. reflexivity. }
  split; [exact Hl|]. split; [unfold reserved; rewrite Hl; reflexivity|].
  split.
  - intros record_end. unfold ring_full, stored_end, buffer_end.
    rewrite Hl, Hb. reflexivity.
  - unfold ring_ok, buffer_hdr. rewrite Hb, Hn. auto.
Qed.

(** X8: a call of a wrapper on a sound ring returns after exactly one
    kernel entry, with the lock as the caller left it (so a re-entered
    wrapper does not release the lock of the outer one) and, as long as
    the tracer leaves the record count alone, with the ring sound
    again: there is room for the next record header. *)
Theorem wrapper_keeps_ring (s : shim_state) (r : reply)
    (rest : list reply) :
  header_ok -> header_small -> ring_ok s ->
  load (after_untraced r s) (buffer s) hdr_num_rec_bytes =
    load s (buffer s) hdr_num_rec_bytes ->
  (forall clk_id tp,
     exists e v s',
       run (clock_gettime clk_id tp s) (r :: rest) =
         ([(e, r)], Returned (v, s')) /\
       buffer s' = buffer s /\
       (buffer_locked s = 0 -> buffer_locked s' = 0) /\
       (buffer_locked s <> 0 -> buffer_locked s' = buffer_locked s) /\
       ring_ok s') /\
  (forall tp tzp,
     exists e v s',
       run (gettimeofday tp tzp s) (r :: rest) =
         ([(e, r)], Returned (v, s')) /\
       buffer s' = buffer s /\
       (buffer_locked s = 0 -> buffer_locked s' = 0) /\
       (buffer_locked s <> 0 -> buffer_locked s' = buffer_locked s) /\
       ring_ok s').
Proof.
  intros Hh Hs Hr Hkeep.
  assert (Htraced : forall no args s0,
            buffer s0 = buffer s -> mem s0 = mem s ->
            exists e v s',
              run (syscall no args s0) (r :: rest) =
                ([(e, r)], Returned (v, s')) /\
              buffer s' = buffer s /\
              buffer_locked s' = buffer_locked s0 /\ ring_ok s').
  { intros no args s0 Hb Hm.
    unfold syscall, bind, enter. cbn [prog_bind run].
    destruct (libc_error (reply_ret r)); cbn [prog_bind run put_write pure];
      eexists _, _, _; (split; [reflexivity|]);
      match goal with
      | |- buffer ?x = _ /\ _ =>
          assert (Hbx : buffer x = buffer s) by exact Hb;
          assert (Hnx : load x (buffer s) hdr_num_rec_bytes =
                        load s (buffer s) hdr_num_rec_bytes)
            by (unfold load, after_untraced in *; cbn in *; rewrite Hm;
                exact Hkeep);
          destruct (same_ring s x Hbx Hnx) as (_ & _ & _ & Hok)
      end;
      (split; [exact Hb|]); (split; [reflexivity|]); exact (Hok Hr). }
  assert (Hcommit : forall no record_end s2,
            buffer s2 = buffer s ->
            load s2 (buffer s) hdr_num_rec_bytes =
              load s (buffer s) hdr_num_rec_bytes ->
            reserved s <= record_end <= reserved s + 16 ->
            ~ ring_full s record_end ->
            exists v s',
              commit_syscall no record_end (reply_ret r) NO_DESCHED s2 =
                Done (v, s') /\
              buffer s' = buffer s /\ buffer_locked s' = 0 /\ ring_ok s').
  { intros no record_end s2 Hb Hn Hbd Hfits.
    destruct (same_ring s s2 Hb Hn) as (Hl & Hres & Hfull & Hok).
    destruct (commit_syscall_done no record_end (reply_ret r) NO_DESCHED s2)
      as (s' & E & C1 & C2 & _).
    eexists _, s'. split; [exact E|]. split; [congruence|].
    split; [exact C2|].
    eapply (commit_syscall_keeps_ring_ok s2 no record_end (reply_ret r)
              NO_DESCHED); [exact Hh | exact Hs | exact (Hok Hr) | | |].
    - rewrite Hres. exact Hbd.
    - rewrite Hfull. exact Hfits.
    - exact E. }
  split.
  - intros clk_id tp.
    destruct (Z.eq_dec (buffer_locked s) 0) as [Hl|Hl].
    + destruct (Z_gt_dec
                  (stored_end s (clock_gettime_record_end (reserved s) tp))
                  (ptr_add (buffer_end s) (- sizeof_syscallbuf_record)))
        as [Hfull|Hfits].
      * rewrite clock_gettime_full by assumption.
        destruct (Htraced SYS_clock_gettime [AInt clk_id; APtr tp]
                    (unlocked s) eq_refl eq_refl)
          as (e & v & s' & E & C1 & C2 & C3).
        cbn in C2.
        exists e, v, s'.
        split; [exact E|]. split; [exact C1|].
        split; [intros; congruence|]. split; [intros; congruence | exact C3].
      * rewrite clock_gettime_fits by assumption.
        unfold untraced_syscall2, untraced_syscall3, untraced_syscall, bind,
          enter.
        cbn [prog_bind run].
        pose proof (clock_gettime_record_end_bounds s tp Hh Hr) as Hbd.
        destruct (negb (tp =? NULL)); cbn [pure put_write prog_bind];
          match goal with
          | |- context [commit_syscall ?a ?b ?c ?d ?x] =>
              destruct (Hcommit a b x eq_refl Hkeep Hbd Hfits)
                as (v & s' & E & C1 & C2 & C3)
          end;
          rewrite E; cbn [run]; eexists _, v, s';
          (split; [reflexivity|]); (split; [exact C1|]);
          (split; [intros; congruence|]);
          (split; [intros; congruence | exact C3]).
    + rewrite clock_gettime_reentry by assumption.
      destruct (Htraced SYS_clock_gettime [AInt clk_id; APtr tp] s
                  eq_refl eq_refl)
        as (e & v & s' & E & C1 & C2 & C3).
      exists e, v, s'.
        split; [exact E|]. split; [exact C1|].
        split; [intros; congruence|]. split; [intros; congruence | exact C3].
  - intros tp tzp.
    destruct (Z.eq_dec (buffer_locked s) 0) as [Hl|Hl].
    + destruct (Z_gt_dec
                  (stored_end s (gettimeofday_record_end (reserved s) tp tzp))
                  (ptr_add (buffer_end s) (- sizeof_syscallbuf_record)))
        as [Hfull|Hfits].
      * rewrite gettimeofday_full by assumption.
        destruct (Htraced SYS_gettimeofday [APtr tp; APtr tzp]
                    (unlocked s) eq_refl eq_refl)
          as (e & v & s' & E & C1 & C2 & C3).
        cbn in C2.
        exists e, v, s'.
        split; [exact E|]. split; [exact C1|].
        split; [intros; congruence|]. split; [intros; congruence | exact C3].
      * rewrite gettimeofday_fits by assumption.
        unfold untraced_syscall2, untraced_syscall3, untraced_syscall, bind,
          enter.
        cbn [prog_bind run].
        pose proof (gettimeofday_record_end_bounds s tp tzp Hh Hr) as Hbd.
        destruct (negb (tp =? NULL)), (negb (tzp =? NULL));
          cbn [pure put_write prog_bind];
          match goal with
          | |- context [commit_syscall ?a ?b ?c ?d ?x] =>
              destruct (Hcommit a b x eq_refl Hkeep Hbd Hfits)
                as (v & s' & E & C1 & C2 & C3)
          end;
          rewrite E; cbn [run]; eexists _, v, s';
          (split; [reflexivity|]); (split; [exact C1|]);
          (split; [intros; congruence|]);
          (split; [intros; congruence | exact C3]).
    + rewrite gettimeofday_reentry by assumption.
      destruct (Htraced SYS_gettimeofday [APtr tp; APtr tzp] s
                  eq_refl eq_refl)
        as (e & v & s' & E & C1 & C2 & C3).
      exists e, v, s'.
        split; [exact E|]. split; [exact C1|].
        split; [intros; congruence|]. split; [intros; congruence | exact C3].
Qed.

(** X9: the records lie back to back.  Once a record is committed,
    the next one starts ([buffer_last]) exactly where
    [can_buffer_syscall] had computed that the stored record would
    end. *)
Theorem next_record_starts_at_stored_end
    (syscallno record_end ret dd : Z) (s s' : shim_state) (v : Z) :
  header_ok -> header_small -> ring_ok s ->
  reserved s <= record_end <= reserved s + 16 ->
  ~ ring_full s record_end ->
  load s (buffer_hdr s) hdr_abort_commit = 0 ->
  commit_syscall syscallno record_end ret dd s = Done (v, s') ->
  buffer_last s' = stored_end s record_end.
Proof.
  intros Hh Hs Hr Hx Hfits Hab Hc. pose proof word_pos as Hw.
  rewrite reserved_eq in Hx by assumption.
  destruct (commit_syscall_done syscallno record_end ret dd s)
    as (s1 & E & C1 & _ & _ & C4 & _).
  rewrite E in Hc. inversion Hc; subst s1. clear Hc E.
  unfold buffer_hdr in Hab. rewrite Hab in C4. cbn [Z.eqb] in C4.
  pose proof (buffer_last_eq s Hh Hr) as Hbl.
  pose proof Hh as (Hh0 & Hrec & _). pose proof Hs as (Hsz & _).
  pose proof Hr as (Hb0 & He & Hn & Hfit).
  assert (Hlen : to_size_t (to_int (record_end - buffer_last s)) =
                 record_end - buffer_last s).
  { unfold to_size_t, to_int, word.
    rewrite (Z.mod_small (_ + 2 ^ 31)) by lia.
    rewrite Z.mod_small by lia. lia. }
  assert (Hlen' : to_size_t (record_end - buffer_last s) =
                  record_end - buffer_last s).
  { unfold to_size_t, word. rewrite Z.mod_small by lia. reflexivity. }
  unfold stored_end. rewrite Hlen'.
  unfold buffer_last at 1. unfold buffer_hdr. rewrite C1, C4, Hlen.
  generalize (stored_record_size (record_end - buffer_last s)).
  intros n. rewrite Hbl. unfold ptr_add, buffer_hdr.
  rewrite Zplus_mod_idemp_l. f_equal. lia.
Qed.

(** X10: the two paths of a wrapper do not report errors alike.  For
    the same raw kernel result the traced path (libc's [syscall]) and
    the buffered path ([update_errno_ret]) return the same value and
    leave the same [errno], except for the results from -4095 to
    -EHWPOISON - 1: these are errors for the first and plain values for
    the second. *)
Theorem errno_conventions_differ (no : Z) (args : list arg)
    (s : shim_state) (r : reply) (rest : list reply) :
  exists v1 s1 v2 s2,
    run (syscall no args s) (r :: rest) =
      ([(Traced no args, r)], Returned (v1, s1)) /\
    update_errno_ret (reply_ret r) (after_untraced r s) = Done (v2, s2) /\
    (- EHWPOISON <= reply_ret r \/ reply_ret r < -4095 ->
     v1 = v2 /\ errno s1 = errno s2) /\
    (-4095 <= reply_ret r < - EHWPOISON ->
     v1 = -1 /\ errno s1 = - reply_ret r /\
     v2 = reply_ret r /\ errno s2 = errno s).
Proof.
  rewrite update_errno_ret_eq.
  unfold syscall, bind, enter, libc_error, after_untraced, EHWPOISON.
  cbn [prog_bind run].
  destruct (Z.leb_spec (-4095) (reply_ret r)) as [L1|L1];
    destruct (Z.ltb_spec (reply_ret r) 0) as [L2|L2];
    destruct (Z.gtb_spec 0 (reply_ret r)) as [L3|L3];
    destruct (Z.geb_spec (reply_ret r) (Z.opp 133)) as [L4|L4];
    try lia; cbn [andb prog_bind run put_write pure];
    eexists _, _, _, _; (split; [reflexivity|]); (split; [reflexivity|]);
    cbn; (split; [intros; try lia; auto | intros; try lia; auto]).
Qed.

(** X11: arming and disarming the desched counter is one untraced
    [ioctl] on the counter's descriptor.  The call returns only if the
    kernel answered 0; on any other answer the process ends through
    [fatal], with the same message for both (the one of
    [arm_desched_event]). *)
Theorem desched_event_ioctls (s : shim_state) (replies : list reply)
    (t : list (entry * reply)) :
  let enable :=
    Untraced SYS_ioctl
      [AInt (desched_counter_fd s); AInt PERF_EVENT_IOC_ENABLE; AInt 0;
       AInt 0; AInt 0] in
  let disable :=
    Untraced SYS_ioctl
      [AInt (desched_counter_fd s); AInt PERF_EVENT_IOC_DISABLE; AInt 0;
       AInt 0; AInt 0] in
  let msg :=
    String.append "[FATAL] (%s:%d: errno: %s) "
      (String.append "Failed to ENABLE counter %d" newline) in
  (forall s',
     run (arm_desched_event s) replies = (t, Returned (tt, s')) ->
     exists r, t = [(enable, r)] /\ reply_ret r = 0 /\
       s' = after_untraced r s) /\
  (run (arm_desched_event s) replies = (t, Exited) ->
   exists r r1 r2,
     t = [(enable, r); (stderr_write msg, r1); (exit_group_1, r2)] /\
     reply_ret r <> 0) /\
  (forall s',
     run (disarm_desched_event s) replies = (t, Returned (tt, s')) ->
     exists r, t = [(disable, r)] /\ reply_ret r = 0 /\
       s' = after_untraced r s) /\
  (run (disarm_desched_event s) replies = (t, Exited) ->
   exists r r1 r2,
     t = [(disable, r); (stderr_write msg, r1); (exit_group_1, r2)] /\
     reply_ret r <> 0).
Proof.
  cbv zeta.
  unfold arm_desched_event, disarm_desched_event, untraced_syscall3,
    untraced_syscall, bind, get, enter, fatal, logmsg, traced_write,
    traced__exit, syscall, bind, enter.
  cbn [prog_bind].
  repeat split.
  - intros s' Hrun. destruct replies as [|r rest]; [discriminate|].
    cbn [run] in Hrun.
    destruct (Z.eqb_spec (reply_ret r) 0) as [E|E];
      cbn [negb prog_bind run pure] in Hrun.
    + inversion Hrun; subst. exists r. auto.
    + destruct rest as [|r1 rest]; [discriminate|].
      cbn [run] in Hrun. destruct (libc_error (reply_ret r1));
        cbn [prog_bind run put_write pure] in Hrun;
        destruct rest; cbn in Hrun; discriminate.
  - intros Hrun. destruct replies as [|r rest]; [discriminate|].
    cbn [run] in Hrun.
    destruct (Z.eqb_spec (reply_ret r) 0) as [E|E];
      cbn [negb prog_bind run pure] in Hrun; [discriminate|].
    destruct rest as [|r1 rest]; [discriminate|].
    cbn [run] in Hrun. destruct (libc_error (reply_ret r1));
      cbn [prog_bind run put_write pure] in Hrun;
      (destruct rest as [|r2 rest]; cbn in Hrun; [discriminate|]);
      inversion Hrun; subst; exists r, r1, r2; auto.
  - intros s' Hrun. destruct replies as [|r rest]; [discriminate|].
    cbn [run] in Hrun.
    destruct (Z.eqb_spec (reply_ret r) 0) as [E|E];
      cbn [negb prog_bind run pure] in Hrun.
    + inversion Hrun; subst. exists r. auto.
    + destruct rest as [|r1 rest]; [discriminate|].
      cbn [run] in Hrun. destruct (libc_error (reply_ret r1));
        cbn [prog_bind run put_write pure] in Hrun;
        destruct rest; cbn in Hrun; discriminate.
  - intros Hrun. destruct replies as [|r rest]; [discriminate|].
    cbn [run] in Hrun.
    destruct (Z.eqb_spec (reply_ret r) 0) as [E|E];
      cbn [negb prog_bind run pure] in Hrun; [discriminate|].
    destruct rest as [|r1 rest]; [discriminate|].
    cbn [run] in Hrun. destruct (libc_error (reply_ret r1));
      cbn [prog_bind run put_write pure] in Hrun;
      (destruct rest as [|r2 rest]; cbn in Hrun; [discriminate|]);
      inversion Hrun; subst; exists r, r1, r2; auto.
Qed.

End Wrappers.

Section WrappersAtSamples.
Import Linux Preload.

Lemma sample_fits :
  ~ ring_full (H := i386_header) (sample_state 0 0 16)
      (clock_gettime_record_end (reserved (sample_state 0 0 16)) 3221221000).
Proof. intros Hfull. vm_compute in Hfull. discriminate. Qed.

Lemma buffered_call_commits_witness :
  header_ok (H := i386_header) /\
  ring_ok (sample_state 0 0 16) /\
  buffer_locked (sample_state 0 0 16) = 0 /\
  ~ ring_full (sample_state 0 0 16)
      (clock_gettime_record_end (reserved (sample_state 0 0 16))
         3221221000) /\
  exists s',
    run (clock_gettime 1 3221221000 (sample_state 0 0 16)) [plain_reply 0] =
      ([(Untraced SYS_clock_gettime
           [AInt 1; APtr 1879048220; AInt 0; AInt 0; AInt 0],
         plain_reply 0)],
       Returned (0, s')) /\
    buffer_locked s' = 0 /\
    load s' 1879048192 hdr_num_rec_bytes = 32.
Proof.
  assert (Hr : ring_ok (H := i386_header) (sample_state 0 0 16))
    by (apply sample_ring_ok; lia).
  split; [exact i386_header_ok|]. split; [exact Hr|].
  split; [reflexivity|]. split; [exact sample_fits|].
  destruct (proj1 (buffered_call_commits (sample_state 0 0 16)
                     (plain_reply 0) [] i386_header_ok Hr eq_refl)
              1 3221221000 sample_fits)
    as (s' & E & C1 & _ & C3 & _).
  exists s'. split; [exact E|]. split; [exact C1|]. exact C3.
Defined.

Lemma wrapper_keeps_ring_witness :
  header_ok (H := i386_header) /\ header_small (H := i386_header) /\
  ring_ok (sample_state 0 0 16) /\
  exists e v s',
    run (gettimeofday 3221221000 0 (sample_state 0 0 16)) [plain_reply 0] =
      ([(e, plain_reply 0)], Returned (v, s')) /\
    buffer_locked s' = 0 /\ ring_ok s'.
Proof.
  assert (Hr : ring_ok (H := i386_header) (sample_state 0 0 16))
    by (apply sample_ring_ok; lia).
  split; [exact i386_header_ok|]. split; [exact i386_header_small|].
  split; [exact Hr|].
  destruct (proj2 (wrapper_keeps_ring (sample_state 0 0 16)
                     (plain_reply 0) [] i386_header_ok i386_header_small
                     Hr eq_refl) 3221221000 0)
    as (e & v & s' & E & _ & C2 & _ & C4).
  exists e, v, s'. split; [exact E|]. split; [exact (C2 eq_refl) | exact C4].
Defined.

Lemma next_record_starts_at_stored_end_witness :
  exists v s',
    commit_syscall SYS_clock_gettime 1879048228 0 NO_DESCHED
      (sample_state 1 0 16) = Done (v, s') /\
    buffer_last s' = 1879048228.
Proof.
  assert (Hr : ring_ok (H := i386_header) (sample_state 1 0 16))
    by (apply sample_ring_ok; lia).
  assert (E : exists v s',
            commit_syscall SYS_clock_gettime 1879048228 0 NO_DESCHED
              (sample_state 1 0 16) = Done (v, s'))
    by (vm_compute; eauto).
  destruct E as (v & s' & E). exists v, s'. split; [exact E|].
  rewrite (next_record_starts_at_stored_end (H := i386_header)
             SYS_clock_gettime 1879048228 0 NO_DESCHED
             (sample_state 1 0 16) s' v i386_header_ok i386_header_small Hr).
  - reflexivity.
  - vm_compute. split; discriminate.
  - intros Hfull. vm_compute in Hfull. discriminate.
  - reflexivity.
  - exact E.
Defined.

Lemma errno_conventions_differ_witness :
  exists v1 s1 v2 s2,
    run (syscall SYS_clock_gettime [AInt 1; APtr 0] (sample_state 0 0 16))
      [plain_reply (-200)] =
      ([(Traced SYS_clock_gettime [AInt 1; APtr 0], plain_reply (-200))],
       Returned (v1, s1)) /\
    update_errno_ret (-200)
      (after_untraced (plain_reply (-200)) (sample_state 0 0 16)) =
      Done (v2, s2) /\
    v1 = -1 /\ errno s1 = 200 /\ v2 = -200 /\ errno s2 = 0.
Proof.
  destruct (errno_conventions_differ SYS_clock_gettime
              [AInt 1; APtr 0] (sample_state 0 0 16) (plain_reply (-200)) [])
    as (v1 & s1 & v2 & s2 & E1 & E2 & _ & Hd).
  exists v1, s1, v2, s2. split; [exact E1|]. split; [exact E2|].
  apply Hd. vm_compute. split; [discriminate | reflexivity].
Defined.

Lemma desched_event_ioctls_witness :
  exists t s',
    run (arm_desched_event (sample_state 1 0 16)) [plain_reply 0] =
      (t, Returned (tt, s')) /\
    t = [(Untraced SYS_ioctl
            [AInt 5; AInt PERF_EVENT_IOC_ENABLE; AInt 0; AInt 0; AInt 0],
          plain_reply 0)].
Proof.
  assert (E : exists t s',
            run (arm_desched_event (sample_state 1 0 16))
              [plain_reply 0] = (t, Returned (tt, s')))
    by (vm_compute; eauto).
  destruct E as (t & s' & E). exists t, s'. split; [exact E|].
  destruct (proj1 (desched_event_ioctls
                     (sample_state 1 0 16) [plain_reply 0] t) s' E)
    as (r & -> & _ & _).
  vm_compute in E. inversion E. reflexivity.
Defined.

End WrappersAtSamples.

(** * Further properties of the diverter *)

Section Diversion.
Import Linux Diverter.
Context `{K : Tracees}.

Ltac by_type req :=
  destruct req as [ty target len]; destruct ty; cbn in *.

Lemma set_syscall_result_same (r : Registers) :
  set_syscall_result r (syscall_result r) = r.
Proof. destruct r. reflexivity. Qed.

Lemma not_blacklisted (syscallno : Z) :
  ~ In syscallno blacklist ->
  (syscallno =? SYS_ipc) || (syscallno =? SYS_kill) ||
  (syscallno =? SYS_rt_sigqueueinfo) ||
  (syscallno =? SYS_rt_tgsigqueueinfo) ||
  (syscallno =? SYS_tgkill) || (syscallno =? SYS_tkill) = false.
Proof.
  intros Hn. unfold blacklist in Hn. cbn [In] in Hn.
  repeat match goal with
  | |- context [syscallno =? ?c] =>
      destruct (Z.eqb_spec syscallno c);
        [exfalso; apply Hn; subst; auto 10|]
  end.
  reflexivity.
Qed.

(** X12: every syscall that is neither blacklisted nor an ioctl on the
    desched counter is executed for the tracee: the emulated syscall is
    finished first, then the syscall named by the task's registers is
    made in the tracee with the six arguments of the registers, and its
    result is put into the result register. *)
Theorem other_syscalls_executed (t : Task) (syscallno : Z) :
  ~ In syscallno blacklist ->
  (syscallno = SYS_ioctl -> is_desched_event_syscall t = false) ->
  process_syscall t syscallno = execute_syscall t /\
  regs (process_syscall t syscallno) =
    set_syscall_result (regs t)
      (remote_syscall_result
         (did (op_remote_syscall (original_syscallno (regs t))
                 (arg1 (regs t)) (arg2 (regs t)) (arg3 (regs t))
                 (arg4 (regs t)) (arg5 (regs t)) (arg6 (regs t)))
            (finish_emulated_syscall t))) /\
  ops (process_syscall t syscallno) =
    ops t ++ [op_finish_emulated_syscall;
              op_remote_syscall (original_syscallno (regs t))
                (arg1 (regs t)) (arg2 (regs t)) (arg3 (regs t))
                (arg4 (regs t)) (arg5 (regs t)) (arg6 (regs t))].
Proof.
  intros Hn Hio.
  assert (E : process_syscall t syscallno = execute_syscall t).
  { unfold process_syscall.
    destruct (Z.eqb_spec syscallno SYS_ioctl) as [Ei|Ei].
    - rewrite (Hio Ei). reflexivity.
    - rewrite (not_blacklisted _ Hn). reflexivity. }
  rewrite E. split; [reflexivity|].
  unfold execute_syscall, remote_syscall, finish_emulated_syscall. cbn.
  rewrite <- app_assoc. split; reflexivity.
Qed.

Lemma process_syscall_changes (t : Task) (syscallno : Z) :
  exists v done,
    regs (process_syscall t syscallno) = set_syscall_result (regs t) v /\
    ops (process_syscall t syscallno) = ops t ++ done /\
    rec_tid (process_syscall t syscallno) = rec_tid t /\
    tgid (process_syscall t syscallno) = tgid t /\
    child_sig (process_syscall t syscallno) = child_sig t /\
    pending_sig (process_syscall t syscallno) = pending_sig t.
Proof.
  assert (Hx : exists v done,
            regs (execute_syscall t) = set_syscall_result (regs t) v /\
            ops (execute_syscall t) = ops t ++ done /\
            rec_tid (execute_syscall t) = rec_tid t /\
            tgid (execute_syscall t) = tgid t /\
            child_sig (execute_syscall t) = child_sig t /\
            pending_sig (execute_syscall t) = pending_sig t).
  { unfold execute_syscall, remote_syscall, finish_emulated_syscall. cbn.
    eexists _, [_; _]. rewrite <- app_assoc. cbn. repeat split. }
  unfold process_syscall.
  destruct (syscallno =? SYS_ioctl).
  - destruct (is_desched_event_syscall t); cbn [negb]; [|exact Hx].
    exists 0, [op_finish_emulated_syscall]. cbn. repeat split.
  - destruct ((syscallno =? SYS_ipc) || (syscallno =? SYS_kill) ||
              (syscallno =? SYS_rt_sigqueueinfo) ||
              (syscallno =? SYS_rt_tgsigqueueinfo) ||
              (syscallno =? SYS_tgkill) || (syscallno =? SYS_tkill));
      [|exact Hx].
    exists (syscall_result (regs t)), [].
    rewrite set_syscall_result_same, app_nil_r. repeat split.
Qed.

(** X13: whatever the syscall, [process_syscall] changes nothing of the
    task but the result register, and only adds to what the task was
    made to do: the syscall number, the arguments and the instruction
    pointer, the task's ids and its signals stay. *)
Theorem process_syscall_frame (t : Task) (syscallno : Z) :
  let t' := process_syscall t syscallno in
  original_syscallno (regs t') = original_syscallno (regs t) /\
  arg1 (regs t') = arg1 (regs t) /\ arg2 (regs t') = arg2 (regs t) /\
  arg3 (regs t') = arg3 (regs t) /\ arg4 (regs t') = arg4 (regs t) /\
  arg5 (regs t') = arg5 (regs t) /\ arg6 (regs t') = arg6 (regs t) /\
  ip (regs t') = ip (regs t) /\
  (exists done, ops t' = ops t ++ done) /\
  rec_tid t' = rec_tid t /\ tgid t' = tgid t /\
  child_sig t' = child_sig t /\ pending_sig t' = pending_sig t.
Proof.
  cbv zeta.
  destruct (process_syscall_changes t syscallno)
    as (v & done & -> & Hops & H1 & H2 & H3 & H4).
  cbn. repeat split; try assumption. exists done. exact Hops.
Qed.


(** X14: [advance] resumes the task once, to continue or to step.  It
    returns false exactly when the task stopped with a signal pending,
    and then no syscall was processed; it returns true when the task
    stopped at a syscall, which has then been processed.  It aborts the
    tracer if the task has a signal to deliver or the request is not a
    resume request. *)
Theorem advance_outcomes (t : Task) (req : dbg_request) :
  (advance t req = Diverter.Abort <->
   child_sig t <> 0 \/ dbg_is_resume_request req = false) /\
  (forall flag t',
     advance t req = Diverter.Ok (flag, t') ->
     let resumed :=
       match type req with
       | DREQ_STEP => cont_sysemu_singlestep t
       | _ => cont_sysemu t
       end in
     (flag = false <-> pending_sig resumed <> 0) /\
     (flag = false -> t' = resumed) /\
     (flag = true ->
      t' = process_syscall resumed (original_syscallno (regs resumed))) /\
     pending_sig t' = pending_sig resumed).
Proof.
  unfold advance, dbg_is_resume_request. split.
  - destruct (Z.eqb_spec (child_sig t) 0) as [E|E]; cbn [negb].
    + by_type req;
        repeat match goal with
        | |- context [if ?c then _ else _] => destruct c
        end;
        (split;
         [ intros F; first [discriminate | right; reflexivity]
         | intros [F|F];
           first [contradiction | discriminate | reflexivity] ]).
    + split; [intros _; left; exact E | reflexivity].
  - intros flag t' Ha.
    destruct (Z.eqb_spec (child_sig t) 0) as [E|E]; cbn [negb] in Ha;
      [|discriminate].
    destruct req as [ty target len]; destruct ty; cbn [type] in *;
      try discriminate;
      match type of Ha with
      | context [pending_sig ?x =? 0] =>
          destruct (Z.eqb_spec (pending_sig x) 0) as [Ep|Ep];
          cbn [negb] in Ha; inversion Ha; subst flag t'; clear Ha
      end;
      repeat split; intros; try discriminate; try congruence;
      try reflexivity;
      match goal with
      | |- pending_sig (process_syscall ?x ?n) = _ =>
          destruct (process_syscall_changes x n)
            as (v & done & _ & _ & _ & _ & _ & Hp); exact Hp
      end.
Qed.





Lemma process_debugger_requests_null (incoming : list dbg_request) :
  forall s t' req s' rest,
    process_debugger_requests incoming s None = Resume t' req s' rest ->
    t' = None.
Proof.
  induction incoming as [|req0 incoming IH]; intros s t' req s' rest;
    cbn [process_debugger_requests]; [discriminate|].
  destruct req0 as [ty target len]; destruct ty;
    cbn [dbg_is_resume_request is_break_request type andb];
    try (destruct (diversion_dying s); intros F; inversion F; reflexivity);
    try (intros F; inversion F; reflexivity);
    try discriminate;
    try (apply IH);
    try (destruct (diversion_dying s);
         [intros F; inversion F; reflexivity | apply IH]).
Qed.

(** X16: [divert] for a tid that is not a task of the session resumes
    nothing.  It goes through the debugger's requests once, with a null
    task: it ends the diversion if the session is dying at the request
    that stops it, waits if the requests run out, and aborts the tracer
    otherwise (the assertion after the loop, or the null task at a
    set-query-thread request). *)
Theorem unknown_task_never_resumed (s : Session)
    (incoming : list dbg_request) (task : Z) :
  tasks s !! task = None ->
  divert s incoming task =
    match process_debugger_requests incoming s None with
    | Resume _ req s' rest =>
        if diversion_dying s' then Diverted req (kill_all_tasks s') rest
        else Aborted
    | Crash => Aborted
    | Waiting s' => Blocked s'
    end.
Proof.
  intros Hno. unfold divert, find_task. rewrite Hno.
  cbn [divert_loop].
  destruct (process_debugger_requests incoming s None)
    as [t' req s' rest | | s'] eqn:E; try reflexivity.
  apply process_debugger_requests_null in E. subst t'. reflexivity.
Qed.

(** X17: a restart request on a session the debugger still holds
    references to does not end the diversion in an orderly way: the
    loop is left with a null task, and the assertion that the session
    is dying aborts the tracer. *)
Theorem live_restart_aborts_tracer (fuel : nat) (incoming : list dbg_request)
    (s : Session) (t : option Z) (req : dbg_request) (s' : Session)
    (rest : list dbg_request) :
  process_debugger_requests incoming s t = Resume None req s' rest ->
  type req = DREQ_RESTART ->
  diversion_refcount s' <> 0 ->
  divert_loop (S fuel) incoming s t = Aborted.
Proof.
  intros E _ Hrc. cbn [divert_loop]. rewrite E.
  unfold diversion_dying. apply Z.eqb_neq in Hrc. rewrite Hrc. reflexivity.
Qed.


End Diversion.

Section DiversionAtSamples.
Import Linux Diverter.

Lemma other_syscalls_executed_witness :
  ~ In SYS_getpid blacklist /\
  process_syscall (at_syscall_entry SYS_getpid 0 0) SYS_getpid =
    execute_syscall (at_syscall_entry SYS_getpid 0 0) /\
  ops (process_syscall (at_syscall_entry SYS_getpid 0 0) SYS_getpid) =
    [op_finish_emulated_syscall; op_remote_syscall SYS_getpid 0 0 0 0 0 0].
Proof.
  assert (Hn : ~ In SYS_getpid blacklist).
  { intros F. vm_compute in F. intuition discriminate. }
  split; [exact Hn|].
  destruct (other_syscalls_executed (K := quiet_tracees)
              (at_syscall_entry SYS_getpid 0 0) SYS_getpid Hn
              ltac:(discriminate))
    as (E1 & _ & E3).
  split; [exact E1 | exact E3].
Defined.

Lemma advance_outcomes_witness :
  exists t',
    advance (K := signal_tracees) (at_syscall_entry SYS_getpid 0 0)
      (request DREQ_STEP) = Diverter.Ok (false, t') /\
    t' = cont_sysemu_singlestep (K := signal_tracees)
           (at_syscall_entry SYS_getpid 0 0) /\
    ops t' = [op_cont_sysemu_singlestep].
Proof.
  eexists. split; [vm_compute; reflexivity|].
  split; [|reflexivity].
  apply (proj2 (advance_outcomes (K := signal_tracees)
                  (at_syscall_entry SYS_getpid 0 0) (request DREQ_STEP))
           false _ eq_refl).
  reflexivity.
Defined.


Lemma unknown_task_never_resumed_witness :
  tasks (sample_session 1) !! 99 = None /\
  divert (K := quiet_tracees) (sample_session 1)
    [request DREQ_CONTINUE] 99 = Aborted.
Proof.
  split; [reflexivity|].
  rewrite (unknown_task_never_resumed (K := quiet_tracees)
             (sample_session 1) [request DREQ_CONTINUE] 99 eq_refl).
  reflexivity.
Defined.

Lemma live_restart_aborts_tracer_witness :
  process_debugger_requests [request DREQ_RESTART] (sample_session 1)
    (Some 1234) =
    Resume None (request DREQ_RESTART) (sample_session 1) [] /\
  divert_loop (K := quiet_tracees) 2 [request DREQ_RESTART]
    (sample_session 1) (Some 1234) = Aborted.
Proof.
  split; [reflexivity|].
  apply (live_restart_aborts_tracer (K := quiet_tracees) 1
           [request DREQ_RESTART] (sample_session 1) (Some 1234)
           (request DREQ_RESTART) (sample_session 1) []);
    [reflexivity | reflexivity | discriminate].
Defined.


End DiversionAtSamples.
